(** * NotionGoogleChatAPI: the aggregation and traversal core of application.py

    A shallow embedding of the pagination loops ([read_events],
    [query_notion_database]), the block tree flattener
    ([retrieve_all_blocks]), the text extractor ([extract_text_from_blocks])
    and the calendar handlers ([create_event], [edit_event], [delete_event]),
    with the properties the specification states about them.

    Python values are modelled by the inductive [value] (numbers are
    integers); a dict is an association list in insertion order (iteration
    over a dict yields its keys in that order, which a finite map would
    forget).  Exceptions are
    explicit: a computation returns a [result].  The two upstream services
    are parameters: a provider maps the log of earlier requests and the
    current request to a response or to an exception. *)

From Stdlib Require Import List String Ascii ZArith Bool Arith Lia Permutation.
Import ListNotations.
Open Scope string_scope.
Open Scope list_scope.
Set Warnings "-register-all".

(* ===================================================================== *)
(** ** Python values, exceptions and the operations the source uses      *)
(* ===================================================================== *)

Module Py.

Inductive value : Type :=
| VNone
| VBool (b : bool)
| VInt (z : Z)
| VStr (s : string)
| VList (l : list value)
| VDict (d : list (string * value)).

(** A dict with string keys (every dict of the program is decoded JSON or a
    literal), in insertion order, keys pairwise distinct. *)
Definition dict := list (string * value).

Inductive exn : Type :=
| KeyError (key : string)
| AttributeError (obj : value) (attr : string)
| NotIterable (obj : value)
| Unhashable (key : value)
| JoinItem (index : nat) (item : value)
| BadSubscript (obj : value)
| SdkError (payload : string).

Inductive result (A : Type) : Type :=
| Ok (a : A)
| Raise (e : exn).
Arguments Ok {A} a.
Arguments Raise {A} e.

Definition bind {A B} (c : result A) (k : A -> result B) : result B :=
  match c with
  | Ok a => k a
  | Raise e => Raise e
  end.

Notation "x <- c ;; k" := (bind c (fun x => k))
  (at level 61, c at next level, right associativity).

(** [try: body except Exception as e: handler e] *)
Definition try_except {A} (body : result A) (handler : exn -> A) : A :=
  match body with
  | Ok a => a
  | Raise e => handler e
  end.

Fixpoint dict_get (d : dict) (k : string) : option value :=
  match d with
  | [] => None
  | (k', v) :: d' => if String.eqb k' k then Some v else dict_get d' k
  end.

(** [d[k] = v]: an existing key keeps its position, a new key goes last. *)
Fixpoint dict_set (d : dict) (k : string) (v : value) : dict :=
  match d with
  | [] => [(k, v)]
  | (k', v') :: d' =>
      if String.eqb k' k then (k', v) :: d' else (k', v') :: dict_set d' k v
  end.

(** [d.get(k, default)] on a dict. *)
Definition dict_get_default (d : dict) (k : string) (default : value) : value :=
  match dict_get d k with
  | Some v => v
  | None => default
  end.

(** [obj.get(key, default)] on an arbitrary value: only a dict has the
    method; a list or dict used as key cannot be hashed; any other key that
    is not a string is not a key of the dict. *)
Definition py_get (obj key default : value) : result value :=
  match obj with
  | VDict d =>
      match key with
      | VStr k => Ok (dict_get_default d k default)
      | VList _ | VDict _ => Raise (Unhashable key)
      | _ => Ok default
      end
  | _ => Raise (AttributeError obj "get")
  end.

(** [obj[k]] for a string literal [k]: a dict looks the key up, no other
    value of the model accepts a string subscript. *)
Definition py_getitem (obj : value) (k : string) : result value :=
  match obj with
  | VDict d =>
      match dict_get d k with
      | Some v => Ok v
      | None => Raise (KeyError k)
      end
  | _ => Raise (BadSubscript obj)
  end.

(** [obj[k] = v] for a string literal [k]. *)
Definition py_setitem (obj : value) (k : string) (v : value) : result value :=
  match obj with
  | VDict d => Ok (VDict (dict_set d k v))
  | _ => Raise (BadSubscript obj)
  end.

(** Truth value testing ([if x], [not x], [all]). *)
Definition truthy (v : value) : bool :=
  match v with
  | VNone => false
  | VBool b => b
  | VInt z => negb (Z.eqb z 0)
  | VStr s => negb (String.eqb s "")
  | VList l => match l with [] => false | _ => true end
  | VDict d => match d with [] => false | _ => true end
  end.

Definition is_none (v : value) : bool :=
  match v with
  | VNone => true
  | _ => false
  end.

Fixpoint chars (s : string) : list value :=
  match s with
  | EmptyString => []
  | String c s' => VStr (String c EmptyString) :: chars s'
  end.

(** Iteration ([for x in v], [list.extend(v)], a comprehension over [v]). *)
Definition py_iter (v : value) : result (list value) :=
  match v with
  | VList l => Ok l
  | VStr s => Ok (chars s)
  | VDict d => Ok (map (fun kv => VStr (fst kv)) d)
  | _ => Raise (NotIterable v)
  end.

(** [[f(x) for x in xs]] with [f] able to raise. *)
Fixpoint comprehension {A B} (f : A -> result B) (xs : list A) : result (list B) :=
  match xs with
  | [] => Ok []
  | x :: xs' =>
      y <- f x ;;
      ys <- comprehension f xs' ;;
      Ok (y :: ys)
  end.

(** [for x in xs: acc = body(x, acc)] with [body] able to raise. *)
Fixpoint for_each {A S} (body : A -> S -> result S) (xs : list A) (acc : S) : result S :=
  match xs with
  | [] => Ok acc
  | x :: xs' =>
      acc' <- body x acc ;;
      for_each body xs' acc'
  end.

(** [sep.join(pieces)] with the empty separator: every piece must be a str. *)
Fixpoint join_from (i : nat) (pieces : list value) : result string :=
  match pieces with
  | [] => Ok ""
  | VStr s :: rest =>
      r <- join_from (S i) rest ;;
      Ok (s ++ r)%string
  | v :: _ => Raise (JoinItem i v)
  end.

Definition py_join_empty (pieces : list value) : result string :=
  join_from 0 pieces.

(** [v in [s1, s2, ...]] for a list of string literals. *)
Definition in_literals (v : value) (lits : list string) : bool :=
  match v with
  | VStr s => existsb (String.eqb s) lits
  | _ => false
  end.

(** [l.pop()]: the last element and the list without it. *)
Definition pop {A} (l : list A) : option (A * list A) :=
  match rev l with
  | [] => None
  | x :: r => Some (x, rev r)
  end.

(** A loop that runs its body until the body breaks out or raises.  The
    body maps the loop variables and the log of upstream calls made so far
    to the next loop variables ([inl]) or to the value the loop leaves with
    ([inr]), and extends the log.  [fuel] bounds the number of iterations of
    the model only: the source has no such bound, and [None] stands for a
    loop that is still running. *)
Section Loop.
Context {St Out Call : Type}.
Variable body : St -> list Call -> result (St + Out) * list Call.

Fixpoint while_loop (fuel : nat) (st : St) (log : list Call)
  : option (result Out) * list Call :=
  match fuel with
  | O => (None, log)
  | S fuel' =>
      match body st log with
      | (Raise e, log') => (Some (Raise e), log')
      | (Ok (inr out), log') => (Some (Ok out), log')
      | (Ok (inl st'), log') => while_loop fuel' st' log'
      end
  end.
End Loop.

(** An HTTP answer of a route handler: [jsonify(body)] with a status,
    [abort(status, description=...)], or an exception no handler catches
    (the framework answers 500). *)
Inductive http_response : Type :=
| Jsonify (body : value) (status : Z)
| Abort (status : Z) (description : string)
| Unhandled (e : exn).

Definition status_of (r : http_response) : Z :=
  match r with
  | Jsonify _ status => status
  | Abort status _ => status
  | Unhandled _ => 500
  end.

(** [request.args.get(name, default)]: the query string maps names to strings. *)
Fixpoint args_get (args : list (string * string)) (name : string) (default : value) : value :=
  match args with
  | [] => default
  | (k, v) :: args' => if String.eqb k name then VStr v else args_get args' name default
  end.

End Py.
Import Py.

(* ===================================================================== *)
(** ** Text extractor: [extract_text_from_blocks] (lines 224-251)        *)
(* ===================================================================== *)

Module Extractor.

Definition text_types : list string :=
  ["paragraph"; "heading_1"; "heading_2"; "heading_3";
   "bulleted_list_item"; "numbered_list_item"; "to_do"].

Definition heading_types : list string :=
  ["heading_1"; "heading_2"; "heading_3"].

(** The body of the [for block in blocks] loop. *)
Definition extract_block (block : value) (text_content : list value)
  : result (list value) :=
  block_type <- py_get block (VStr "type") VNone ;;
  block_data <- py_get block block_type (VDict []) ;;
  if in_literals block_type text_types then
    text_elements <- py_get block_data (VStr "rich_text") (VList []) ;;
    elements <- py_iter text_elements ;;
    text_pieces <-
      comprehension (fun element => py_get element (VStr "plain_text") (VStr ""))
                    elements ;;
    if in_literals block_type heading_types then
      joined <- py_join_empty text_pieces ;;
      Ok (text_content ++ [VStr ("**" ++ joined ++ "**")%string])
    else
      joined <- py_join_empty text_pieces ;;
      Ok (text_content ++ [VStr joined])
  else if in_literals block_type ["child_page"] then
    page_title <- py_get block_data (VStr "title") (VStr "") ;;
    Ok (text_content ++ [page_title])
  else
    Ok text_content.

Definition extract_text_from_blocks (blocks : value) : result (list value) :=
  items <- py_iter blocks ;;
  for_each extract_block items [].

(** *** The contract of section 4.3, in the specification's words *)

Inductive block_kind : Type :=
| TextBearing (type_tag : string)
| Heading (type_tag : string)
| NestedPage
| Unrecognized.

(** A content block as the data model of section 3 describes it: a kind,
    the plain-text values of its rich-text spans, and a title if it has one. *)
Record content_block : Type := {
  kind : block_kind;
  span_texts : list string;
  title : option string
}.

Definition spec_contribution (b : content_block) : list string :=
  match kind b with
  | TextBearing _ => [String.concat "" (span_texts b)]
  | Heading _ => [("**" ++ String.concat "" (span_texts b) ++ "**")%string]
  | NestedPage => [match title b with Some t => t | None => "" end]
  | Unrecognized => []
  end.

Definition spec_extract (bs : list content_block) : list string :=
  flat_map spec_contribution bs.

(** When a value is a rich-text span with the given plain text (an absent
    plain text reads as the empty string, line 241). *)
Definition span_of (text : string) (element : value) : Prop :=
  exists d, element = VDict d /\
            dict_get_default d "plain_text" (VStr "") = VStr text.

(** The payload stored under the block's own type tag carries the spans
    (an absent payload or span list reads as empty, lines 229 and 240). *)
Definition payload_spans (block : dict) (tag : string) (texts : list string) : Prop :=
  exists data elements,
    dict_get_default block tag (VDict []) = VDict data /\
    dict_get_default data "rich_text" (VList []) = VList elements /\
    Forall2 span_of texts elements.

(** When a dict of the provider represents a content block. *)
Definition represents (b : content_block) (block : value) : Prop :=
  exists d, block = VDict d /\
  match kind b with
  | TextBearing tag =>
      dict_get d "type" = Some (VStr tag) /\
      In tag text_types /\ ~ In tag heading_types /\
      payload_spans d tag (span_texts b)
  | Heading tag =>
      dict_get d "type" = Some (VStr tag) /\
      In tag heading_types /\
      payload_spans d tag (span_texts b)
  | NestedPage =>
      dict_get d "type" = Some (VStr "child_page") /\
      exists data,
        dict_get_default d "child_page" (VDict []) = VDict data /\
        match title b with
        | Some t => dict_get data "title" = Some (VStr t)
        | None => dict_get data "title" = None
        end
  | Unrecognized =>
      match dict_get_default d "type" VNone with
      | VStr tag => ~ In tag text_types /\ tag <> "child_page"
      | VList _ | VDict _ => False
      | _ => True
      end
  end.

End Extractor.

(* ===================================================================== *)
(** ** The calendar service and its handlers                             *)
(* ===================================================================== *)

Module Calendar.

(** The requests the handlers send to the calendar provider, with the
    keyword arguments of the source. *)
Inductive calendar_call : Type :=
| EventsList (calendarId timeMin timeMax : value) (singleEvents : bool)
             (orderBy : string) (pageToken : value) (maxResults : Z)
| EventsInsert (calendarId body : value)
| EventsGet (calendarId eventId : value)
| EventsUpdate (calendarId eventId body : value)
| EventsDelete (calendarId eventId : value).

(** The service object: building a request and executing it answers with
    the decoded response or raises; the answer may depend on the requests
    sent before. *)
Definition service := list calendar_call -> calendar_call -> result value.

Section Handlers.
(** [str(e)] on an exception object. *)
Variable str_exn : exn -> string.
(** [get_calendar_service()]: the credential plumbing of lines 31-46
    either hands out the service object or raises. *)
Variable get_calendar_service : result service.

(** One iteration of the [while True] loop of [read_events] (lines 59-73);
    the loop variables are [events] and [page_token]. *)
Definition read_events_body (svc : service) (calendar_id time_min time_max : value)
           (st : list value * value) (log : list calendar_call)
  : result (list value * value + list value) * list calendar_call :=
  let '(events, page_token) := st in
  let list_request :=
    EventsList calendar_id time_min time_max true "startTime" page_token 2500 in
  (events_result <- svc log list_request ;;
   items <- py_get events_result (VStr "items") (VList []) ;;
   new_items <- py_iter items ;;
   let events := events ++ new_items in
   page_token <- py_get events_result (VStr "nextPageToken") VNone ;;
   if negb (truthy page_token) then Ok (inr events)
   else Ok (inl (events, page_token)),
   log ++ [list_request]).

(** [read_events] (lines 48-76); [now] is
    [datetime.datetime.utcnow().isoformat()]. *)
Definition read_events (fuel : nat) (now : string) (args : list (string * string))
  : option http_response * list calendar_call :=
  match get_calendar_service with
  | Raise e => (Some (Unhandled e), [])
  | Ok svc =>
      let calendar_id := args_get args "calendar_id" (VStr "primary") in
      let time_min := args_get args "time_min" (VStr (now ++ "Z")) in
      let time_max := args_get args "time_max" VNone in
      match while_loop (read_events_body svc calendar_id time_min time_max)
                       fuel ([], VNone) [] with
      | (None, log) => (None, log)
      | (Some (Ok events), log) => (Some (Jsonify (VList events) 200), log)
      | (Some (Raise e), log) => (Some (Abort 500 (str_exn e)), log)
      end
  end.

(** [create_event] (lines 78-106). *)
Definition create_event (data : value) : http_response * list calendar_call :=
  match get_calendar_service with
  | Raise e => (Unhandled e, [])
  | Ok svc =>
      match
        (calendar_id <- py_get data (VStr "calendar_id") (VStr "primary") ;;
         summary <- py_get data (VStr "summary") VNone ;;
         description <- py_get data (VStr "description") VNone ;;
         start_time <- py_get data (VStr "start_time") VNone ;;
         end_time <- py_get data (VStr "end_time") VNone ;;
         attendees <- py_get data (VStr "attendees") (VList []) ;;
         Ok (calendar_id, summary, description, start_time, end_time, attendees))
      with
      | Raise e => (Unhandled e, [])
      | Ok (calendar_id, summary, description, start_time, end_time, attendees) =>
          if negb (forallb truthy [summary; start_time; end_time]) then
            (Abort 400 "Missing required event fields.", [])
          else
            match py_iter attendees with
            | Raise e => (Unhandled e, [])
            | Ok attendee_list =>
                let event :=
                  VDict [("summary", summary);
                         ("description", description);
                         ("start", VDict [("dateTime", start_time)]);
                         ("end", VDict [("dateTime", end_time)]);
                         ("attendees",
                          VList (map (fun attendee => VDict [("email", attendee)])
                                     attendee_list))] in
                let insert_request := EventsInsert calendar_id event in
                (try_except
                   (created_event <- svc [] insert_request ;;
                    Ok (Jsonify created_event 200))
                   (fun e => Abort 500 (str_exn e)),
                 [insert_request])
            end
      end
  end.

(** The five conditional overwrites of [edit_event] (lines 124-139). *)
Definition overwrite_fields (event data : value) : result value :=
  summary <- py_get data (VStr "summary") VNone ;;
  description <- py_get data (VStr "description") VNone ;;
  start_time <- py_get data (VStr "start_time") VNone ;;
  end_time <- py_get data (VStr "end_time") VNone ;;
  attendees <- py_get data (VStr "attendees") VNone ;;
  event <- (if negb (is_none summary)
            then py_setitem event "summary" summary else Ok event) ;;
  event <- (if negb (is_none description)
            then py_setitem event "description" description else Ok event) ;;
  event <- (if negb (is_none start_time)
            then py_setitem event "start" (VDict [("dateTime", start_time)])
            else Ok event) ;;
  event <- (if negb (is_none end_time)
            then py_setitem event "end" (VDict [("dateTime", end_time)])
            else Ok event) ;;
  if negb (is_none attendees) then
    attendee_list <- py_iter attendees ;;
    py_setitem event "attendees"
      (VList (map (fun attendee => VDict [("email", attendee)]) attendee_list))
  else Ok event.

(** [edit_event] (lines 108-146). *)
Definition edit_event (data : value) : http_response * list calendar_call :=
  match get_calendar_service with
  | Raise e => (Unhandled e, [])
  | Ok svc =>
      match
        (calendar_id <- py_get data (VStr "calendar_id") (VStr "primary") ;;
         event_id <- py_get data (VStr "event_id") VNone ;;
         Ok (calendar_id, event_id))
      with
      | Raise e => (Unhandled e, [])
      | Ok (calendar_id, event_id) =>
          if negb (truthy event_id) then
            (Abort 400 "Event ID is required.", [])
          else
            let get_request := EventsGet calendar_id event_id in
            match svc [] get_request with
            | Raise e =>
                (Abort 500 ("Error retrieving event: " ++ str_exn e), [get_request])
            | Ok event =>
                match overwrite_fields event data with
                | Raise e => (Unhandled e, [get_request])
                | Ok event =>
                    let update_request := EventsUpdate calendar_id event_id event in
                    (try_except
                       (updated_event <- svc [get_request] update_request ;;
                        Ok (Jsonify updated_event 200))
                       (fun e => Abort 500 ("Error updating event: " ++ str_exn e)),
                     [get_request; update_request])
                end
            end
      end
  end.

(** [delete_event] (lines 148-162). *)
Definition delete_event (args : list (string * string))
  : http_response * list calendar_call :=
  match get_calendar_service with
  | Raise e => (Unhandled e, [])
  | Ok svc =>
      let calendar_id := args_get args "calendar_id" (VStr "primary") in
      let event_id := args_get args "event_id" VNone in
      if negb (truthy event_id) then
        (Abort 400 "Event ID is required.", [])
      else
        let delete_request := EventsDelete calendar_id event_id in
        (try_except
           (_ <- svc [] delete_request ;;
            Ok (Jsonify (VDict [("status", VStr "success");
                                ("message", VStr "Event deleted successfully")])
                        200))
           (fun e => Abort 500 (str_exn e)),
         [delete_request])
  end.

End Handlers.

(** The dict a conditional overwrite of lines 130-139 leaves behind: entry
    [k] set to [v] when the requested value is not [None]. *)
Definition overwrite_if (requested : value) (event : dict) (k : string) (v : value)
  : dict :=
  if negb (is_none requested) then dict_set event k v else event.

End Calendar.

(* ===================================================================== *)
(** ** The workspace provider: database query and block tree flattener   *)
(* ===================================================================== *)

Module Notion.

(** The requests sent to the workspace provider.  [start_cursor] of a
    children listing is [None] when the keyword argument is not passed. *)
Inductive notion_call : Type :=
| BlocksChildrenList (block_id : value) (start_cursor : option value)
| DatabasesQuery (database_id filter sorts start_cursor page_size : value).

(** The client: a request answers with the decoded response or raises; the
    answer may depend on the requests sent before. *)
Definition client := list notion_call -> notion_call -> result value.

Section Handlers.
Variable str_exn : exn -> string.
Variable notion : client.

(** One iteration of the [while True] loop of [query_notion_database]
    (lines 352-364); the loop variables are [results] and [start_cursor]. *)
Definition query_body (database_id filter sorts page_size : value)
           (st : list value * value) (log : list notion_call)
  : result (list value * value + list value) * list notion_call :=
  let '(results, start_cursor) := st in
  let query := DatabasesQuery database_id filter sorts start_cursor page_size in
  (response <- notion log query ;;
   page <- py_get response (VStr "results") (VList []) ;;
   new_items <- py_iter page ;;
   let results := results ++ new_items in
   has_more <- py_get response (VStr "has_more") VNone ;;
   start_cursor <- py_get response (VStr "next_cursor") VNone ;;
   if negb (truthy has_more) then Ok (inr results)
   else Ok (inl (results, start_cursor)),
   log ++ [query]).

(** [query_notion_database] (lines 337-368). *)
Definition query_notion_database (fuel : nat) (data : value)
  : option http_response * list notion_call :=
  match
    (database_id <- py_get data (VStr "database_id") VNone ;;
     filter <- py_get data (VStr "filter") VNone ;;
     sorts <- py_get data (VStr "sorts") VNone ;;
     page_size <- py_get data (VStr "page_size") (VInt 100) ;;
     Ok (database_id, filter, sorts, page_size))
  with
  | Raise e => (Some (Unhandled e), [])
  | Ok (database_id, filter, sorts, page_size) =>
      if negb (truthy database_id) then
        (Some (Jsonify (VDict [("error", VStr "Database ID is required")]) 400), [])
      else
        match while_loop (query_body database_id filter sorts page_size)
                         fuel ([], VNone) [] with
        | (None, log) => (None, log)
        | (Some (Ok results), log) => (Some (Jsonify (VList results) 200), log)
        | (Some (Raise e), log) =>
            (Some (Jsonify (VDict [("error", VStr (str_exn e))]) 500), log)
        end
  end.

(** The body of [for block in block_children] (lines 215-218); the
    variables it updates are [collected_blocks] and [blocks_to_process]. *)
Definition scan_block (block : value) (st : list value * list value)
  : result (list value * list value) :=
  let '(collected_blocks, blocks_to_process) := st in
  let collected_blocks := collected_blocks ++ [block] in
  has_children <- py_get block (VStr "has_children") (VBool false) ;;
  if truthy has_children then
    id <- py_getitem block "id" ;;
    Ok (collected_blocks, blocks_to_process ++ [id])
  else Ok (collected_blocks, blocks_to_process).

(** One test of [while blocks_to_process] and one run of its body
    (lines 210-218); an empty work list leaves the loop with
    [collected_blocks] (line 220). *)
Definition flatten_body (st : list value * list value) (log : list notion_call)
  : result (list value * list value + list value) * list notion_call :=
  let '(collected_blocks, blocks_to_process) := st in
  match pop blocks_to_process with
  | None => (Ok (inr collected_blocks), log)
  | Some (current_block_id, blocks_to_process) =>
      let listing := BlocksChildrenList current_block_id None in
      (response <- notion log listing ;;
       block_children <- py_get response (VStr "results") (VList []) ;;
       children <- py_iter block_children ;;
       st' <- for_each scan_block children (collected_blocks, blocks_to_process) ;;
       Ok (inl st'),
       log ++ [listing])
  end.

(** [retrieve_all_blocks] (lines 205-222): the value the coroutine
    returns, a list on success and [str(e)] when anything raised. *)
Definition retrieve_all_blocks (fuel : nat) (block_id : value)
  : option value * list notion_call :=
  match while_loop flatten_body fuel ([], [block_id]) [] with
  | (None, log) => (None, log)
  | (Some r, log) =>
      (Some (try_except (collected_blocks <- r ;; Ok (VList collected_blocks))
                        (fun e => VStr (str_exn e))),
       log)
  end.

(** [get_all_text_on_page] (lines 253-255). *)
Definition get_all_text_on_page (fuel : nat) (page_id : value)
  : option (result (list value)) :=
  match fst (retrieve_all_blocks fuel page_id) with
  | None => None
  | Some blocks => Some (Extractor.extract_text_from_blocks blocks)
  end.

End Handlers.

(** *** Trees of content blocks *)

(** A block with the trees of its children. *)
Inductive tree : Type :=
| Node (block : value) (kids : list tree).

Definition root_block (t : tree) : value :=
  match t with Node b _ => b end.

Definition kids_of (t : tree) : list tree :=
  match t with Node _ ks => ks end.

(** The blocks of a tree, and of a forest. *)
Fixpoint tree_blocks (t : tree) : list value :=
  match t with
  | Node b ks => b :: flat_map tree_blocks ks
  end.

Definition forest_blocks (ts : list tree) : list value :=
  flat_map tree_blocks ts.

(** Every subtree of a tree (itself included), and of a forest. *)
Fixpoint subtrees (t : tree) : list tree :=
  match t with
  | Node b ks => Node b ks :: flat_map subtrees ks
  end.

Definition forest_subtrees (ts : list tree) : list tree :=
  flat_map subtrees ts.

Fixpoint tree_size (t : tree) : nat :=
  match t with
  | Node _ ks => S (list_sum (map tree_size ks))
  end.

Definition forest_size (ts : list tree) : nat :=
  list_sum (map tree_size ts).

(** The identifier of a block. *)
Definition id_of (block : value) : value :=
  match block with
  | VDict d => dict_get_default d "id" VNone
  | _ => VNone
  end.

(** The "has children" flag of a block as line 217 reads it. *)
Definition flag_of (block : value) : bool :=
  match block with
  | VDict d => truthy (dict_get_default d "has_children" (VBool false))
  | _ => false
  end.

(** [p] is the block of a node of the forest and [c] the block of one of
    that node's children. *)
Definition parent_child (ts : list tree) (p c : value) : Prop :=
  exists t k, In t (forest_subtrees ts) /\ In k (kids_of t) /\
              p = root_block t /\ c = root_block k.

(** [x] occurs in [l] at an earlier position than [y]. *)
Definition before {A} (x y : A) (l : list A) : Prop :=
  exists l1 l2 l3, l = l1 ++ x :: l2 ++ y :: l3.

(** The first page of the children listing of [id] holds exactly the
    blocks [children], whatever was requested before. *)
Definition lists_children (notion : client) (id : value) (children : list value) : Prop :=
  forall log, exists response page,
    notion log (BlocksChildrenList id None) = Ok response /\
    py_get response (VStr "results") (VList []) = Ok page /\
    py_iter page = Ok children.

(** A block that is a dict carrying an identifier. *)
Definition well_formed (block : value) : Prop :=
  exists d id, block = VDict d /\ dict_get d "id" = Some id.

(** The provider serves a tree: every block is a dict carrying its
    identifier; a block with children has its flag set and the listing of
    its identifier holds its children, all on the first page; a block
    whose flag is set and that has no children lists nothing. *)
Fixpoint serves_tree (notion : client) (t : tree) : Prop :=
  match t with
  | Node b ks =>
      well_formed b /\
      (if flag_of b
       then lists_children notion (id_of b) (map root_block ks)
       else ks = []) /\
      (fix all (ts : list tree) : Prop :=
         match ts with
         | [] => True
         | t' :: ts' => serves_tree notion t' /\ all ts'
         end) ks
  end.

(** The provider serves the page [root] whose content is the forest [ts]. *)
Definition serves (notion : client) (root : value) (ts : list tree) : Prop :=
  lists_children notion root (map root_block ts) /\
  Forall (serves_tree notion) ts.

(** All identifiers of the page, the root's first, are pairwise distinct. *)
Definition distinct_ids (root : value) (ts : list tree) : Prop :=
  NoDup (root :: map id_of (forest_blocks ts)).

(** A work list that holds the identifiers of the roots of [ts]. *)
Definition flagged (t : tree) : bool := flag_of (root_block t).

Definition stack_of (ts : list tree) : list value :=
  map (fun t => id_of (root_block t)) ts.

(** The listing request the flattener sends for an identifier. *)
Definition listing (id : value) : notion_call := BlocksChildrenList id None.

(** The identifiers the flattener puts on its work list for a run of
    children: those of the blocks whose flag is set, in order. *)
Definition scheduled (children : list value) : list value :=
  map id_of (filter flag_of children).

(** The page root seen as a node above its forest. *)
Definition page_node (root : value) (ts : list tree) : tree :=
  Node (VDict [("id", root); ("has_children", VBool true)]) ts.

(** The blocks on the first page of a children listing sent after the
    requests [done]; nothing for a request that raised or another request. *)
Definition first_page (notion : client) (done : list notion_call) (call : notion_call)
  : list value :=
  match call with
  | BlocksChildrenList _ None =>
      match (response <- notion done call ;;
             page <- py_get response (VStr "results") (VList []) ;;
             py_iter page) with
      | Ok children => children
      | Raise _ => []
      end
  | _ => []
  end.

(** The first pages of the requests [todo], sent in that order after [done]. *)
Fixpoint first_pages (notion : client) (done todo : list notion_call) : list value :=
  match todo with
  | [] => []
  | call :: todo' =>
      first_page notion done call ++ first_pages notion (done ++ [call]) todo'
  end.

(** Every request of the log is a children listing without a cursor. *)
Definition only_first_pages (log : list notion_call) : Prop :=
  Forall (fun call => exists id, call = BlocksChildrenList id None) log.

(** Every request of the log was answered, none raised. *)
Definition all_answered (notion : client) (log : list notion_call) : Prop :=
  forall l1 call l2, log = l1 ++ call :: l2 -> exists r, notion l1 call = Ok r.

(** A provider that serves a tree from a table: the listing of an
    identifier answers with the table's entry for it, an empty page for an
    identifier the table does not hold. *)
Fixpoint table_lookup (table : list (string * list value)) (id : string) : list value :=
  match table with
  | [] => []
  | (k, children) :: table' =>
      if String.eqb k id then children else table_lookup table' id
  end.

Definition table_client (table : list (string * list value)) : client :=
  fun _ call =>
    match call with
    | BlocksChildrenList (VStr id) None =>
        Ok (VDict [("results", VList (table_lookup table id));
                   ("has_more", VBool false)])
    | _ => Raise (SdkError "unexpected request")
    end.

End Notion.


(* ===================================================================== *)
(** ** Providers that answer page by page                                *)
(* ===================================================================== *)

Module Pagination.
Import Calendar Notion.

Section Pages.
Context {Call : Type}.
Variable provider : list Call -> Call -> result value.
(** The request the collector sends for a cursor. *)
Variable request_for : value -> Call.
(** The key under which a page holds its items. *)
Variable items_key : string.
(** How a page signals completion, and how it hands out the next cursor. *)
Variable final : dict -> Prop.
Variable next : dict -> value -> Prop.

(** The page holds the item list [items] (an absent key reads as the
    empty list, lines 70 and 360). *)
Definition carries (page : dict) (items : list value) : Prop :=
  py_iter (dict_get_default page items_key (VList [])) = Ok items.

(** [page_chain log cursor pages]: asked for [cursor] after the requests
    [log], the provider answers with a page holding the first item list of
    [pages]; each further item list is held by the page it answers with
    for the cursor of the page before; the last page signals completion,
    no earlier one does. *)
Inductive page_chain : list Call -> value -> list (list value) -> Prop :=
| chain_final log cursor page items :
    provider log (request_for cursor) = Ok (VDict page) ->
    carries page items ->
    final page ->
    page_chain log cursor [items]
| chain_next log cursor page items cursor' rest :
    provider log (request_for cursor) = Ok (VDict page) ->
    carries page items ->
    next page cursor' ->
    page_chain (log ++ [request_for cursor]) cursor' rest ->
    page_chain log cursor (items :: rest).

(** The provider never signals completion: whatever was requested before,
    it answers a request with a page that holds items and hands out a
    next cursor. *)
Definition never_completes : Prop :=
  forall log cursor, exists page items cursor',
    provider log (request_for cursor) = Ok (VDict page) /\
    carries page items /\ next page cursor'.
End Pages.

(** A stub that answers the i-th request with the i-th scripted page and
    raises once the script is exhausted. *)
Definition scripted {Call} (pages : list value) : list Call -> Call -> result value :=
  fun log _ =>
    match nth_error pages (List.length log) with
    | Some page => Ok page
    | None => Raise (SdkError "no more pages")
    end.

(** Calendar convention: completion is an absent next cursor; a page that
    continues carries a cursor (any value Python takes for true, such as a
    non-empty string). *)
Definition calendar_final (page : dict) : Prop :=
  dict_get page "nextPageToken" = None.

Definition calendar_next (page : dict) (cursor : value) : Prop :=
  dict_get page "nextPageToken" = Some cursor /\ truthy cursor = true.

(** Query convention: completion is the boolean "has more" being false; a
    page that continues has it true, and its cursor is what it holds under
    "next_cursor" ([None] when it holds none). *)
Definition query_final (page : dict) : Prop :=
  dict_get page "has_more" = Some (VBool false).

Definition query_next (page : dict) (cursor : value) : Prop :=
  dict_get page "has_more" = Some (VBool true) /\
  dict_get_default page "next_cursor" VNone = cursor.

(** The listing request of [read_events] for a page token. *)
Definition list_request (calendar_id time_min time_max page_token : value)
  : calendar_call :=
  EventsList calendar_id time_min time_max true "startTime" page_token 2500.

(** The request arguments [read_events] derives from the query string. *)
Definition list_request_of_args (now : string) (args : list (string * string))
  : value -> calendar_call :=
  list_request (args_get args "calendar_id" (VStr "primary"))
               (args_get args "time_min" (VStr (now ++ "Z")))
               (args_get args "time_max" VNone).

(** The query [query_notion_database] derives from a request body. *)
Definition query_of_body (data : dict) : value -> notion_call :=
  fun start_cursor =>
    DatabasesQuery (dict_get_default data "database_id" VNone)
                   (dict_get_default data "filter" VNone)
                   (dict_get_default data "sorts" VNone)
                   start_cursor
                   (dict_get_default data "page_size" (VInt 100)).

End Pagination.

(* ===================================================================== *)
(** ** Sample data                                                       *)
(* ===================================================================== *)

Module Samples.
Import Extractor.

Definition span (text : string) : value := VDict [("plain_text", VStr text)].

Definition text_block (tag : string) (texts : list string) : value :=
  VDict [("type", VStr tag); (tag, VDict [("rich_text", VList (map span texts))])].

(** The blocks of the extractor's testable properties, a repeated paragraph
    and a nested page without a title among them. *)
Definition demo_blocks : list value :=
  [ text_block "heading_1" ["Hello"; " World"];
    text_block "paragraph" ["a"; "b"];
    VDict [("type", VStr "divider"); ("divider", VDict [])];
    VDict [("type", VStr "child_page"); ("child_page", VDict [])];
    text_block "paragraph" ["a"; "b"] ].

Definition demo_content : list content_block :=
  [ {| kind := Heading "heading_1"; span_texts := ["Hello"; " World"]; title := None |};
    {| kind := TextBearing "paragraph"; span_texts := ["a"; "b"]; title := None |};
    {| kind := Unrecognized; span_texts := []; title := None |};
    {| kind := NestedPage; span_texts := []; title := None |};
    {| kind := TextBearing "paragraph"; span_texts := ["a"; "b"]; title := None |} ].

(** A page with two children, the first of which has two children. *)
Definition block (id : string) (has_children : bool) : value :=
  VDict [("id", VStr id); ("has_children", VBool has_children);
         ("type", VStr "paragraph");
         ("paragraph", VDict [("rich_text", VList [span id])])].

Definition sample_table : list (string * list value) :=
  [("root", [block "c1" true; block "c2" false]);
   ("c1", [block "g1" false; block "g2" false])].

Definition sample_forest : list Notion.tree :=
  [Notion.Node (block "c1" true)
               [Notion.Node (block "g1" false) []; Notion.Node (block "g2" false) []];
   Notion.Node (block "c2" false) []].

(** A provider that lists the page root and fails on every other request. *)
Definition failing_client : Notion.client :=
  fun _ call =>
    match call with
    | Notion.BlocksChildrenList (VStr "root") None =>
        Ok (VDict [("results", VList [block "c1" true; block "c2" false])])
    | _ => Raise (SdkError "rate limited")
    end.

(** A provider whose listing of the page root has a second page, served
    under the cursor the first page hands out. *)
Definition paged_client : Notion.client :=
  fun _ call =>
    match call with
    | Notion.BlocksChildrenList (VStr "root") None =>
        Ok (VDict [("results", VList [block "a" false]);
                   ("has_more", VBool true); ("next_cursor", VStr "p2")])
    | Notion.BlocksChildrenList (VStr "root") (Some (VStr "p2")) =>
        Ok (VDict [("results", VList [block "b" false]);
                   ("has_more", VBool false); ("next_cursor", VNone)])
    | _ => Raise (SdkError "unexpected request")
    end.

(** Two calendar pages, the first handing out a cursor, the second none. *)
Definition events_script : list value :=
  [ VDict [("items", VList [VStr "e1"; VStr "e2"]); ("nextPageToken", VStr "t1")];
    VDict [("items", VList [VStr "e3"; VStr "e1"])] ].

(** Two query pages, "has more" true and then false. *)
Definition records_script : list value :=
  [ VDict [("results", VList [VStr "r1"]); ("has_more", VBool true);
           ("next_cursor", VStr "c1")];
    VDict [("results", VList [VStr "r2"; VStr "r3"]); ("has_more", VBool false);
           ("next_cursor", VNone)] ].

(** Providers that answer every request with a page that continues. *)
Definition endless_calendar : Calendar.service :=
  fun _ _ => Ok (VDict [("items", VList [VStr "e"]); ("nextPageToken", VStr "t")]).

Definition endless_notion : Notion.client :=
  fun _ _ => Ok (VDict [("results", VList [VStr "r"]); ("has_more", VBool true);
                        ("next_cursor", VStr "c")]).

(** A stored calendar event with a field the handlers know nothing about. *)
Definition stored_event : dict :=
  [("id", VStr "ev1"); ("summary", VStr "Old"); ("location", VStr "Room 1");
   ("start", VDict [("dateTime", VStr "2024-01-01T10:00:00Z")])].

(** A calendar that holds [stored_event] and echoes what it is sent. *)
Definition sample_calendar : Calendar.service :=
  fun _ call =>
    match call with
    | Calendar.EventsGet _ _ => Ok (VDict stored_event)
    | Calendar.EventsInsert _ body => Ok body
    | Calendar.EventsUpdate _ _ body => Ok body
    | _ => Ok VNone
    end.

(** An edit that renames the event and moves its end. *)
Definition sample_edit : dict :=
  [("event_id", VStr "ev1"); ("summary", VStr "New");
   ("end_time", VStr "2024-01-01T11:00:00Z")].

(** [str(e)] for the samples: the payload of an upstream error. *)
Definition sample_str (e : exn) : string :=
  match e with
  | SdkError payload => payload
  | _ => "error"
  end.

End Samples.

(* ===================================================================== *)
(** ** The page text route                                               *)
(* ===================================================================== *)

Module PageText.
Import Notion.

Section Route.
Variable str_exn : exn -> string.
Variable notion : client.

(** [get_text_from_notion_page] (lines 257-267). *)
Definition get_text_from_notion_page (fuel : nat) (args : list (string * string))
  : option http_response * list notion_call :=
  let page_id := args_get args "page_id" VNone in
  if negb (truthy page_id) then
    (Some (Jsonify (VDict [("error", VStr "Page ID is required")]) 400), [])
  else
    (match get_all_text_on_page str_exn notion fuel page_id with
     | None => None
     | Some all_text =>
         Some (try_except
                 (content <- all_text ;;
                  Ok (Jsonify (VDict [("page_id", page_id);
                                      ("content", VList content)]) 200))
                 (fun e => Jsonify (VDict [("error", VStr (str_exn e))]) 500))
     end,
     snd (retrieve_all_blocks str_exn notion fuel page_id)).

End Route.

(** Every listing answers with well-formed children of which at least one
    has its flag set, whatever was requested before. *)
Definition always_schedules (notion : client) : Prop :=
  forall log id, exists response page children,
    notion log (BlocksChildrenList id None) = Ok response /\
    py_get response (VStr "results") (VList []) = Ok page /\
    py_iter page = Ok children /\
    Forall well_formed children /\
    scheduled children <> [].

End PageText.

Module MoreSamples.

(** A provider whose every listing holds one block that lists itself. *)
Definition cyclic_client : Notion.client :=
  fun _ _ => Ok (VDict [("results", VList [Samples.block "loop" true])]).

(** A provider whose page root lists a block with children and no
    identifier. *)
Definition anonymous_child : value :=
  VDict [("has_children", VBool true); ("type", VStr "paragraph")].

Definition anonymous_client : Notion.client :=
  fun _ _ => Ok (VDict [("results", VList [Samples.block "c1" false; anonymous_child])]).

End MoreSamples.

(* ===================================================================== *)
(** ** Logs of paginated requests                                        *)
(* ===================================================================== *)

Module Logs.

Section Provider.
Context {Call : Type}.
Variable provider : list Call -> Call -> result value.

(** Every request of the log was answered, none raised. *)
Definition answered (log : list Call) : Prop :=
  forall l1 call l2, log = l1 ++ call :: l2 -> exists r, provider l1 call = Ok r.

(** Every request after the first asks for the cursor that the answer to
    the request before it holds under [cursor_key], and the answer that
    holds it tests true under [more_key]. *)
Definition cursor_chain (request_for : value -> Call) (more_key cursor_key : string)
           (log : list Call) : Prop :=
  forall l1 c1 c2 l2,
    log = l1 ++ c1 :: c2 :: l2 ->
    exists page more cursor,
      provider l1 c1 = Ok page /\
      py_get page (VStr more_key) VNone = Ok more /\ truthy more = true /\
      py_get page (VStr cursor_key) VNone = Ok cursor /\
      c2 = request_for cursor.

(** The cursor the loop holds is the one its log accounts for: no cursor
    before the first request, then the cursor of the last answer. *)
Definition holds_cursor (more_key cursor_key : string)
           (cursor : value) (log : list Call) : Prop :=
  (log = [] /\ cursor = VNone) \/
  exists l1 c1 page more,
    log = l1 ++ [c1] /\ provider l1 c1 = Ok page /\
    py_get page (VStr more_key) VNone = Ok more /\ truthy more = true /\
    py_get page (VStr cursor_key) VNone = Ok cursor.

(** The log is empty or starts with the request for no cursor. *)
Definition starts_without_cursor (request_for : value -> Call) (log : list Call) : Prop :=
  log = [] \/ exists later, log = request_for VNone :: later.

End Provider.

End Logs.

Module PagingSamples.

(** Providers that answer the first request with a page that continues and
    fail on every later one. *)
Definition flaky_calendar : Calendar.service :=
  fun log _ =>
    match log with
    | [] => Ok (VDict [("items", VList [VStr "e1"]); ("nextPageToken", VStr "t1")])
    | _ => Raise (SdkError "quota exceeded")
    end.

Definition flaky_notion : Notion.client :=
  fun log _ =>
    match log with
    | [] => Ok (VDict [("results", VList [VStr "r1"]); ("has_more", VBool true);
                       ("next_cursor", VStr "c1")])
    | _ => Raise (SdkError "quota exceeded")
    end.

End PagingSamples.

(* ===================================================================== *)
(** ** Subscripts, membership and the exceptions they add                *)
(* ===================================================================== *)

Module PyExt.

(** The exceptions of the remaining handlers: those of [exn], and the
    ones only an integer subscript or an unbound name can raise. *)
Inductive exception : Type :=
| Base (e : exn)
| IndexError (obj : value)
| IntKeyError (key : Z)
| NameError (name : string).

Inductive outcome (A : Type) : Type :=
| Done (a : A)
| Fail (e : exception).
Arguments Done {A} a.
Arguments Fail {A} e.

Definition lift {A} (r : result A) : outcome A :=
  match r with
  | Ok a => Done a
  | Raise e => Fail (Base e)
  end.

Definition and_then {A B} (c : outcome A) (k : A -> outcome B) : outcome B :=
  match c with
  | Done a => k a
  | Fail e => Fail e
  end.

Notation "x <~ c ;; k" := (and_then c (fun x => k))
  (at level 61, c at next level, right associativity).

(** [[f(x) for x in xs]] and the body of a [for] loop that appends one
    entry per element, with [f] able to raise. *)
Fixpoint collect {A B} (f : A -> outcome B) (xs : list A) : outcome (list B) :=
  match xs with
  | [] => Done []
  | x :: xs' =>
      y <~ f x ;;
      ys <~ collect f xs' ;;
      Done (y :: ys)
  end.

(** [obj[0]]: the first element of a list or the first character of a
    string, an index error when there is none; a dict has no key 0. *)
Definition py_first (obj : value) : outcome value :=
  match obj with
  | VList (x :: _) => Done x
  | VList [] => Fail (IndexError obj)
  | VStr (String c _) => Done (VStr (String c EmptyString))
  | VStr EmptyString => Fail (IndexError obj)
  | VDict _ => Fail (IntKeyError 0)
  | _ => Fail (Base (BadSubscript obj))
  end.

(** [needle in hay] on strings: [needle] occurs in [hay]. *)
Fixpoint occurs (needle hay : string) : bool :=
  if String.prefix needle hay then true
  else match hay with
       | EmptyString => false
       | String _ rest => occurs needle rest
       end.

(** [s in container] for a string literal [s]: a key of a dict, an element
    of a list, a substring of a string. *)
Definition py_contains (container : value) (s : string) : result bool :=
  match container with
  | VDict d => Ok (match dict_get d s with Some _ => true | None => false end)
  | VList l =>
      Ok (existsb (fun v => match v with VStr t => String.eqb t s | _ => false end) l)
  | VStr t => Ok (occurs s t)
  | _ => Raise (NotIterable container)
  end.

(** What [except (IndexError, KeyError)] catches. *)
Definition index_or_key_error (e : exception) : bool :=
  match e with
  | Base (KeyError _) => true
  | IndexError _ => true
  | IntKeyError _ => true
  | _ => false
  end.

End PyExt.
Import PyExt.

(* ===================================================================== *)
(** ** The workspace handlers without a loop                             *)
(* ===================================================================== *)

Module Workspace.

(** The one-shot requests sent to the workspace provider. *)
Inductive workspace_call : Type :=
| Search (filter : value)
| DatabasesRetrieve (database_id : value)
| PagesUpdate (page_id properties : value)
| PagesCreate (kwargs : dict).

Definition workspace := list workspace_call -> workspace_call -> result value.

Section Handlers.
(** [str(e)] on an exception object. *)
Variable str_exception : exception -> string.
Variable notion : workspace.

(** [jsonify({"error": str(e)}), 500] *)
Definition server_error (e : exception) : http_response :=
  Jsonify (VDict [("error", VStr (str_exception e))]) 500.

(** The dict built for one database (lines 170-173). *)
Definition database_info (db : value) : outcome value :=
  id <~ lift (py_getitem db "id") ;;
  title_field <~ lift (py_get db (VStr "title") VNone) ;;
  title <~ (if truthy title_field then
              spans <~ lift (py_getitem db "title") ;;
              first <~ py_first spans ;;
              lift (py_getitem first "plain_text")
            else Done (VStr "Unnamed Database")) ;;
  Done (VDict [("id", id); ("title", title)]).

(** [list_notion_databases] (lines 164-178). *)
Definition list_notion_databases : http_response * list workspace_call :=
  let search := Search (VDict [("property", VStr "object"); ("value", VStr "database")]) in
  (match
      (response <~ lift (notion [] search) ;;
       results <~ lift (py_get response (VStr "results") (VList [])) ;;
       databases <~ lift (py_iter results) ;;
       databases_info <~ collect database_info databases ;;
       Done (Jsonify (VList databases_info) 200))
    with
    | Done answer => answer
    | Fail e => server_error e
    end,
   [search]).

(** The title of a page (lines 187-192): the inner [try] swallows an index
    or key error and keeps the default. *)
Definition page_title (page : value) : outcome value :=
  properties <~ lift (py_get page (VStr "properties") (VDict [])) ;;
  has_title <~ lift (py_contains properties "title") ;;
  if has_title then
    match
      (a <~ lift (py_getitem page "properties") ;;
       b <~ lift (py_getitem a "title") ;;
       c <~ lift (py_getitem b "title") ;;
       d <~ py_first c ;;
       lift (py_getitem d "plain_text"))
    with
    | Done title => Done title
    | Fail e => if index_or_key_error e then Done (VStr "Unnamed Page") else Fail e
    end
  else Done (VStr "Unnamed Page").

(** The body of [for page in pages] (lines 187-200). *)
Definition page_info (page : value) : outcome value :=
  title <~ page_title page ;;
  id <~ lift (py_getitem page "id") ;;
  created_time <~ lift (py_get page (VStr "created_time") VNone) ;;
  last_edited_time <~ lift (py_get page (VStr "last_edited_time") VNone) ;;
  url <~ lift (py_get page (VStr "url") VNone) ;;
  Done (VDict [("id", id); ("title", title); ("created_time", created_time);
               ("last_edited_time", last_edited_time); ("url", url)]).

(** [list_notion_pages] (lines 180-203). *)
Definition list_notion_pages : http_response * list workspace_call :=
  let search := Search (VDict [("property", VStr "object"); ("value", VStr "page")]) in
  (match
      (response <~ lift (notion [] search) ;;
       results <~ lift (py_get response (VStr "results") (VList [])) ;;
       pages <~ lift (py_iter results) ;;
       page_list <~ collect page_info pages ;;
       Done (Jsonify (VList page_list) 200))
    with
    | Done answer => answer
    | Fail e => server_error e
    end,
   [search]).

(** [get_notion_database_pages] (lines 269-279): the name [query_database]
    it calls is bound nowhere in the module. *)
Definition get_notion_database_pages (args : list (string * string))
  : http_response * list workspace_call :=
  let database_id := args_get args "database_id" VNone in
  if negb (truthy database_id) then
    (Jsonify (VDict [("error", VStr "Database ID is required")]) 400, [])
  else
    (match (Fail (NameError "query_database") : outcome value) with
     | Done pages => Jsonify pages 200
     | Fail e => server_error e
     end,
     []).

(** [get_database_schema] (lines 281-285). *)
Definition get_database_schema (database_id : value) : value * list workspace_call :=
  let retrieve := DatabasesRetrieve database_id in
  (match notion [] retrieve with
   | Ok schema => schema
   | Raise e => VStr (str_exception (Base e))
   end,
   [retrieve]).

(** [get_notion_database_schema] (lines 287-297). *)
Definition get_notion_database_schema (args : list (string * string))
  : http_response * list workspace_call :=
  let database_id := args_get args "database_id" VNone in
  if negb (truthy database_id) then
    (Jsonify (VDict [("error", VStr "Database ID is required")]) 400, [])
  else
    let '(database_schema, log) := get_database_schema database_id in
    (Jsonify database_schema 200, log).

(** [update_notion_database_entry] (lines 299-312). *)
Definition update_notion_database_entry (data : value)
  : http_response * list workspace_call :=
  match
    (page_id <- py_get data (VStr "page_id") VNone ;;
     updated_properties <- py_get data (VStr "updated_properties") VNone ;;
     Ok (page_id, updated_properties))
  with
  | Raise e => (Unhandled e, [])
  | Ok (page_id, updated_properties) =>
      if negb (truthy page_id) || negb (truthy updated_properties) then
        (Jsonify (VDict [("error",
                          VStr "Page ID and updated properties are required")]) 400,
         [])
      else
        let update := PagesUpdate page_id updated_properties in
        (match notion [] update with
         | Ok result => Jsonify result 200
         | Raise e => server_error (Base e)
         end,
         [update])
  end.

(** [create_notion_entry] (lines 314-335). *)
Definition create_notion_entry (data : value)
  : http_response * list workspace_call :=
  match
    (database_id <- py_get data (VStr "database_id") VNone ;;
     properties <- py_get data (VStr "properties") VNone ;;
     content <- py_get data (VStr "content") VNone ;;
     Ok (database_id, properties, content))
  with
  | Raise e => (Unhandled e, [])
  | Ok (database_id, properties, content) =>
      if negb (truthy database_id) || negb (truthy properties) then
        (Jsonify (VDict [("error",
                          VStr "Database ID and properties are required")]) 400,
         [])
      else
        let new_page : dict :=
          [("parent", VDict [("database_id", database_id)]);
           ("properties", properties)] in
        let new_page :=
          if truthy content then dict_set new_page "children" content else new_page in
        let create := PagesCreate new_page in
        (match notion [] create with
         | Ok response => Jsonify response 200
         | Raise e => server_error (Base e)
         end,
         [create])
  end.

End Handlers.

End Workspace.

Module WorkspaceSpec.
Import Workspace.

(** The search requests of the two listing handlers. *)
Definition search_databases : workspace_call :=
  Search (VDict [("property", VStr "object"); ("value", VStr "database")]).

Definition search_pages : workspace_call :=
  Search (VDict [("property", VStr "object"); ("value", VStr "page")]).

(** The provider answered [call] with a response whose "results" iterate
    to [items]. *)
Definition found (notion : workspace) (call : workspace_call) (items : list value) : Prop :=
  exists response results,
    notion [] call = Ok response /\
    py_get response (VStr "results") (VList []) = Ok results /\
    py_iter results = Ok items.

(** [info] is the entry of the database [db]: its identifier, and as title
    the plain text of the first span of its title, "Unnamed Database" when
    the title tests false. *)
Definition database_entry (db info : value) : Prop :=
  exists d id title,
    db = VDict d /\ dict_get d "id" = Some id /\
    info = VDict [("id", id); ("title", title)] /\
    (if truthy (dict_get_default d "title" VNone)
     then exists spans first span,
         dict_get d "title" = Some spans /\ py_first spans = Done first /\
         first = VDict span /\ dict_get span "plain_text" = Some title
     else title = VStr "Unnamed Database").

(** [title] is the plain text of the first span under
    [properties.title.title] of the page. *)
Definition titled (page title : value) : Prop :=
  exists d props title_property spans span,
    page = VDict d /\ dict_get d "properties" = Some (VDict props) /\
    dict_get props "title" = Some (VDict title_property) /\
    dict_get title_property "title" = Some spans /\
    py_first spans = Done (VDict span) /\
    dict_get span "plain_text" = Some title.

(** [info] is the entry of [page]: five keys in this order, the times and
    the URL null when the page has none. *)
Definition page_entry (page info : value) : Prop :=
  exists d id title,
    page = VDict d /\ dict_get d "id" = Some id /\
    (title = VStr "Unnamed Page" \/ titled page title) /\
    info = VDict [("id", id); ("title", title);
                  ("created_time", dict_get_default d "created_time" VNone);
                  ("last_edited_time", dict_get_default d "last_edited_time" VNone);
                  ("url", dict_get_default d "url" VNone)].

End WorkspaceSpec.

Module WorkspaceSamples.
Import Workspace.

Definition titled_database : value :=
  VDict [("id", VStr "db1");
         ("title", VList [VDict [("plain_text", VStr "Tasks")]])].

Definition untitled_database : value :=
  VDict [("id", VStr "db2"); ("title", VList [])].

(** A database whose first title span carries no plain text. *)
Definition broken_database : value :=
  VDict [("id", VStr "db3"); ("title", VList [VDict [("type", VStr "mention")]])].

Definition titled_page : value :=
  VDict [("id", VStr "p1");
         ("properties",
          VDict [("title",
                  VDict [("title", VList [VDict [("plain_text", VStr "Notes")]])])]);
         ("url", VStr "https://example.org/p1")].

(** A page whose title property holds no span. *)
Definition empty_title_page : value :=
  VDict [("id", VStr "p2");
         ("properties", VDict [("title", VDict [("title", VList [])])])].

Definition search_kind (call : workspace_call) : value :=
  match call with
  | Search (VDict d) => dict_get_default d "value" VNone
  | _ => VNone
  end.

(** A workspace with two databases and two pages that fails every other
    request. *)
Definition sample_workspace : workspace :=
  fun _ call =>
    if in_literals (search_kind call) ["database"] then
      Ok (VDict [("results", VList [titled_database; untitled_database])])
    else if in_literals (search_kind call) ["page"] then
      Ok (VDict [("results", VList [titled_page; empty_title_page])])
    else Raise (SdkError "object not found").

(** A workspace whose second database has a broken title. *)
Definition broken_workspace : workspace :=
  fun _ _ =>
    Ok (VDict [("results", VList [titled_database; broken_database;
                                  untitled_database])]).

Definition sample_str_exception (e : exception) : string :=
  match e with
  | Base e' => Samples.sample_str e'
  | IndexError _ => "list index out of range"
  | IntKeyError _ => "0"
  | NameError name => name
  end.

End WorkspaceSamples.

(* ===================================================================== *)
(** ** Calendar credentials: [get_calendar_service] (lines 31-46)        *)
(* ===================================================================== *)

Module Auth.

(** What the function reads off a credentials object. *)
Record credentials : Type := {
  token : string;
  valid : bool;
  expired : bool;
  refresh_token : value
}.

(** The files and services the function touches; each call answers or
    raises.  [refresh c] is the credentials object after
    [c.refresh(Request())]. *)
Record environment : Type := {
  token_file_exists : bool;
  from_authorized_user_file : result credentials;
  refresh : credentials -> result credentials;
  from_client_secrets_file : result unit;
  run_local_server : result credentials;
  write_token_file : credentials -> result unit;
  build : credentials -> result Calendar.service
}.

(** What the function does to its environment, in order. *)
Inductive effect : Type :=
| TokenFileChecked
| TokenFileRead
| Refreshed (c : credentials)
| ClientSecretsRead
| LocalServerRun
| TokenFileWritten (c : credentials)
| ServiceBuilt (c : credentials).

(** [return build("calendar", "v3", credentials=creds)] *)
Definition build_service (env : environment) (creds : credentials) (log : list effect)
  : result Calendar.service * list effect :=
  (build env creds, log ++ [ServiceBuilt creds]).

(** The [else] branch of lines 39-44: the interactive flow, whose
    credentials are written to the token file. *)
Definition interactive_flow (env : environment) (log : list effect)
  : result Calendar.service * list effect :=
  match from_client_secrets_file env with
  | Raise e => (Raise e, log ++ [ClientSecretsRead])
  | Ok _ =>
      match run_local_server env with
      | Raise e => (Raise e, log ++ [ClientSecretsRead; LocalServerRun])
      | Ok creds =>
          let log := log ++ [ClientSecretsRead; LocalServerRun; TokenFileWritten creds] in
          match write_token_file env creds with
          | Raise e => (Raise e, log)
          | Ok _ => build_service env creds log
          end
      end
  end.

(** Lines 36-46 for the credentials read from the token file, [None] when
    there is no such file. *)
Definition with_stored (env : environment) (creds : option credentials)
           (log : list effect) : result Calendar.service * list effect :=
  match creds with
  | None => interactive_flow env log
  | Some c =>
      if negb (valid c) then
        if expired c && truthy (refresh_token c) then
          match refresh env c with
          | Raise e => (Raise e, log ++ [Refreshed c])
          | Ok refreshed => build_service env refreshed (log ++ [Refreshed c])
          end
        else interactive_flow env log
      else build_service env c log
  end.

Definition get_calendar_service (env : environment)
  : result Calendar.service * list effect :=
  if token_file_exists env then
    match from_authorized_user_file env with
    | Raise e => (Raise e, [TokenFileChecked; TokenFileRead])
    | Ok c => with_stored env (Some c) [TokenFileChecked; TokenFileRead]
    end
  else with_stored env None [TokenFileChecked].

(** An environment with an expired token that can be refreshed. *)
Definition stale : credentials :=
  {| token := "old"; valid := false; expired := true; refresh_token := VStr "r" |}.

Definition renewed : credentials :=
  {| token := "new"; valid := true; expired := false; refresh_token := VStr "r" |}.

Definition stale_environment : environment :=
  {| token_file_exists := true;
     from_authorized_user_file := Ok stale;
     refresh := fun _ => Ok renewed;
     from_client_secrets_file := Ok tt;
     run_local_server := Ok renewed;
     write_token_file := fun _ => Ok tt;
     build := fun _ => Ok Samples.sample_calendar |}.

(** An environment without a token file. *)
Definition first_run_environment : environment :=
  {| token_file_exists := false;
     from_authorized_user_file := Raise (SdkError "no token file");
     refresh := fun _ => Raise (SdkError "no refresh");
     from_client_secrets_file := Ok tt;
     run_local_server := Ok renewed;
     write_token_file := fun _ => Ok tt;
     build := fun _ => Ok Samples.sample_calendar |}.

End Auth.

(* ===================================================================== *)
(** ** The block types of the data model                                 *)
(* ===================================================================== *)

Module BlockModel.
Import Extractor.

(** The type tags of section 3, each named on its own: paragraph, the
    three heading levels, bulleted, numbered and checklist items, the
    nested-page reference, any other tag, and no tag at all. *)
Inductive block_type : Type :=
| Paragraph
| Heading1
| Heading2
| Heading3
| BulletedListItem
| NumberedListItem
| ToDo
| ChildPage
| OtherType (tag : string)
| Untyped.

(** A content block: its type, the plain texts of its rich-text spans and,
    for a nested page, its title if it has one. *)
Record typed_block : Type := {
  block_type_of : block_type;
  plain_texts : list string;
  child_title : option string
}.

(** What a block adds to the output, by section 4.3: a text-bearing block
    its plain texts joined without a separator, a heading that text
    between two bold markers, a nested page its title or the empty string,
    anything else nothing. *)
Definition contribution (b : typed_block) : list string :=
  match block_type_of b with
  | Paragraph | BulletedListItem | NumberedListItem | ToDo =>
      [String.concat "" (plain_texts b)]
  | Heading1 | Heading2 | Heading3 =>
      [("**" ++ String.concat "" (plain_texts b) ++ "**")%string]
  | ChildPage =>
      [match child_title b with Some t => t | None => "" end]
  | OtherType _ | Untyped => []
  end.

Definition expected_output (bs : list typed_block) : list string :=
  flat_map contribution bs.

(** The dict carries the tag and, under the tag, the spans. *)
Definition tagged_text (d : dict) (tag : string) (texts : list string) : Prop :=
  dict_get d "type" = Some (VStr tag) /\ payload_spans d tag texts.

(** When a dict of the provider encodes a content block; the tags are
    those of the provider's wire format. *)
Definition encodes (b : typed_block) (block : value) : Prop :=
  exists d, block = VDict d /\
  match block_type_of b with
  | Paragraph => tagged_text d "paragraph" (plain_texts b)
  | Heading1 => tagged_text d "heading_1" (plain_texts b)
  | Heading2 => tagged_text d "heading_2" (plain_texts b)
  | Heading3 => tagged_text d "heading_3" (plain_texts b)
  | BulletedListItem => tagged_text d "bulleted_list_item" (plain_texts b)
  | NumberedListItem => tagged_text d "numbered_list_item" (plain_texts b)
  | ToDo => tagged_text d "to_do" (plain_texts b)
  | ChildPage =>
      dict_get d "type" = Some (VStr "child_page") /\
      exists data,
        dict_get_default d "child_page" (VDict []) = VDict data /\
        match child_title b with
        | Some t => dict_get data "title" = Some (VStr t)
        | None => dict_get data "title" = None
        end
  | OtherType tag =>
      dict_get d "type" = Some (VStr tag) /\
      tag <> "paragraph" /\ tag <> "heading_1" /\ tag <> "heading_2" /\
      tag <> "heading_3" /\ tag <> "bulleted_list_item" /\
      tag <> "numbered_list_item" /\ tag <> "to_do" /\ tag <> "child_page"
  | Untyped => dict_get_default d "type" VNone = VNone
  end.

(** The same block in the terms of the extractor's own type lists. *)
Definition as_content (b : typed_block) : content_block :=
  {| kind := match block_type_of b with
             | Paragraph => TextBearing "paragraph"
             | Heading1 => Heading "heading_1"
             | Heading2 => Heading "heading_2"
             | Heading3 => Heading "heading_3"
             | BulletedListItem => TextBearing "bulleted_list_item"
             | NumberedListItem => TextBearing "numbered_list_item"
             | ToDo => TextBearing "to_do"
             | ChildPage => NestedPage
             | OtherType _ | Untyped => Unrecognized
             end;
     span_texts := plain_texts b;
     title := child_title b |}.

(** One block of every type, two of them repeated. *)
Definition typed_sample : list typed_block :=
  [ {| block_type_of := Heading1; plain_texts := ["Hello"; " World"]; child_title := None |};
    {| block_type_of := Paragraph; plain_texts := ["a"; "b"]; child_title := None |};
    {| block_type_of := OtherType "divider"; plain_texts := []; child_title := None |};
    {| block_type_of := Heading2; plain_texts := ["Two"]; child_title := None |};
    {| block_type_of := Heading3; plain_texts := ["Three"]; child_title := None |};
    {| block_type_of := BulletedListItem; plain_texts := ["x"; "y"]; child_title := None |};
    {| block_type_of := NumberedListItem; plain_texts := ["1"]; child_title := None |};
    {| block_type_of := ToDo; plain_texts := ["buy"; " milk"]; child_title := None |};
    {| block_type_of := ChildPage; plain_texts := []; child_title := Some "Sub" |};
    {| block_type_of := ChildPage; plain_texts := []; child_title := None |};
    {| block_type_of := Untyped; plain_texts := []; child_title := None |};
    {| block_type_of := Paragraph; plain_texts := ["a"; "b"]; child_title := None |} ].

Definition typed_sample_blocks : list value :=
  [ Samples.text_block "heading_1" ["Hello"; " World"];
    Samples.text_block "paragraph" ["a"; "b"];
    VDict [("type", VStr "divider"); ("divider", VDict [])];
    Samples.text_block "heading_2" ["Two"];
    Samples.text_block "heading_3" ["Three"];
    Samples.text_block "bulleted_list_item" ["x"; "y"];
    Samples.text_block "numbered_list_item" ["1"];
    Samples.text_block "to_do" ["buy"; " milk"];
    VDict [("type", VStr "child_page"); ("child_page", VDict [("title", VStr "Sub")])];
    VDict [("type", VStr "child_page")];
    VDict [("id", VStr "b9")];
    Samples.text_block "paragraph" ["a"; "b"] ].

End BlockModel.

(* ===================================================================== *)
(** ** The calendar handlers with their credential step                  *)
(* ===================================================================== *)

Module Served.
Import Auth.

(** The effects of the credential step that go to the provider over the
    network: a token refresh and the interactive authorization flow. *)
Definition upstream (e : effect) : bool :=
  match e with
  | Refreshed _ => true
  | LocalServerRun => true
  | _ => false
  end.

(** What a handler did: its answer, the effects of
    [get_calendar_service()], which is its first statement, and the
    calendar requests it sent afterwards. *)
Record run : Type := {
  answer : http_response;
  effects : list effect;
  requests : list Calendar.calendar_call
}.

Section Routes.
Variable str_exn : exn -> string.
Variable env : environment.

(** [create_event] from line 80 on. *)
Definition create_event (data : value) : run :=
  let '(service, done) := get_calendar_service env in
  let '(response, sent) := Calendar.create_event str_exn service data in
  {| answer := response; effects := done; requests := sent |}.

(** [delete_event] from line 150 on. *)
Definition delete_event (args : list (string * string)) : run :=
  let '(service, done) := get_calendar_service env in
  let '(response, sent) := Calendar.delete_event str_exn service args in
  {| answer := response; effects := done; requests := sent |}.

End Routes.

(** The reading of the rejection rule that holds of every request and
    every state of the credentials: an incomplete create request is answered
    400 with nothing sent upstream before, and a delete request without
    event identifier gets a 4xx. *)
Definition rejects_before_any_upstream_call (str_exn : exn -> string) : Prop :=
  forall (env : environment) (data : dict),
    dict_get data "summary" = None \/ dict_get data "start_time" = None \/
    dict_get data "end_time" = None ->
    let r := create_event str_exn env (VDict data) in
    answer r = Abort 400 "Missing required event fields." /\
    existsb upstream (effects r) = false /\ requests r = [].

Definition answers_4xx_without_event_id (str_exn : exn -> string) : Prop :=
  forall (env : environment) (args : list (string * string)),
    args_get args "event_id" VNone = VNone ->
    (400 <= status_of (answer (delete_event str_exn env args)) < 500)%Z.

(** An environment without a token file and without client secrets. *)
Definition locked_out_environment : environment :=
  {| token_file_exists := false;
     from_authorized_user_file := Raise (SdkError "no token file");
     refresh := fun _ => Raise (SdkError "no refresh");
     from_client_secrets_file := Raise (SdkError "credentials.json not found");
     run_local_server := Raise (SdkError "no flow");
     write_token_file := fun _ => Ok tt;
     build := fun _ => Ok Samples.sample_calendar |}.

End Served.
(* ===================================================================== *)
(** ** Facts about the Python layer                                      *)
(* ===================================================================== *)

Module PyFacts.

Lemma dict_get_default_some (d : dict) (k : string) (v default : value) :
  dict_get d k = Some v -> dict_get_default d k default = v.
Proof. unfold dict_get_default. now intros ->. Qed.

Lemma in_literals_true (s : string) (lits : list string) :
  In s lits -> in_literals (VStr s) lits = true.
Proof.
  intros H. simpl. apply existsb_exists. exists s. split; [exact H|].
  apply String.eqb_refl.
Qed.

Lemma in_literals_false (s : string) (lits : list string) :
  ~ In s lits -> in_literals (VStr s) lits = false.
Proof.
  intros H. simpl. destruct (existsb (String.eqb s) lits) eqn:E; [|reflexivity].
  apply existsb_exists in E. destruct E as [x [Hx Heq]].
  apply String.eqb_eq in Heq. subst x. contradiction.
Qed.

Lemma for_each_app {A S} (body : A -> S -> result S) (xs ys : list A) (acc : S) :
  for_each body (xs ++ ys) acc =
  (acc' <- for_each body xs acc ;; for_each body ys acc').
Proof.
  revert acc. induction xs as [|x xs IH]; intros acc; simpl; [reflexivity|].
  destruct (body x acc) as [acc'|e]; simpl; [apply IH | reflexivity].
Qed.

Lemma string_app_nil_r (s : string) : (s ++ "")%string = s.
Proof. induction s as [|c s IH]; simpl; [reflexivity | now rewrite IH]. Qed.

Lemma join_from_strings (i : nat) (texts : list string) :
  join_from i (map VStr texts) = Ok (String.concat "" texts).
Proof.
  revert i. induction texts as [|t ts IH]; intros i; [reflexivity|].
  cbn [map join_from]. rewrite IH. cbn [bind].
  destruct ts as [|t' ts']; cbn [String.concat].
  - now rewrite string_app_nil_r.
  - reflexivity.
Qed.

Lemma pop_snoc {A} (l : list A) (x : A) : pop (l ++ [x]) = Some (x, l).
Proof. unfold pop. rewrite rev_app_distr. simpl. now rewrite rev_involutive. Qed.

Lemma while_loop_step {St Out Call}
      (body : St -> list Call -> result (St + Out) * list Call)
      (fuel : nat) (st : St) (log : list Call) :
  while_loop body (S fuel) st log =
  match body st log with
  | (Raise e, log') => (Some (Raise e), log')
  | (Ok (inr out), log') => (Some (Ok out), log')
  | (Ok (inl st'), log') => while_loop body fuel st' log'
  end.
Proof. reflexivity. Qed.

(** More fuel never changes the answer of a loop that has left. *)
Lemma while_loop_more_fuel {St Out Call}
      (body : St -> list Call -> result (St + Out) * list Call)
      (n m : nat) (st : St) (log log' : list Call) (r : result Out) :
  while_loop body n st log = (Some r, log') -> n <= m ->
  while_loop body m st log = (Some r, log').
Proof.
  revert m st log. induction n as [|n IH]; intros m st log H Hle; [discriminate|].
  destruct m as [|m]; [lia|]. simpl in *.
  destruct (body st log) as [[[st'|out]|e] l]; auto.
  apply IH; [exact H | lia].
Qed.

End PyFacts.
Import PyFacts.

(* ===================================================================== *)
(** ** The text extractor meets its contract                             *)
(* ===================================================================== *)

Module ExtractorFacts.
Import Extractor.

Lemma heading_is_text_type (tag : string) :
  In tag heading_types -> In tag text_types.
Proof. unfold heading_types, text_types. simpl. intuition. Qed.

Lemma comprehension_spans (texts : list string) (elements : list value) :
  Forall2 span_of texts elements ->
  comprehension (fun element => py_get element (VStr "plain_text") (VStr "")) elements
  = Ok (map VStr texts).
Proof.
  induction 1 as [|t el ts els [d [-> Hd]] _ IH]; [reflexivity|].
  cbn [comprehension py_get]. rewrite Hd. cbn [bind]. rewrite IH. reflexivity.
Qed.

(** What a represented block adds to the accumulator. *)
Lemma extract_block_represents (b : content_block) (block : value) (acc : list value) :
  represents b block ->
  extract_block block acc = Ok (acc ++ map VStr (spec_contribution b)).
Proof.
  intros [d [-> H]]. unfold extract_block, spec_contribution.
  destruct (kind b) as [tag|tag| |].
  - destruct H as (Hty & Hin & Hnh & data & els & Hdata & Hrt & Hsp).
    apply dict_get_default_some with (default := VNone) in Hty.
    cbn [py_get bind]. rewrite Hty. cbn [py_get bind]. rewrite Hdata.
    rewrite (in_literals_true _ _ Hin). cbn [py_get bind]. rewrite Hrt.
    cbn [py_iter bind]. rewrite (comprehension_spans _ _ Hsp). cbn [bind].
    rewrite (in_literals_false _ _ Hnh). unfold py_join_empty.
    rewrite join_from_strings. reflexivity.
  - destruct H as (Hty & Hin & data & els & Hdata & Hrt & Hsp).
    apply dict_get_default_some with (default := VNone) in Hty.
    cbn [py_get bind]. rewrite Hty. cbn [py_get bind]. rewrite Hdata.
    rewrite (in_literals_true _ _ (heading_is_text_type _ Hin)).
    cbn [py_get bind]. rewrite Hrt.
    cbn [py_iter bind]. rewrite (comprehension_spans _ _ Hsp). cbn [bind].
    rewrite (in_literals_true _ _ Hin). unfold py_join_empty.
    rewrite join_from_strings. reflexivity.
  - destruct H as (Hty & data & Hdata & Htitle).
    apply dict_get_default_some with (default := VNone) in Hty.
    cbn [py_get bind]. rewrite Hty. cbn [py_get bind]. rewrite Hdata.
    replace (in_literals (VStr "child_page") text_types) with false by reflexivity.
    replace (in_literals (VStr "child_page") ["child_page"]) with true by reflexivity.
    cbn [py_get bind]. unfold dict_get_default.
    destruct (title b) as [t|]; rewrite Htitle; reflexivity.
  - cbn [py_get bind].
    destruct (dict_get_default d "type" VNone) as [| | |tag| |] eqn:Hty;
      try contradiction; cbn [py_get bind in_literals];
      try (rewrite app_nil_r; reflexivity).
    destruct H as [Hnt Hnc].
    pose proof (in_literals_false tag text_types Hnt) as E1.
    cbn [in_literals] in E1. rewrite E1.
    assert (E2 : existsb (String.eqb tag) ["child_page"] = false).
    { simpl. apply String.eqb_neq in Hnc. rewrite Hnc. reflexivity. }
    rewrite E2. rewrite app_nil_r. reflexivity.
Qed.

Lemma for_each_represents (bs : list content_block) (blocks acc : list value) :
  Forall2 represents bs blocks ->
  for_each extract_block blocks acc = Ok (acc ++ map VStr (spec_extract bs)).
Proof.
  intros H. revert acc.
  induction H as [|b block bs blocks Hb _ IH]; intros acc.
  - simpl. now rewrite app_nil_r.
  - cbn [for_each]. rewrite (extract_block_represents _ _ _ Hb). cbn [bind].
    rewrite IH. unfold spec_extract. cbn [flat_map].
    rewrite map_app, app_assoc. reflexivity.
Qed.

(** A block adds its entries behind whatever has been collected. *)
Lemma extract_block_acc (block : value) (acc : list value) :
  extract_block block acc = (r <- extract_block block [] ;; Ok (acc ++ r)).
Proof.
  unfold extract_block.
  destruct (py_get block (VStr "type") VNone) as [ty|e]; [|reflexivity].
  cbn [bind].
  destruct (py_get block ty (VDict [])) as [data|e]; [|reflexivity].
  cbn [bind].
  destruct (in_literals ty text_types).
  - destruct (py_get data (VStr "rich_text") (VList [])) as [te|e]; [|reflexivity].
    cbn [bind]. destruct (py_iter te) as [els|e]; [|reflexivity].
    cbn [bind].
    destruct (comprehension _ els) as [ps|e]; [|reflexivity].
    cbn [bind].
    destruct (in_literals ty heading_types);
      destruct (py_join_empty ps) as [j|e]; reflexivity.
  - destruct (in_literals ty ["child_page"]).
    + destruct (py_get data (VStr "title") (VStr "")) as [t|e]; reflexivity.
    + cbn [bind]. now rewrite app_nil_r.
Qed.

Lemma for_each_extract_acc (blocks acc : list value) :
  for_each extract_block blocks acc =
  (r <- for_each extract_block blocks [] ;; Ok (acc ++ r)).
Proof.
  revert acc. induction blocks as [|b bs IH]; intros acc.
  - simpl. now rewrite app_nil_r.
  - cbn [for_each]. rewrite (extract_block_acc b acc).
    destruct (extract_block b []) as [r|e]; [|reflexivity].
    cbn [bind app]. rewrite (IH (acc ++ r)), (IH r).
    destruct (for_each extract_block bs []) as [r'|e]; [|reflexivity].
    cbn [bind]. now rewrite app_assoc.
Qed.

(** The output of a concatenation is the concatenation of the outputs, on
    every input: entries come out in input order, none merged or dropped. *)
Lemma extract_text_from_blocks_app (xs ys : list value) :
  extract_text_from_blocks (VList (xs ++ ys)) =
  (a <- extract_text_from_blocks (VList xs) ;;
   b <- extract_text_from_blocks (VList ys) ;;
   Ok (a ++ b)).
Proof.
  unfold extract_text_from_blocks. cbn [py_iter bind].
  rewrite for_each_app.
  destruct (for_each extract_block xs []) as [a|e]; [|reflexivity].
  cbn [bind]. apply for_each_extract_acc.
Qed.

Example extract_demo :
  extract_text_from_blocks (VList Samples.demo_blocks) =
  Ok [VStr "**Hello World**"; VStr "ab"; VStr ""; VStr "ab"].
Proof. reflexivity. Qed.

End ExtractorFacts.

(* ===================================================================== *)
(** ** Claims about the text extractor                                   *)
(* ===================================================================== *)

Module ExtractorClaims.
Import Extractor ExtractorFacts BlockModel.

(** An encoded block is represented, in the extractor's own terms, by the
    content block [as_content] gives, and contributes the same. *)
Lemma encodes_represents (b : typed_block) (block : value) :
  encodes b block -> represents (as_content b) block.
Proof.
  intros [d [-> H]]. exists d. split; [reflexivity|].
  unfold as_content. cbn [kind span_texts title].
  destruct (block_type_of b) as [| | | | | | | |tag|].
  - destruct H as [Hty Hsp]. split; [exact Hty|]. split; [cbn; auto 10|].
    split; [|exact Hsp]. cbn. intros [E|[E|[E|[]]]]; discriminate.
  - destruct H as [Hty Hsp]. split; [exact Hty|]. split; [cbn; auto|exact Hsp].
  - destruct H as [Hty Hsp]. split; [exact Hty|]. split; [cbn; auto|exact Hsp].
  - destruct H as [Hty Hsp]. split; [exact Hty|]. split; [cbn; auto|exact Hsp].
  - destruct H as [Hty Hsp]. split; [exact Hty|]. split; [cbn; auto 10|].
    split; [|exact Hsp]. cbn. intros [E|[E|[E|[]]]]; discriminate.
  - destruct H as [Hty Hsp]. split; [exact Hty|]. split; [cbn; auto 10|].
    split; [|exact Hsp]. cbn. intros [E|[E|[E|[]]]]; discriminate.
  - destruct H as [Hty Hsp]. split; [exact Hty|]. split; [cbn; auto 10|].
    split; [|exact Hsp]. cbn. intros [E|[E|[E|[]]]]; discriminate.
  - exact H.
  - destruct H as (Hty & H1 & H2 & H3 & H4 & H5 & H6 & H7 & H8).
    rewrite (dict_get_default_some _ _ _ VNone Hty). split; [|exact H8].
    cbn. intros [E|[E|[E|[E|[E|[E|[E|[]]]]]]]]; subst tag; congruence.
  - rewrite H. exact I.
Qed.

Lemma contribution_as_content (b : typed_block) :
  spec_contribution (as_content b) = contribution b.
Proof.
  unfold spec_contribution, contribution, as_content. cbn [kind span_texts title].
  destruct (block_type_of b); reflexivity.
Qed.

(** C4.  On every sequence of blocks that encode content blocks,
    [extract_text_from_blocks] returns, in input order and with nothing
    merged or dropped, what each block contributes: a paragraph, a
    bulleted, numbered or checklist item the concatenation of its spans'
    plain texts without a separator; a heading of level 1, 2 or 3 that
    concatenation between two bold markers; a nested page its title or the
    empty string; a block of any other type, or of none, nothing. *)
Theorem extract_text_from_blocks_contract :
  forall (bs : list typed_block) (blocks : list value),
    Forall2 encodes bs blocks ->
    extract_text_from_blocks (VList blocks) = Ok (map VStr (expected_output bs)).
Proof.
  intros bs blocks H.
  assert (Hrep : Forall2 represents (map as_content bs) blocks).
  { induction H as [|b block bs blocks Hb _ IH]; cbn [map]; constructor;
      [now apply encodes_represents | exact IH]. }
  unfold extract_text_from_blocks. cbn [py_iter bind].
  rewrite (for_each_represents _ blocks [] Hrep). cbn [app].
  f_equal. f_equal. unfold spec_extract, expected_output.
  clear. induction bs as [|b bs IH]; [reflexivity|].
  cbn [map flat_map]. now rewrite contribution_as_content, IH.
Qed.

Lemma extract_text_from_blocks_contract_witness :
  Forall2 encodes typed_sample typed_sample_blocks /\
  extract_text_from_blocks (VList typed_sample_blocks) =
  Ok [VStr "**Hello World**"; VStr "ab"; VStr "**Two**"; VStr "**Three**";
      VStr "xy"; VStr "1"; VStr "buy milk"; VStr "Sub"; VStr ""; VStr "ab"].
Proof.
  assert (H : Forall2 encodes typed_sample typed_sample_blocks).
  { repeat (apply Forall2_cons; [eexists; split; [reflexivity|]; cbn|]);
      [| | | | | | | | | | | |apply Forall2_nil];
      try (split; [reflexivity|]; eexists; eexists;
           split; [reflexivity|]; split; [reflexivity|];
           repeat constructor; eexists; split; reflexivity).
    - split; [reflexivity|]. repeat split; discriminate.
    - split; [reflexivity|]. eexists. split; reflexivity.
    - split; [reflexivity|]. eexists. split; reflexivity.
    - reflexivity. }
  split; [exact H|].
  exact (extract_text_from_blocks_contract _ _ H).
Defined.

End ExtractorClaims.

(* ===================================================================== *)
(** ** The pagination loops                                              *)
(* ===================================================================== *)

Module PaginationFacts.
Import Calendar Notion Pagination.

(** One iteration of the calendar loop on a page that holds items. *)
Lemma read_events_body_page (svc : service) (cid tmin tmax token : value)
      (events items : list value) (log : list calendar_call) (page : dict) :
  svc log (list_request cid tmin tmax token) = Ok (VDict page) ->
  carries "items" page items ->
  read_events_body svc cid tmin tmax (events, token) log =
  (let page_token := dict_get_default page "nextPageToken" VNone in
   if negb (truthy page_token) then Ok (inr (events ++ items))
   else Ok (inl (events ++ items, page_token)),
   log ++ [list_request cid tmin tmax token]).
Proof.
  unfold carries, list_request, read_events_body. intros Hsvc Hit.
  rewrite Hsvc. cbn [bind py_get]. rewrite Hit. reflexivity.
Qed.

(** One iteration of the query loop on a page that holds items. *)
Lemma query_body_page (notion : client) (dbid filter sorts size cursor : value)
      (results items : list value) (log : list notion_call) (page : dict) :
  notion log (DatabasesQuery dbid filter sorts cursor size) = Ok (VDict page) ->
  carries "results" page items ->
  query_body notion dbid filter sorts size (results, cursor) log =
  (if negb (truthy (dict_get_default page "has_more" VNone))
   then Ok (inr (results ++ items))
   else Ok (inl (results ++ items, dict_get_default page "next_cursor" VNone)),
   log ++ [DatabasesQuery dbid filter sorts cursor size]).
Proof.
  unfold carries, query_body. intros Hn Hit.
  rewrite Hn. cbn [bind py_get]. rewrite Hit. reflexivity.
Qed.

Lemma calendar_final_falsy (page : dict) :
  calendar_final page -> truthy (dict_get_default page "nextPageToken" VNone) = false.
Proof. unfold calendar_final, dict_get_default. now intros ->. Qed.

Lemma calendar_next_truthy (page : dict) (cursor : value) :
  calendar_next page cursor ->
  dict_get_default page "nextPageToken" VNone = cursor /\ truthy cursor = true.
Proof. unfold calendar_next, dict_get_default. now intros [-> ?]. Qed.

Lemma query_final_falsy (page : dict) :
  query_final page -> truthy (dict_get_default page "has_more" VNone) = false.
Proof. unfold query_final, dict_get_default. now intros ->. Qed.

Lemma query_next_truthy (page : dict) (cursor : value) :
  query_next page cursor ->
  truthy (dict_get_default page "has_more" VNone) = true /\
  dict_get_default page "next_cursor" VNone = cursor.
Proof. unfold query_next, dict_get_default. now intros [-> ?]. Qed.

(** The calendar loop along a chain of pages: one iteration per page, the
    item lists appended in page order behind what was collected before. *)
Lemma read_events_loop_chain (svc : service) (cid tmin tmax : value)
      (log : list calendar_call) (token : value) (pages : list (list value)) :
  page_chain svc (list_request cid tmin tmax) "items" calendar_final calendar_next
             log token pages ->
  forall events, exists log',
    while_loop (read_events_body svc cid tmin tmax) (List.length pages)
               (events, token) log
    = (Some (Ok (events ++ List.concat pages)), log') /\
    List.length log' = List.length log + List.length pages.
Proof.
  induction 1 as [log token page items Hsvc Hit Hfin
                 |log token page items token' rest Hsvc Hit Hnext _ IH];
    intros events.
  - exists (log ++ [list_request cid tmin tmax token]).
    cbn [List.length while_loop].
    rewrite (read_events_body_page _ _ _ _ _ _ _ _ _ Hsvc Hit). cbn zeta.
    rewrite (calendar_final_falsy _ Hfin). cbn [negb List.concat].
    rewrite app_nil_r, length_app. split; [reflexivity | simpl; lia].
  - destruct (calendar_next_truthy _ _ Hnext) as [Htok Htrue].
    destruct (IH (events ++ items)) as [log' [Hrun Hlen]].
    exists log'. cbn [List.length while_loop].
    rewrite (read_events_body_page _ _ _ _ _ _ _ _ _ Hsvc Hit). cbn zeta.
    rewrite Htok, Htrue. cbn [negb List.concat].
    rewrite Hrun, <- app_assoc. split; [reflexivity|].
    rewrite Hlen, length_app. simpl. lia.
Qed.

Lemma query_loop_chain (notion : client) (dbid filter sorts size : value)
      (log : list notion_call) (cursor : value) (pages : list (list value)) :
  page_chain notion (fun c => DatabasesQuery dbid filter sorts c size)
             "results" query_final query_next log cursor pages ->
  forall results, exists log',
    while_loop (query_body notion dbid filter sorts size) (List.length pages)
               (results, cursor) log
    = (Some (Ok (results ++ List.concat pages)), log') /\
    List.length log' = List.length log + List.length pages.
Proof.
  induction 1 as [log cursor page items Hn Hit Hfin
                 |log cursor page items cursor' rest Hn Hit Hnext _ IH];
    intros results.
  - exists (log ++ [DatabasesQuery dbid filter sorts cursor size]).
    cbn [List.length while_loop].
    rewrite (query_body_page _ _ _ _ _ _ _ _ _ _ Hn Hit).
    rewrite (query_final_falsy _ Hfin). cbn [negb List.concat].
    rewrite app_nil_r, length_app. split; [reflexivity | simpl; lia].
  - destruct (query_next_truthy _ _ Hnext) as [Htrue Hcur].
    destruct (IH (results ++ items)) as [log' [Hrun Hlen]].
    exists log'. cbn [List.length while_loop].
    rewrite (query_body_page _ _ _ _ _ _ _ _ _ _ Hn Hit).
    rewrite Htrue, Hcur. cbn [negb List.concat].
    rewrite Hrun, <- app_assoc. split; [reflexivity|].
    rewrite Hlen, length_app. simpl. lia.
Qed.

(** Against a provider that never signals completion the calendar loop is
    still running after any number of iterations, one request sent in each. *)
Lemma read_events_loop_runs_on (svc : service) (cid tmin tmax : value) :
  never_completes svc (list_request cid tmin tmax) "items" calendar_next ->
  forall fuel events token log, exists log',
    while_loop (read_events_body svc cid tmin tmax) fuel (events, token) log
    = (None, log') /\
    List.length log' = List.length log + fuel.
Proof.
  intros Hnever. induction fuel as [|fuel IH]; intros events token log.
  - exists log. split; [reflexivity | lia].
  - destruct (Hnever log token) as (page & items & token' & Hsvc & Hit & Hnext).
    destruct (calendar_next_truthy _ _ Hnext) as [Htok Htrue].
    destruct (IH (events ++ items) token' (log ++ [list_request cid tmin tmax token]))
      as [log' [Hrun Hlen]].
    exists log'. cbn [while_loop].
    rewrite (read_events_body_page _ _ _ _ _ _ _ _ _ Hsvc Hit). cbn zeta.
    rewrite Htok, Htrue. cbn [negb]. rewrite Hrun. split; [reflexivity|].
    rewrite Hlen, length_app. simpl. lia.
Qed.

Lemma query_loop_runs_on (notion : client) (dbid filter sorts size : value) :
  never_completes notion (fun c => DatabasesQuery dbid filter sorts c size)
                  "results" query_next ->
  forall fuel results cursor log, exists log',
    while_loop (query_body notion dbid filter sorts size) fuel (results, cursor) log
    = (None, log') /\
    List.length log' = List.length log + fuel.
Proof.
  intros Hnever. induction fuel as [|fuel IH]; intros results cursor log.
  - exists log. split; [reflexivity | lia].
  - destruct (Hnever log cursor) as (page & items & cursor' & Hn & Hit & Hnext).
    destruct (query_next_truthy _ _ Hnext) as [Htrue Hcur].
    destruct (IH (results ++ items) cursor'
                 (log ++ [DatabasesQuery dbid filter sorts cursor size]))
      as [log' [Hrun Hlen]].
    exists log'. cbn [while_loop].
    rewrite (query_body_page _ _ _ _ _ _ _ _ _ _ Hn Hit).
    rewrite Htrue, Hcur. cbn [negb]. rewrite Hrun. split; [reflexivity|].
    rewrite Hlen, length_app. simpl. lia.
Qed.

End PaginationFacts.

(* ===================================================================== *)
(** ** Claims about the paginated collector                              *)
(* ===================================================================== *)

Module PaginationClaims.
Import Calendar Notion Pagination PaginationFacts.

(** C2.  When the provider answers with N pages along the cursors it hands
    out, the last page signalling completion, [read_events] and
    [query_notion_database] answer with the concatenation of the pages' item
    lists in page order, every item once, after exactly N requests; this
    holds for the calendar convention and for the query convention. *)
Theorem collectors_concatenate_pages :
  forall (str_exn : exn -> string) (svc : service) (notion : client)
         (now : string) (args : list (string * string)) (data : dict)
         (event_pages record_pages : list (list value)),
    (page_chain svc (list_request_of_args now args) "items"
                calendar_final calendar_next [] VNone event_pages ->
     forall fuel, List.length event_pages <= fuel ->
     exists log,
       read_events str_exn (Ok svc) fuel now args =
       (Some (Jsonify (VList (List.concat event_pages)) 200), log) /\
       List.length log = List.length event_pages)
    /\
    (truthy (dict_get_default data "database_id" VNone) = true ->
     page_chain notion (query_of_body data) "results"
                query_final query_next [] VNone record_pages ->
     forall fuel, List.length record_pages <= fuel ->
     exists log,
       query_notion_database str_exn notion fuel (VDict data) =
       (Some (Jsonify (VList (List.concat record_pages)) 200), log) /\
       List.length log = List.length record_pages).
Proof.
  intros str_exn svc notion now args data event_pages record_pages. split.
  - intros Hchain fuel Hfuel.
    destruct (read_events_loop_chain _ _ _ _ _ _ _ Hchain []) as [log [Hrun Hlen]].
    exists log. split; [|exact Hlen].
    unfold read_events.
    rewrite (while_loop_more_fuel _ _ fuel _ _ _ _ Hrun Hfuel). reflexivity.
  - intros Hid Hchain fuel Hfuel.
    destruct (query_loop_chain _ _ _ _ _ _ _ _ Hchain []) as [log [Hrun Hlen]].
    exists log. split; [|exact Hlen].
    unfold query_notion_database. cbn [py_get bind]. rewrite Hid. cbn [negb].
    rewrite (while_loop_more_fuel _ _ fuel _ _ _ _ Hrun Hfuel). reflexivity.
Qed.

Lemma collectors_concatenate_pages_witness :
  (exists log,
     read_events Samples.sample_str (Ok (scripted Samples.events_script)) 2
                 "2024-01-01T00:00:00" [] =
     (Some (Jsonify (VList [VStr "e1"; VStr "e2"; VStr "e3"; VStr "e1"]) 200), log) /\
     List.length log = 2) /\
  (exists log,
     query_notion_database Samples.sample_str (scripted Samples.records_script) 2
                           (VDict [("database_id", VStr "db")]) =
     (Some (Jsonify (VList [VStr "r1"; VStr "r2"; VStr "r3"]) 200), log) /\
     List.length log = 2).
Proof.
  pose proof (collectors_concatenate_pages
                Samples.sample_str (scripted Samples.events_script)
                (scripted Samples.records_script) "2024-01-01T00:00:00" []
                [("database_id", VStr "db")]
                [[VStr "e1"; VStr "e2"]; [VStr "e3"; VStr "e1"]]
                [[VStr "r1"]; [VStr "r2"; VStr "r3"]]) as [Hcal Hquery].
  split.
  - apply (Hcal); [|simpl; lia].
    eapply chain_next;
      [reflexivity | reflexivity | split; reflexivity |].
    eapply chain_final; reflexivity.
  - apply (Hquery); [reflexivity | | simpl; lia].
    eapply chain_next;
      [reflexivity | reflexivity | split; reflexivity |].
    eapply chain_final; reflexivity.
Defined.

(** C3.  The loops stop exactly when the page just received signals
    completion in the convention of its provider.  The calendar loop leaves
    iff the page's next cursor tests false: on a page without a cursor it
    returns what it collected and sends nothing more, on a page that carries
    one it goes on and asks for that cursor.  The query loop leaves iff "has
    more" tests false: for a boolean "has more" iff it is false; on "has
    more" true it goes on with the page's "next_cursor". *)
Theorem collectors_stop_on_completion_signal :
  forall (svc : service) (notion : client)
         (cid tmin tmax token dbid filter sorts size cursor : value)
         (events results items items' : list value)
         (log : list calendar_call) (log' : list notion_call) (page page' : dict),
    svc log (list_request cid tmin tmax token) = Ok (VDict page) ->
    carries "items" page items ->
    notion log' (DatabasesQuery dbid filter sorts cursor size) = Ok (VDict page') ->
    carries "results" page' items' ->
    let calendar_body := read_events_body svc cid tmin tmax in
    let query_loop_body := query_body notion dbid filter sorts size in
    let sent := log ++ [list_request cid tmin tmax token] in
    let sent' := log' ++ [DatabasesQuery dbid filter sorts cursor size] in
    ((exists out, fst (calendar_body (events, token) log) = Ok (inr out)) <->
     truthy (dict_get_default page "nextPageToken" VNone) = false) /\
    (calendar_final page ->
     forall fuel,
       while_loop calendar_body (S fuel) (events, token) log =
       (Some (Ok (events ++ items)), sent)) /\
    (forall next_token,
        calendar_next page next_token ->
        forall fuel,
          while_loop calendar_body (S fuel) (events, token) log =
          while_loop calendar_body fuel (events ++ items, next_token) sent) /\
    ((exists out, fst (query_loop_body (results, cursor) log') = Ok (inr out)) <->
     truthy (dict_get_default page' "has_more" VNone) = false) /\
    (forall b, dict_get page' "has_more" = Some (VBool b) ->
               ((exists out, fst (query_loop_body (results, cursor) log') = Ok (inr out))
                <-> b = false)) /\
    (query_final page' ->
     forall fuel,
       while_loop query_loop_body (S fuel) (results, cursor) log' =
       (Some (Ok (results ++ items')), sent')) /\
    (forall next_cursor,
        query_next page' next_cursor ->
        forall fuel,
          while_loop query_loop_body (S fuel) (results, cursor) log' =
          while_loop query_loop_body fuel (results ++ items', next_cursor) sent').
Proof.
  intros svc notion cid tmin tmax token dbid filter sorts size cursor
         events results items items' log log' page page' Hsvc Hit Hn Hit'.
  cbn zeta.
  pose proof (read_events_body_page _ _ _ _ _ events _ _ _ Hsvc Hit) as Hcal.
  pose proof (query_body_page _ _ _ _ _ _ results _ _ _ Hn Hit') as Hquery.
  cbn zeta in Hcal.
  split; [|split; [|split; [|split; [|split; [|split]]]]].
  - rewrite Hcal. cbn [fst]. split.
    + intros [out H].
      destruct (truthy (dict_get_default page "nextPageToken" VNone));
        [discriminate | reflexivity].
    + intros ->. eexists. reflexivity.
  - intros Hfin fuel. rewrite while_loop_step, Hcal.
    now rewrite (calendar_final_falsy _ Hfin).
  - intros tok Hnext fuel. rewrite while_loop_step, Hcal.
    destruct (calendar_next_truthy _ _ Hnext) as [-> ->]. reflexivity.
  - rewrite Hquery. cbn [fst]. split.
    + intros [out H].
      destruct (truthy (dict_get_default page' "has_more" VNone));
        [discriminate | reflexivity].
    + intros ->. eexists. reflexivity.
  - intros b Hb. rewrite Hquery. cbn [fst].
    unfold dict_get_default. rewrite Hb. cbn [truthy]. split.
    + intros [out H]. destruct b; [discriminate | reflexivity].
    + intros ->. eexists. reflexivity.
  - intros Hfin fuel. rewrite while_loop_step, Hquery.
    now rewrite (query_final_falsy _ Hfin).
  - intros cur Hnext fuel. rewrite while_loop_step, Hquery.
    destruct (query_next_truthy _ _ Hnext) as [-> ->]. reflexivity.
Qed.

Lemma collectors_stop_on_completion_signal_witness :
  while_loop (read_events_body (scripted Samples.events_script)
                               (VStr "primary") (VStr "now") VNone)
             1 ([], VNone) []
  = (None, [list_request (VStr "primary") (VStr "now") VNone VNone]) /\
  while_loop (query_body (scripted Samples.records_script)
                         (VStr "db") VNone VNone (VInt 100))
             1 ([], VNone) []
  = (None, [DatabasesQuery (VStr "db") VNone VNone VNone (VInt 100)]).
Proof.
  pose proof (collectors_stop_on_completion_signal
                (scripted Samples.events_script) (scripted Samples.records_script)
                (VStr "primary") (VStr "now") VNone VNone
                (VStr "db") VNone VNone (VInt 100) VNone
                [] [] [VStr "e1"; VStr "e2"] [VStr "r1"] [] []
                [("items", VList [VStr "e1"; VStr "e2"]); ("nextPageToken", VStr "t1")]
                [("results", VList [VStr "r1"]); ("has_more", VBool true);
                 ("next_cursor", VStr "c1")]
                eq_refl eq_refl eq_refl eq_refl) as H.
  cbn zeta in H.
  destruct H as (_ & _ & Hcal & _ & _ & _ & Hquery).
  split.
  - rewrite (Hcal (VStr "t1")); [reflexivity | split; reflexivity].
  - rewrite (Hquery (VStr "c1")); [reflexivity | split; reflexivity].
Defined.

(** C8.  Neither loop bounds the number of pages: against a provider that
    never signals completion (calendar pages that always carry a next
    cursor, query pages that always report "has more" true), the handler is
    still in its loop after any number of iterations, having sent one
    request in each, and so never answers. *)
Theorem collectors_have_no_page_limit :
  forall (str_exn : exn -> string) (svc : service) (notion : client)
         (now : string) (args : list (string * string)) (data : dict),
    (never_completes svc (list_request_of_args now args) "items" calendar_next ->
     forall fuel, exists log,
       read_events str_exn (Ok svc) fuel now args = (None, log) /\
       List.length log = fuel)
    /\
    (truthy (dict_get_default data "database_id" VNone) = true ->
     never_completes notion (query_of_body data) "results" query_next ->
     forall fuel, exists log,
       query_notion_database str_exn notion fuel (VDict data) = (None, log) /\
       List.length log = fuel).
Proof.
  intros str_exn svc notion now args data. split.
  - intros Hnever fuel.
    destruct (read_events_loop_runs_on _ _ _ _ Hnever fuel [] VNone [])
      as [log [Hrun Hlen]].
    exists log. split; [|exact Hlen].
    unfold read_events. rewrite Hrun. reflexivity.
  - intros Hid Hnever fuel.
    destruct (query_loop_runs_on _ _ _ _ _ Hnever fuel [] VNone [])
      as [log [Hrun Hlen]].
    exists log. split; [|exact Hlen].
    unfold query_notion_database. cbn [py_get bind]. rewrite Hid. cbn [negb].
    rewrite Hrun. reflexivity.
Qed.

Lemma collectors_have_no_page_limit_witness :
  (exists log,
     read_events Samples.sample_str (Ok Samples.endless_calendar) 1000 "now" []
     = (None, log) /\ List.length log = 1000) /\
  (exists log,
     query_notion_database Samples.sample_str Samples.endless_notion 1000
                           (VDict [("database_id", VStr "db")])
     = (None, log) /\ List.length log = 1000).
Proof.
  pose proof (collectors_have_no_page_limit
                Samples.sample_str Samples.endless_calendar Samples.endless_notion
                "now" [] [("database_id", VStr "db")]) as [Hcal Hquery].
  split.
  - apply Hcal. intros log cursor.
    eexists; eexists; eexists.
    split; [reflexivity | split; [reflexivity | split; reflexivity]].
  - apply Hquery; [reflexivity|]. intros log cursor.
    eexists; eexists; eexists.
    split; [reflexivity | split; [reflexivity | split; reflexivity]].
Defined.

End PaginationClaims.

(* ===================================================================== *)
(** ** The calendar handlers                                             *)
(* ===================================================================== *)

Module CalendarFacts.
Import Calendar.

Lemma dict_get_set_same (d : dict) (k : string) (v : value) :
  dict_get (dict_set d k v) k = Some v.
Proof.
  induction d as [|[k' v'] d IH]; simpl.
  - now rewrite String.eqb_refl.
  - destruct (String.eqb k' k) eqn:E; simpl; rewrite E; [reflexivity | exact IH].
Qed.

Lemma dict_get_set_other (d : dict) (k k' : string) (v : value) :
  k <> k' -> dict_get (dict_set d k v) k' = dict_get d k'.
Proof.
  intros Hne. induction d as [|[k0 v0] d IH]; simpl.
  - apply String.eqb_neq in Hne. now rewrite Hne.
  - destruct (String.eqb k0 k) eqn:E; simpl.
    + apply String.eqb_eq in E. subst k0.
      apply String.eqb_neq in Hne. now rewrite Hne.
    + destruct (String.eqb k0 k'); [reflexivity | exact IH].
Qed.

Lemma is_none_true (v : value) : is_none v = true <-> v = VNone.
Proof. destruct v; simpl; split; intros H; try discriminate; reflexivity. Qed.

Lemma conditional_setitem (requested : value) (event : dict) (k : string) (v : value) :
  (if negb (is_none requested) then py_setitem (VDict event) k v else Ok (VDict event))
  = Ok (VDict (overwrite_if requested event k v)).
Proof. unfold overwrite_if. destruct (is_none requested); reflexivity. Qed.

Lemma overwrite_if_same (requested : value) (event : dict) (k : string) (v : value) :
  dict_get (overwrite_if requested event k v) k =
  if is_none requested then dict_get event k else Some v.
Proof.
  unfold overwrite_if. destruct (is_none requested); simpl;
    [reflexivity | apply dict_get_set_same].
Qed.

Lemma overwrite_if_other (requested : value) (event : dict) (k k' : string) (v : value) :
  k <> k' -> dict_get (overwrite_if requested event k v) k' = dict_get event k'.
Proof.
  intros Hne. unfold overwrite_if. destruct (is_none requested); simpl;
    [reflexivity | now apply dict_get_set_other].
Qed.

(** The record [overwrite_fields] hands to the update, for a dict event and
    a dict request body whose attendees, if given, can be iterated. *)
Lemma overwrite_fields_dict (event data : dict) (attendee_list : list value) :
  let requested k := dict_get_default data k VNone in
  (requested "attendees" <> VNone ->
   py_iter (requested "attendees") = Ok attendee_list) ->
  overwrite_fields (VDict event) (VDict data) =
  Ok (VDict
        (overwrite_if (requested "attendees")
           (overwrite_if (requested "end_time")
              (overwrite_if (requested "start_time")
                 (overwrite_if (requested "description")
                    (overwrite_if (requested "summary") event
                                  "summary" (requested "summary"))
                    "description" (requested "description"))
                 "start" (VDict [("dateTime", requested "start_time")]))
              "end" (VDict [("dateTime", requested "end_time")]))
           "attendees"
           (VList (map (fun attendee => VDict [("email", attendee)]) attendee_list)))).
Proof.
  cbn zeta. intros Hatt. unfold overwrite_fields. cbn [py_get bind].
  repeat (rewrite conditional_setitem; cbn [bind]).
  remember (overwrite_if (dict_get_default data "end_time" VNone) _ _ _) as e4.
  unfold overwrite_if.
  destruct (is_none (dict_get_default data "attendees" VNone)) eqn:E; cbn [negb].
  - reflexivity.
  - rewrite Hatt; [reflexivity|].
    intros Hnone. apply is_none_true in Hnone. congruence.
Qed.

(** Reads a known field off the record the update is sent with. *)
Ltac known_field :=
  repeat rewrite overwrite_if_other by discriminate;
  rewrite overwrite_if_same;
  repeat rewrite overwrite_if_other by discriminate;
  reflexivity.

End CalendarFacts.

Module CalendarClaims.
Import Calendar CalendarFacts.

(** With or without the service object: a create-event request whose body
    lacks [summary], [start_time] or [end_time] sends nothing to the
    calendar and is answered with [abort(400)] once the service object was
    obtained; a delete request without [event_id] likewise. *)
Lemma missing_fields_rejected_with_service :
  forall (str_exn : exn -> string) (svc : service)
         (data : dict) (args : list (string * string)),
    (dict_get data "summary" = None \/ dict_get data "start_time" = None \/
     dict_get data "end_time" = None ->
     (forall get_calendar_service,
         snd (create_event str_exn get_calendar_service (VDict data)) = []) /\
     create_event str_exn (Ok svc) (VDict data) =
     (Abort 400 "Missing required event fields.", []))
    /\
    (args_get args "event_id" VNone = VNone ->
     (forall get_calendar_service,
         snd (delete_event str_exn get_calendar_service args) = []) /\
     delete_event str_exn (Ok svc) args = (Abort 400 "Event ID is required.", []) /\
     (400 <= status_of (fst (delete_event str_exn (Ok svc) args)) < 500)%Z).
Proof.
  intros str_exn svc data args. split.
  - intros Hmissing.
    assert (Hall : forallb truthy [dict_get_default data "summary" VNone;
                                   dict_get_default data "start_time" VNone;
                                   dict_get_default data "end_time" VNone] = false).
    { unfold dict_get_default. cbn [forallb].
      destruct Hmissing as [-> | [-> | ->]]; cbn [truthy andb];
        rewrite ?andb_false_r; reflexivity. }
    assert (Hsvc : forall s, create_event str_exn (Ok s) (VDict data) =
                             (Abort 400 "Missing required event fields.", [])).
    { intros s. unfold create_event. cbn [py_get bind]. rewrite Hall. reflexivity. }
    split; [|apply Hsvc].
    intros [s|e]; [now rewrite Hsvc | reflexivity].
  - intros Hmissing.
    assert (Hsvc : forall s, delete_event str_exn (Ok s) args =
                             (Abort 400 "Event ID is required.", [])).
    { intros s. unfold delete_event. rewrite Hmissing. reflexivity. }
    split; [|split].
    + intros [s|e]; [now rewrite Hsvc | reflexivity].
    + apply Hsvc.
    + rewrite Hsvc. simpl. lia.
Qed.

(** The rejection rule does not hold of every request: obtaining the
    service object comes first.  With an expired stored token the create
    handler refreshes the token before it answers 400, and without usable
    credentials the delete handler fails with status 500 where the request
    lacks its event identifier. *)
Lemma missing_fields_rejection_counterexample :
  ~ Served.rejects_before_any_upstream_call Samples.sample_str /\
  ~ Served.answers_4xx_without_event_id Samples.sample_str.
Proof.
  split.
  - intros H.
    destruct (H Auth.stale_environment [("summary", VStr "Standup")])
      as (_ & Hup & _); [right; left; reflexivity|].
    vm_compute in Hup. discriminate.
  - intros H.
    pose proof (H Served.locked_out_environment [] eq_refl) as Hs.
    change (400 <= 500 < 500)%Z in Hs. lia.
Qed.

(** C7, amended.  A create-event request whose body is a JSON object
    lacking [summary], [start_time] or [end_time] never sends a calendar
    request; its effects are those of [get_calendar_service()], which runs
    first, and its answer is [abort(400)] when that call returned the
    service object and the unhandled exception (status 500) when it raised.
    The same holds of a delete request without [event_id]. *)
Theorem missing_fields_rejected_once_service_is_obtained :
  forall (str_exn : exn -> string) (env : Auth.environment)
         (data : dict) (args : list (string * string)),
    (dict_get data "summary" = None \/ dict_get data "start_time" = None \/
     dict_get data "end_time" = None ->
     let r := Served.create_event str_exn env (VDict data) in
     Served.requests r = [] /\
     Served.effects r = snd (Auth.get_calendar_service env) /\
     Served.answer r =
     match fst (Auth.get_calendar_service env) with
     | Ok _ => Abort 400 "Missing required event fields."
     | Raise e => Unhandled e
     end)
    /\
    (args_get args "event_id" VNone = VNone ->
     let r := Served.delete_event str_exn env args in
     Served.requests r = [] /\
     Served.effects r = snd (Auth.get_calendar_service env) /\
     Served.answer r =
     match fst (Auth.get_calendar_service env) with
     | Ok _ => Abort 400 "Event ID is required."
     | Raise e => Unhandled e
     end /\
     (status_of (Served.answer r) =
      match fst (Auth.get_calendar_service env) with
      | Ok _ => 400
      | Raise _ => 500
      end)%Z).
Proof.
  intros str_exn env data args. split.
  - intros Hmissing. cbn zeta. unfold Served.create_event.
    destruct (Auth.get_calendar_service env) as [[svc|e] done]; cbn [fst snd].
    + destruct (missing_fields_rejected_with_service str_exn svc data args)
        as [Hcreate _].
      destruct (Hcreate Hmissing) as [_ ->]. cbn. auto.
    + cbn. auto.
  - intros Hmissing. cbn zeta. unfold Served.delete_event.
    destruct (Auth.get_calendar_service env) as [[svc|e] done]; cbn [fst snd].
    + destruct (missing_fields_rejected_with_service str_exn svc data args)
        as [_ Hdelete].
      destruct (Hdelete Hmissing) as (_ & -> & _). cbn. auto.
    + cbn. auto.
Qed.

Lemma missing_fields_rejected_once_service_is_obtained_witness :
  Served.answer (Served.create_event Samples.sample_str Auth.stale_environment
                                     (VDict [("summary", VStr "Standup")])) =
  Abort 400 "Missing required event fields." /\
  Served.answer (Served.delete_event Samples.sample_str Served.locked_out_environment
                                     [("calendar_id", "primary")]) =
  Unhandled (SdkError "credentials.json not found").
Proof.
  pose proof (missing_fields_rejected_once_service_is_obtained
                Samples.sample_str Auth.stale_environment
                [("summary", VStr "Standup")] []) as [Hcreate _].
  pose proof (missing_fields_rejected_once_service_is_obtained
                Samples.sample_str Served.locked_out_environment
                [] [("calendar_id", "primary")]) as [_ Hdelete].
  split.
  - apply Hcreate. right. left. reflexivity.
  - apply Hdelete. reflexivity.
Defined.

(** C9.  For an edit request that names an event whose stored record is a
    dict, [edit_event] fetches the record and sends one update whose body is
    that record with [summary], [description], [start], [end] and
    [attendees] overwritten, each only when the request body holds a
    non-null [summary], [description], [start_time], [end_time] or
    [attendees]; every other field of the record reaches the update
    unchanged. *)
Theorem edit_event_overwrites_known_fields_only :
  forall (str_exn : exn -> string) (svc : service)
         (data event : dict) (attendee_list : list value),
    let requested k := dict_get_default data k VNone in
    let calendar_id := dict_get_default data "calendar_id" (VStr "primary") in
    let event_id := requested "event_id" in
    truthy event_id = true ->
    svc [] (EventsGet calendar_id event_id) = Ok (VDict event) ->
    (requested "attendees" <> VNone ->
     py_iter (requested "attendees") = Ok attendee_list) ->
    exists body : dict,
      snd (edit_event str_exn (Ok svc) (VDict data)) =
      [EventsGet calendar_id event_id;
       EventsUpdate calendar_id event_id (VDict body)] /\
      (forall k, ~ In k ["summary"; "description"; "start"; "end"; "attendees"] ->
                 dict_get body k = dict_get event k) /\
      dict_get body "summary" =
        (if is_none (requested "summary") then dict_get event "summary"
         else Some (requested "summary")) /\
      dict_get body "description" =
        (if is_none (requested "description") then dict_get event "description"
         else Some (requested "description")) /\
      dict_get body "start" =
        (if is_none (requested "start_time") then dict_get event "start"
         else Some (VDict [("dateTime", requested "start_time")])) /\
      dict_get body "end" =
        (if is_none (requested "end_time") then dict_get event "end"
         else Some (VDict [("dateTime", requested "end_time")])) /\
      dict_get body "attendees" =
        (if is_none (requested "attendees") then dict_get event "attendees"
         else Some (VList (map (fun attendee => VDict [("email", attendee)])
                               attendee_list))).
Proof.
  intros str_exn svc data event attendee_list requested calendar_id event_id
         Hid Hget Hatt.
  eexists. split.
  - unfold edit_event. cbn [py_get bind].
    fold calendar_id. fold (requested "event_id"). fold event_id.
    rewrite Hid. cbn [negb]. rewrite Hget.
    rewrite (overwrite_fields_dict event data attendee_list Hatt).
    destruct (svc _ (EventsUpdate _ _ _)); reflexivity.
  - fold requested.
    split; [|split; [|split; [|split; [|split]]]].
    + intros k Hk. cbn [In] in Hk.
      repeat rewrite overwrite_if_other by (intros E; subst k; apply Hk; auto 10).
      reflexivity.
    + known_field.
    + known_field.
    + known_field.
    + known_field.
    + known_field.
Qed.

Lemma edit_event_overwrites_known_fields_only_witness :
  exists body : dict,
    snd (edit_event Samples.sample_str (Ok Samples.sample_calendar)
                    (VDict Samples.sample_edit)) =
    [EventsGet (VStr "primary") (VStr "ev1");
     EventsUpdate (VStr "primary") (VStr "ev1") (VDict body)] /\
    dict_get body "location" = Some (VStr "Room 1") /\
    dict_get body "summary" = Some (VStr "New") /\
    dict_get body "start" = Some (VDict [("dateTime", VStr "2024-01-01T10:00:00Z")]).
Proof.
  destruct (edit_event_overwrites_known_fields_only
              Samples.sample_str Samples.sample_calendar
              Samples.sample_edit Samples.stored_event [])
    as (body & Hcalls & Hframe & Hsummary & _ & Hstart & _).
  - reflexivity.
  - reflexivity.
  - intros H. exfalso. apply H. reflexivity.
  - exists body. split; [exact Hcalls|]. split; [|split].
    + rewrite (Hframe "location"); [reflexivity|].
      simpl. intros [H|[H|[H|[H|[H|[]]]]]]; discriminate.
    + exact Hsummary.
    + exact Hstart.
Defined.

End CalendarClaims.

(* ===================================================================== *)
(** ** The block tree flattener                                          *)
(* ===================================================================== *)

Module FlattenerFacts.
Import Notion.

(** Properties kept by every iteration hold when the loop has left. *)
Lemma while_loop_invariant {St Out Call}
      (body : St -> list Call -> result (St + Out) * list Call)
      (I : St -> list Call -> Prop) (Q : result Out -> list Call -> Prop) :
  (forall st log st' log',
      I st log -> body st log = (Ok (inl st'), log') -> I st' log') ->
  (forall st log out log',
      I st log -> body st log = (Ok (inr out), log') -> Q (Ok out) log') ->
  (forall st log e log',
      I st log -> body st log = (Raise e, log') -> Q (Raise e) log') ->
  forall fuel st log r log',
    I st log -> while_loop body fuel st log = (Some r, log') -> Q r log'.
Proof.
  intros Hstep Hout Herr. induction fuel as [|fuel IH]; intros st log r log' HI Hrun.
  - discriminate.
  - simpl in Hrun. destruct (body st log) as [[[st'|out]|e] l] eqn:Hb.
    + eapply IH; [eapply Hstep; eauto | exact Hrun].
    + inversion Hrun; subst. eapply Hout; eauto.
    + inversion Hrun; subst. eapply Herr; eauto.
Qed.

(** A property of the log kept by every iteration holds of the log of a
    loop that is still running as well. *)
Lemma while_loop_log_invariant {St Out Call}
      (body : St -> list Call -> result (St + Out) * list Call)
      (I : St -> list Call -> Prop) (P : list Call -> Prop) :
  (forall st log, I st log -> P log) ->
  (forall st log st' log',
      I st log -> body st log = (Ok (inl st'), log') -> I st' log') ->
  (forall st log r log',
      I st log -> body st log = (r, log') -> P log') ->
  forall fuel st log,
    I st log -> P (snd (while_loop body fuel st log)).
Proof.
  intros Hbase Hstep Hlog. induction fuel as [|fuel IH]; intros st log HI.
  - simpl. eapply Hbase; eauto.
  - simpl. destruct (body st log) as [[[st'|out]|e] l] eqn:Hb.
    + apply IH. eapply Hstep; eauto.
    + simpl. eapply Hlog; eauto.
    + simpl. eapply Hlog; eauto.
Qed.

Section Client.
Variable str_exn : exn -> string.
Variable notion : client.

(** What one iteration does with a non-empty work list. *)
Lemma flatten_body_pop (collected rest : list value) (id : value)
      (log : list notion_call) :
  flatten_body notion (collected, rest ++ [id]) log =
  (response <- notion log (listing id) ;;
   block_children <- py_get response (VStr "results") (VList []) ;;
   children <- py_iter block_children ;;
   st' <- for_each scan_block children (collected, rest) ;;
   Ok (inl st'),
   log ++ [listing id]).
Proof. unfold flatten_body. rewrite pop_snoc. reflexivity. Qed.

Lemma flatten_body_empty (collected : list value) (log : list notion_call) :
  flatten_body notion (collected, []) log = (Ok (inr collected), log).
Proof. reflexivity. Qed.

(** A scanned block is collected, and scheduled when its flag is set. *)
Lemma scan_block_ok (block : value) (c s c' s' : list value) :
  scan_block block (c, s) = Ok (c', s') ->
  c' = c ++ [block] /\ s' = s ++ scheduled [block].
Proof.
  unfold scan_block, scheduled. destruct block as [| | | | |d]; try discriminate.
  cbn [py_get bind filter flag_of].
  destruct (truthy (dict_get_default d "has_children" (VBool false))).
  - cbn [py_getitem id_of map]. unfold dict_get_default.
    destruct (dict_get d "id") as [id|]; [|discriminate].
    cbn [bind]. intros H; inversion H; subst. auto.
  - intros H; inversion H; subst. cbn [map]. now rewrite app_nil_r.
Qed.

Lemma scheduled_app (xs ys : list value) :
  scheduled (xs ++ ys) = scheduled xs ++ scheduled ys.
Proof. unfold scheduled. now rewrite filter_app, map_app. Qed.

Lemma for_each_scan_ok (children : list value) :
  forall c s c' s',
    for_each scan_block children (c, s) = Ok (c', s') ->
    c' = c ++ children /\ s' = s ++ scheduled children.
Proof.
  induction children as [|b bs IH]; intros c s c' s' H.
  - inversion H; subst. unfold scheduled. simpl. now rewrite !app_nil_r.
  - cbn [for_each] in H.
    destruct (scan_block b (c, s)) as [[c1 s1]|e] eqn:Hb; [|discriminate].
    cbn [bind] in H. apply scan_block_ok in Hb. destruct Hb as [-> ->].
    apply IH in H. destruct H as [-> ->].
    change (b :: bs) with ([b] ++ bs).
    rewrite scheduled_app, !app_assoc. auto.
Qed.

Lemma scan_block_well_formed (block : value) (c s : list value) :
  well_formed block ->
  scan_block block (c, s) = Ok (c ++ [block], s ++ scheduled [block]).
Proof.
  intros (d & id & -> & Hid). unfold scan_block, scheduled.
  cbn [py_get bind filter flag_of].
  destruct (truthy (dict_get_default d "has_children" (VBool false))).
  - cbn [py_getitem id_of map]. unfold dict_get_default. rewrite Hid. reflexivity.
  - cbn [map]. now rewrite app_nil_r.
Qed.

Lemma for_each_scan_well_formed (children : list value) :
  Forall well_formed children ->
  forall c s,
    for_each scan_block children (c, s) =
    Ok (c ++ children, s ++ scheduled children).
Proof.
  induction 1 as [|b bs Hb _ IH]; intros c s.
  - unfold scheduled. simpl. now rewrite !app_nil_r.
  - cbn [for_each]. rewrite (scan_block_well_formed _ _ _ Hb). cbn [bind].
    rewrite IH. change (b :: bs) with ([b] ++ bs).
    rewrite scheduled_app, !app_assoc. reflexivity.
Qed.

(** *** Trees *)

Lemma serves_tree_node (b : value) (ks : list tree) :
  serves_tree notion (Node b ks) <->
  well_formed b /\
  (if flag_of b then lists_children notion (id_of b) (map root_block ks)
   else ks = []) /\
  Forall (serves_tree notion) ks.
Proof.
  cbn [serves_tree].
  assert (Hall : forall ts,
             (fix all (ts : list tree) : Prop :=
                match ts with
                | [] => True
                | t' :: ts' => serves_tree notion t' /\ all ts'
                end) ts <-> Forall (serves_tree notion) ts).
  { induction ts as [|t ts IH]; split; intros H.
    - constructor.
    - exact I.
    - destruct H as [Ht Hts]. constructor; [exact Ht | now apply IH].
    - inversion H; subst. split; [assumption | now apply IH]. }
  rewrite Hall. reflexivity.
Qed.

Lemma serves_tree_well_formed (t : tree) :
  serves_tree notion t -> well_formed (root_block t).
Proof. destruct t as [b ks]. rewrite serves_tree_node. now intros [H _]. Qed.

Lemma serves_tree_unflagged (t : tree) :
  serves_tree notion t -> flagged t = false -> kids_of t = [].
Proof.
  destruct t as [b ks]. rewrite serves_tree_node. unfold flagged. cbn.
  intros (_ & H & _) E. now rewrite E in H.
Qed.

Lemma forest_blocks_app (xs ys : list tree) :
  forest_blocks (xs ++ ys) = forest_blocks xs ++ forest_blocks ys.
Proof. apply flat_map_app. Qed.

Lemma forest_subtrees_app (xs ys : list tree) :
  forest_subtrees (xs ++ ys) = forest_subtrees xs ++ forest_subtrees ys.
Proof. apply flat_map_app. Qed.

Lemma tree_blocks_unfold (t : tree) :
  tree_blocks t = root_block t :: forest_blocks (kids_of t).
Proof. destruct t; reflexivity. Qed.

Lemma subtrees_unfold (t : tree) :
  subtrees t = t :: forest_subtrees (kids_of t).
Proof. destruct t; reflexivity. Qed.

(** The blocks of a forest are its roots and the blocks below them. *)
Lemma forest_blocks_roots (ks : list tree) :
  Permutation (forest_blocks ks)
              (map root_block ks ++ forest_blocks (flat_map kids_of ks)).
Proof.
  induction ks as [|k ks IH]; [constructor|].
  change (forest_blocks (k :: ks)) with (tree_blocks k ++ forest_blocks ks).
  cbn [map flat_map]. rewrite forest_blocks_app, tree_blocks_unfold.
  cbn [app]. constructor.
  etransitivity; [apply Permutation_app_head, IH|].
  apply Permutation_app_swap_app.
Qed.

(** Dropping the children whose flag is not set loses nothing below them. *)
Lemma kids_of_flagged (ks : list tree) :
  Forall (serves_tree notion) ks ->
  flat_map kids_of (filter flagged ks) = flat_map kids_of ks.
Proof.
  induction 1 as [|k ks Hk _ IH]; [reflexivity|].
  cbn [filter flat_map]. destruct (flagged k) eqn:E.
  - cbn [flat_map]. now rewrite IH.
  - rewrite (serves_tree_unflagged _ Hk E). exact IH.
Qed.

Lemma scheduled_flagged (ks : list tree) :
  Forall (serves_tree notion) ks ->
  scheduled (forest_blocks (filter flagged ks)) = scheduled (forest_blocks ks).
Proof.
  induction 1 as [|k ks Hk _ IH]; [reflexivity|].
  cbn [filter]. destruct (flagged k) eqn:E.
  - change (forest_blocks (k :: filter flagged ks))
      with (tree_blocks k ++ forest_blocks (filter flagged ks)).
    change (forest_blocks (k :: ks)) with (tree_blocks k ++ forest_blocks ks).
    now rewrite !scheduled_app, IH.
  - change (forest_blocks (k :: ks)) with (tree_blocks k ++ forest_blocks ks).
    rewrite scheduled_app, IH, tree_blocks_unfold.
    rewrite (serves_tree_unflagged _ Hk E).
    unfold scheduled at 2. cbn [forest_blocks flat_map filter].
    unfold flagged in E. rewrite E. reflexivity.
Qed.

Lemma scheduled_roots (ks : list tree) :
  scheduled (map root_block ks) = stack_of (filter flagged ks).
Proof.
  unfold scheduled, stack_of. induction ks as [|k ks IH]; [reflexivity|].
  cbn [map filter]. unfold flagged at 1.
  destruct (flag_of (root_block k)); cbn [map]; now rewrite IH.
Qed.

Lemma forest_size_app (xs ys : list tree) :
  forest_size (xs ++ ys) = forest_size xs + forest_size ys.
Proof. unfold forest_size. now rewrite map_app, list_sum_app. Qed.

Lemma forest_size_filter (f : tree -> bool) (ks : list tree) :
  forest_size (filter f ks) <= forest_size ks.
Proof.
  unfold forest_size. induction ks as [|k ks IH]; [simpl; lia|].
  cbn [filter]. destruct (f k); simpl in *; lia.
Qed.

Lemma snoc_cases {A} (l : list A) : l = [] \/ exists l' x, l = l' ++ [x].
Proof.
  destruct l as [|x l] using rev_ind; [now left | right; eauto].
Qed.

Lemma tree_size_pos (t : tree) : 1 <= tree_size t.
Proof. destruct t; simpl; lia. Qed.

Lemma before_app_head {A} (x y : A) (pre l : list A) :
  before x y l -> before x y (pre ++ l).
Proof.
  intros (l1 & l2 & l3 & ->). exists (pre ++ l1), l2, l3.
  now rewrite <- app_assoc.
Qed.

Lemma before_across {A} (x y : A) (pre l : list A) :
  In x pre -> In y l -> before x y (pre ++ l).
Proof.
  intros Hx Hy. apply in_split in Hx. destruct Hx as (a1 & a2 & ->).
  apply in_split in Hy. destruct Hy as (b1 & b2 & ->).
  exists a1, (a2 ++ b1), b2. now rewrite <- !app_assoc.
Qed.

Lemma root_in_forest_blocks (k : tree) (ks : list tree) :
  In k ks -> In (root_block k) (forest_blocks ks).
Proof.
  intros Hk. apply in_flat_map. exists k. split; [exact Hk|].
  rewrite tree_blocks_unfold. now left.
Qed.

Lemma subtrees_below (t k0 : tree) (ks : list tree) :
  In k0 ks -> In t (forest_subtrees (kids_of k0)) ->
  In t (forest_subtrees (flat_map kids_of ks)).
Proof.
  intros Hk0 Ht. apply in_flat_map in Ht. destruct Ht as (k1 & Hk1 & Ht).
  apply in_flat_map. exists k1. split; [|exact Ht].
  apply in_flat_map. exists k0. auto.
Qed.

(** The run of the loop from a work list that holds the roots of [ts],
    all served by the provider and flagged: it leaves after one request
    per flagged block of [ts], having collected every block below the
    roots of [ts], each parent ahead of its children. *)
Lemma flatten_forest_run :
  forall n ts,
    forest_size ts <= n ->
    Forall (serves_tree notion) ts ->
    Forall (fun t => flagged t = true) ts ->
    forall collected log, exists out log2,
      while_loop (flatten_body notion) (S (List.length log2))
                 (collected, stack_of ts) log
      = (Some (Ok (collected ++ out)), log ++ log2) /\
      Permutation out (forest_blocks (flat_map kids_of ts)) /\
      Permutation log2 (map listing (scheduled (forest_blocks ts))) /\
      (forall p c, parent_child (flat_map kids_of ts) p c -> before p c out).
Proof.
  assert (Hnil : forall collected log, exists out log2,
             while_loop (flatten_body notion) (S (List.length log2))
                        (collected, stack_of []) log
             = (Some (Ok (collected ++ out)), log ++ log2) /\
             Permutation out (forest_blocks (flat_map kids_of [])) /\
             Permutation log2 (map listing (scheduled (forest_blocks []))) /\
             (forall p c, parent_child (flat_map kids_of []) p c ->
                          before p c out)).
  { intros collected log. exists [], []. cbn [List.length while_loop stack_of map].
    rewrite flatten_body_empty, !app_nil_r.
    split; [reflexivity|]. split; [constructor|]. split; [constructor|].
    intros p c (t & k & Ht & _). destruct Ht. }
  induction n as [|n IH]; intros ts Hsize Hserved Hflag collected log.
  - destruct ts as [|t ts]; [apply Hnil|].
    unfold forest_size in Hsize. cbn [map list_sum] in Hsize.
    pose proof (tree_size_pos t). simpl in Hsize. lia.
  - destruct (snoc_cases ts) as [-> | (ts' & [b ks] & ->)]; [apply Hnil|].
    apply Forall_app in Hserved. destruct Hserved as [Hs' Ht].
    apply Forall_app in Hflag. destruct Hflag as [Hf' Hfb].
    inversion Ht as [|? ? Hnode _]; subst.
    inversion Hfb as [|? ? Hb _]; subst.
    apply serves_tree_node in Hnode. destruct Hnode as (Hwf & Hlist & Hks).
    unfold flagged in Hb. cbn [root_block] in Hb. rewrite Hb in Hlist.
    destruct (Hlist log) as (response & page & Hresp & Hpage & Hiter).
    change (BlocksChildrenList (id_of b) None) with (listing (id_of b)) in Hresp.
    rewrite forest_size_app in Hsize. unfold forest_size at 2 in Hsize.
    cbn [map list_sum tree_size] in Hsize. fold (forest_size ks) in Hsize.
    simpl in Hsize.
    assert (Hsize' : forest_size (ts' ++ filter flagged ks) <= n).
    { rewrite forest_size_app. pose proof (forest_size_filter flagged ks). lia. }
    assert (Hserved' : Forall (serves_tree notion) (ts' ++ filter flagged ks)).
    { apply Forall_app. split; [exact Hs'|].
      apply Forall_forall. intros k Hk. apply filter_In in Hk.
      rewrite Forall_forall in Hks. now apply Hks. }
    assert (Hflag' : Forall (fun t => flagged t = true) (ts' ++ filter flagged ks)).
    { apply Forall_app. split; [exact Hf'|].
      apply Forall_forall. intros k Hk. now apply filter_In in Hk. }
    destruct (IH _ Hsize' Hserved' Hflag' (collected ++ map root_block ks)
                 (log ++ [listing (id_of b)]))
      as (out' & log2' & Hrun & Hperm & Hcalls & Hbefore).
    rewrite flat_map_app, (kids_of_flagged _ Hks) in Hperm, Hbefore.
    rewrite forest_blocks_app in Hperm.
    rewrite forest_blocks_app, scheduled_app, (scheduled_flagged _ Hks) in Hcalls.
    exists (map root_block ks ++ out'), (listing (id_of b) :: log2').
    split; [|split; [|split]].
    + cbn [List.length]. rewrite while_loop_step.
      unfold stack_of. rewrite map_app. cbn [map root_block].
      rewrite flatten_body_pop, Hresp. cbn [bind]. rewrite Hpage. cbn [bind].
      rewrite Hiter. cbn [bind].
      rewrite for_each_scan_well_formed.
      2:{ apply Forall_forall. intros x Hx. apply in_map_iff in Hx.
          destruct Hx as (k & <- & Hk). rewrite Forall_forall in Hks.
          apply serves_tree_well_formed. now apply Hks. }
      cbn [bind]. rewrite scheduled_roots.
      fold (stack_of ts'). unfold stack_of at 1 2.
      rewrite <- map_app. fold (stack_of (ts' ++ filter flagged ks)).
      rewrite Hrun. rewrite <- !app_assoc. reflexivity.
    + rewrite flat_map_app. cbn [flat_map kids_of]. rewrite app_nil_r.
      rewrite forest_blocks_app.
      etransitivity; [apply Permutation_app_head, Hperm|].
      etransitivity; [apply Permutation_app_swap_app|].
      apply Permutation_app_head. symmetry. apply forest_blocks_roots.
    + rewrite forest_blocks_app, scheduled_app.
      cbn [forest_blocks flat_map tree_blocks]. rewrite app_nil_r.
      fold (forest_blocks ks).
      unfold scheduled at 2. cbn [filter]. rewrite Hb. cbn [map].
      fold (scheduled (forest_blocks ks)).
      rewrite map_app. cbn [map].
      apply Permutation_cons_app. rewrite <- map_app. exact Hcalls.
    + intros p c (t & k & Hin & Hk & -> & ->).
      rewrite flat_map_app in Hin. cbn [flat_map kids_of] in Hin.
      rewrite app_nil_r, forest_subtrees_app in Hin.
      apply in_app_or in Hin. destruct Hin as [Hin | Hin].
      * apply before_app_head, Hbefore. exists t, k.
        rewrite forest_subtrees_app.
        repeat split; [apply in_or_app; now left | exact Hk].
      * apply in_flat_map in Hin. destruct Hin as (k0 & Hk0 & Hin).
        rewrite subtrees_unfold in Hin. destruct Hin as [<- | Hin].
        -- apply before_across.
           ++ apply in_map. exact Hk0.
           ++ apply (Permutation_in _ (Permutation_sym Hperm)).
              apply in_or_app. right. apply root_in_forest_blocks.
              apply in_flat_map. exists k0. auto.
        -- apply before_app_head, Hbefore. exists t, k.
           rewrite forest_subtrees_app.
           repeat split; [|exact Hk].
           apply in_or_app. right. eapply subtrees_below; eauto.
Qed.

Lemma page_node_served (root : value) (forest : list tree) :
  serves notion root forest -> serves_tree notion (page_node root forest).
Proof.
  intros [Hlist Hforest]. unfold page_node. apply serves_tree_node.
  split; [|split; [exact Hlist | exact Hforest]].
  exists [("id", root); ("has_children", VBool true)], root. auto.
Qed.

(** The traversal of a page the provider serves: it returns after one
    request for the root and one per flagged block, with every block of
    the forest collected, each parent ahead of its children. *)
Lemma retrieve_all_blocks_on_page (root : value) (forest : list tree) :
  serves notion root forest ->
  exists out log,
    (forall fuel, List.length log < fuel ->
       retrieve_all_blocks str_exn notion fuel root = (Some (VList out), log)) /\
    Permutation out (forest_blocks forest) /\
    Permutation log (map listing (root :: scheduled (forest_blocks forest))) /\
    (forall p c, parent_child forest p c -> before p c out).
Proof.
  intros Hserves.
  assert (Hserved : Forall (serves_tree notion) [page_node root forest]).
  { constructor; [now apply page_node_served | constructor]. }
  assert (Hflag : Forall (fun t => flagged t = true) [page_node root forest]).
  { constructor; [reflexivity | constructor]. }
  destruct (flatten_forest_run (forest_size [page_node root forest])
                               [page_node root forest] (le_n _)
                               Hserved Hflag [] [])
    as (out & log & Hrun & Hperm & Hcalls & Hbefore).
  cbn [flat_map page_node kids_of] in Hperm, Hbefore.
  rewrite app_nil_r in Hperm, Hbefore.
  exists out, log. split; [|split; [exact Hperm | split; [|exact Hbefore]]].
  - intros fuel Hfuel. unfold retrieve_all_blocks.
    change [root] with (stack_of [page_node root forest]).
    rewrite (while_loop_more_fuel _ _ fuel _ _ _ _ Hrun); [reflexivity | lia].
  - etransitivity; [exact Hcalls|].
    unfold page_node. cbn [forest_blocks flat_map tree_blocks].
    rewrite app_nil_r. reflexivity.
Qed.

Lemma NoDup_scheduled (blocks : list value) :
  NoDup (map id_of blocks) -> NoDup (scheduled blocks).
Proof.
  unfold scheduled. induction blocks as [|b bs IH]; intros H; [constructor|].
  cbn [map] in H. inversion H as [|? ? Hnotin Hrest]; subst.
  cbn [filter]. destruct (flag_of b); [|now apply IH].
  cbn [map]. constructor; [|now apply IH].
  intros Hin. apply Hnotin. apply in_map_iff in Hin.
  destruct Hin as (x & Hx & Hf). apply filter_In in Hf.
  apply in_map_iff. exists x. tauto.
Qed.

Lemma scheduled_subset (blocks : list value) (id : value) :
  In id (scheduled blocks) -> In id (map id_of blocks).
Proof.
  unfold scheduled. intros Hin. apply in_map_iff in Hin.
  destruct Hin as (x & Hx & Hf). apply filter_In in Hf.
  apply in_map_iff. exists x. tauto.
Qed.

Lemma NoDup_listing (ids : list value) :
  NoDup ids -> NoDup (map listing ids).
Proof.
  induction 1 as [|id ids Hnotin _ IH]; [constructor|].
  cbn [map]. constructor; [|exact IH].
  intros Hin. apply in_map_iff in Hin. destruct Hin as (x & Hx & Hin).
  inversion Hx; subst. contradiction.
Qed.

(** The loop leaves exactly on an empty work list. *)
Lemma flatten_body_leaves_iff (collected stack : list value)
      (log : list notion_call) :
  (exists out, fst (flatten_body notion (collected, stack) log) = Ok (inr out))
  <-> stack = [].
Proof.
  split.
  - intros [out H]. destruct (snoc_cases stack) as [-> | (rest & id & ->)];
      [reflexivity|].
    rewrite flatten_body_pop in H. cbn [fst] in H.
    destruct (notion log (listing id)) as [response|e]; [|discriminate].
    cbn [bind] in H.
    destruct (py_get response (VStr "results") (VList [])) as [page|e];
      [|discriminate].
    cbn [bind] in H. destruct (py_iter page) as [children|e]; [|discriminate].
    cbn [bind] in H.
    destruct (for_each scan_block children (collected, rest)) as [st'|e];
      discriminate.
  - intros ->. exists collected. reflexivity.
Qed.

(** *** Runs against an arbitrary provider *)

Lemma first_pages_snoc (done todo : list notion_call) (call : notion_call) :
  first_pages notion done (todo ++ [call]) =
  first_pages notion done todo ++ first_page notion (done ++ todo) call.
Proof.
  revert done. induction todo as [|c todo IH]; intros done.
  - cbn [app first_pages]. now rewrite !app_nil_r.
  - cbn [app first_pages]. rewrite IH, <- !app_assoc. reflexivity.
Qed.

(** An iteration that goes on has sent one listing without a cursor for
    the identifier it popped and collected the first page it got. *)
Lemma flatten_body_continues (c s c' s' : list value) (log log' : list notion_call) :
  flatten_body notion (c, s) log = (Ok (inl (c', s')), log') ->
  exists rest id,
    s = rest ++ [id] /\ log' = log ++ [listing id] /\
    c' = c ++ first_page notion log (listing id) /\
    s' = rest ++ scheduled (first_page notion log (listing id)).
Proof.
  destruct (snoc_cases s) as [-> | (rest & id & ->)]; [discriminate|].
  rewrite flatten_body_pop. intros H. exists rest, id.
  unfold first_page, listing in *.
  destruct (response <- notion log (BlocksChildrenList id None) ;;
            page <- py_get response (VStr "results") (VList []) ;;
            py_iter page) as [children|e] eqn:Hfetch.
  - destruct (notion log (BlocksChildrenList id None)) as [response|e];
      [|discriminate].
    cbn [bind] in *.
    destruct (py_get response (VStr "results") (VList [])) as [page|e];
      [|discriminate].
    cbn [bind] in *. rewrite Hfetch in H. cbn [bind] in H.
    destruct (for_each scan_block children (c, rest)) as [[c1 s1]|e] eqn:Hscan;
      [|discriminate].
    inversion H; subst. apply for_each_scan_ok in Hscan. tauto.
  - exfalso.
    destruct (notion log (BlocksChildrenList id None)) as [response|e'];
      [|discriminate].
    cbn [bind] in *.
    destruct (py_get response (VStr "results") (VList [])) as [page|e'];
      [|discriminate].
    cbn [bind] in *. rewrite Hfetch in H. discriminate.
Qed.

(** Whatever an iteration does, it extends the log by at most one listing
    without a cursor. *)
Lemma flatten_body_log (c s : list value) (log : list notion_call) :
  snd (flatten_body notion (c, s) log) = log \/
  exists id, snd (flatten_body notion (c, s) log) = log ++ [listing id].
Proof.
  destruct (snoc_cases s) as [-> | (rest & id & ->)].
  - left. reflexivity.
  - right. exists id. now rewrite flatten_body_pop.
Qed.

Lemma flatten_loop_log (fuel : nat) :
  forall st log,
    only_first_pages log ->
    only_first_pages (snd (while_loop (flatten_body notion) fuel st log)).
Proof.
  apply (while_loop_log_invariant (flatten_body notion)
           (fun _ log => only_first_pages log) only_first_pages).
  - auto.
  - intros [c s] log [c' s'] log' Hlog Hbody.
    destruct (flatten_body_continues _ _ _ _ _ _ Hbody)
      as (rest & id & _ & -> & _).
    apply Forall_app. split; [exact Hlog|]. repeat constructor. now exists id.
  - intros [c s] log r log' Hlog Hbody.
    destruct (flatten_body_log c s log) as [H | [id H]];
      rewrite Hbody in H; cbn [snd] in H; subst log'; [exact Hlog|].
    apply Forall_app. split; [exact Hlog|]. repeat constructor. now exists id.
Qed.

Lemma flatten_loop_output (fuel : nat) :
  forall st log out log',
    fst st = first_pages notion [] log ->
    while_loop (flatten_body notion) fuel st log = (Some (Ok out), log') ->
    out = first_pages notion [] log'.
Proof.
  intros st log out log' Hinit Hrun.
  apply (while_loop_invariant (flatten_body notion)
           (fun st log => fst st = first_pages notion [] log)
           (fun r log' => forall out, r = Ok out -> out = first_pages notion [] log'))
    with (fuel := fuel) (st := st) (log := log) (r := Ok out); auto.
  - intros [c s] l [c' s'] l' HI Hbody. cbn [fst] in *.
    destruct (flatten_body_continues _ _ _ _ _ _ Hbody)
      as (rest & id & _ & -> & -> & _).
    rewrite first_pages_snoc. cbn [app]. now rewrite HI.
  - intros [c s] l o l' HI Hbody o' Ho. inversion Ho; subst o'.
    cbn [fst] in HI.
    destruct (snoc_cases s) as [-> | (rest & id & ->)].
    + rewrite flatten_body_empty in Hbody. inversion Hbody. congruence.
    + exfalso.
      assert (Hleft : exists w, fst (flatten_body notion (c, rest ++ [id]) l)
                                = Ok (inr w)).
      { exists o. now rewrite Hbody. }
      apply flatten_body_leaves_iff in Hleft.
      destruct rest; discriminate.
  - intros st0 l e l' _ _ o Ho. discriminate.
Qed.

Lemma snoc_split {A} (l l1 l2 : list A) (x y : A) :
  l ++ [x] = l1 ++ y :: l2 ->
  (l2 = [] /\ l1 = l /\ y = x) \/ (exists l2', l2 = l2' ++ [x] /\ l = l1 ++ y :: l2').
Proof.
  intros H. destruct (snoc_cases l2) as [-> | (l2' & z & ->)].
  - left. apply app_inj_tail in H. destruct H as [-> ->]. auto.
  - right. exists l2'.
    change (l1 ++ y :: l2' ++ [z]) with (l1 ++ (y :: l2') ++ [z]) in H.
    rewrite app_assoc in H. apply app_inj_tail in H. destruct H as [-> ->]. auto.
Qed.

Lemma all_answered_snoc (log : list notion_call) (call : notion_call) (r : value) :
  all_answered notion log -> notion log call = Ok r -> all_answered notion (log ++ [call]).
Proof.
  intros Hlog Hcall l1 c l2 Hsplit.
  apply snoc_split in Hsplit.
  destruct Hsplit as [(_ & -> & ->) | (l2' & _ & ->)]; [eauto|].
  eapply Hlog. reflexivity.
Qed.

(** The loop either has all its requests answered, or left with the
    exception of its last request, the only one that raised. *)
Lemma flatten_loop_failure (fuel : nat) :
  forall st log,
    all_answered notion log ->
    let run := while_loop (flatten_body notion) fuel st log in
    all_answered notion (snd run) \/
    exists l call e,
      snd run = l ++ [call] /\ all_answered notion l /\
      notion l call = Raise e /\ fst run = Some (Raise e).
Proof.
  induction fuel as [|fuel IH]; intros [c s] log Hlog; cbn zeta.
  - left. exact Hlog.
  - rewrite while_loop_step.
    destruct (snoc_cases s) as [-> | (rest & id & ->)].
    + rewrite flatten_body_empty. left. exact Hlog.
    + rewrite flatten_body_pop.
      destruct (notion log (listing id)) as [response|e] eqn:Hcall.
      * pose proof (all_answered_snoc _ _ _ Hlog Hcall) as Hlog'.
        cbn [bind].
        destruct (py_get response (VStr "results") (VList [])) as [page|e];
          [|left; exact Hlog'].
        cbn [bind]. destruct (py_iter page) as [children|e];
          [|left; exact Hlog'].
        cbn [bind].
        destruct (for_each scan_block children (c, rest)) as [st'|e];
          [|left; exact Hlog'].
        cbn [bind]. apply IH. exact Hlog'.
      * right. exists log, (listing id), e. cbn [bind fst snd]. auto.
Qed.

End Client.

End FlattenerFacts.

Module FlattenerClaims.
Import Notion FlattenerFacts.

(** C1.  On a page the provider serves as a tree of blocks with pairwise
    distinct identifiers, each node's children on the first page of its
    listing, [retrieve_all_blocks] returns: its output holds every block
    below the root exactly once; the requests sent are one for the root and
    one for each block whose flag is set, none twice; every block whose
    parent is a block of the page comes after that parent; and an iteration
    leaves the loop exactly when the work list is empty. *)
Theorem flattener_visits_each_block_once :
  forall (str_exn : exn -> string) (notion : client)
         (root : value) (forest : list tree),
    serves notion root forest ->
    distinct_ids root forest ->
    exists out log,
      (forall fuel, List.length log < fuel ->
         retrieve_all_blocks str_exn notion fuel root = (Some (VList out), log)) /\
      Permutation out (forest_blocks forest) /\
      NoDup out /\
      Permutation log (map listing (root :: scheduled (forest_blocks forest))) /\
      NoDup log /\
      (forall p c, parent_child forest p c -> before p c out) /\
      (forall collected stack log0,
          (exists left_with,
              fst (flatten_body notion (collected, stack) log0) = Ok (inr left_with))
          <-> stack = []).
Proof.
  intros str_exn notion root forest Hserves Hids.
  destruct (retrieve_all_blocks_on_page str_exn notion root forest Hserves)
    as (out & log & Hrun & Hperm & Hcalls & Hbefore).
  unfold distinct_ids in Hids.
  exists out, log. split; [exact Hrun|]. split; [exact Hperm|].
  split; [|split; [exact Hcalls | split; [|split; [exact Hbefore|]]]].
  - apply (Permutation_NoDup (Permutation_sym Hperm)).
    inversion Hids; subst. eapply NoDup_map_inv; eauto.
  - apply (Permutation_NoDup (Permutation_sym Hcalls)).
    apply NoDup_listing.
    inversion Hids as [|? ? Hnotin Hrest]; subst.
    constructor; [|now apply NoDup_scheduled].
    intros Hin. apply Hnotin. now apply scheduled_subset.
  - intros collected stack log0. apply flatten_body_leaves_iff.
Qed.

(** C10.  On such a page the output holds only blocks below the root, as
    many as there are, and none of them carries the root's identifier: the
    root itself is never collected. *)
Theorem flattener_output_excludes_root :
  forall (str_exn : exn -> string) (notion : client)
         (root : value) (forest : list tree),
    serves notion root forest ->
    distinct_ids root forest ->
    exists out log,
      (forall fuel, List.length log < fuel ->
         retrieve_all_blocks str_exn notion fuel root = (Some (VList out), log)) /\
      (forall b, In b out -> In b (forest_blocks forest) /\ id_of b <> root) /\
      List.length out = List.length (forest_blocks forest).
Proof.
  intros str_exn notion root forest Hserves Hids.
  destruct (retrieve_all_blocks_on_page str_exn notion root forest Hserves)
    as (out & log & Hrun & Hperm & _ & _).
  exists out, log. split; [exact Hrun|]. split.
  - intros b Hb. pose proof (Permutation_in _ Hperm Hb) as Hin.
    split; [exact Hin|]. intros Heq.
    unfold distinct_ids in Hids. inversion Hids as [|? ? Hnotin _]; subst.
    apply Hnotin. apply in_map_iff. exists b. auto.
  - apply Permutation_length. exact Hperm.
Qed.

Lemma sample_served :
  serves (table_client Samples.sample_table) (VStr "root") Samples.sample_forest.
Proof.
  assert (Hlist : forall id children,
             Notion.table_lookup Samples.sample_table id = children ->
             lists_children (table_client Samples.sample_table) (VStr id) children).
  { intros id children <- log. eexists. eexists.
    split; [reflexivity|]. split; reflexivity. }
  assert (Hwf : forall id flag, well_formed (Samples.block id flag)).
  { intros id flag. eexists. exists (VStr id). split; reflexivity. }
  split; [now apply Hlist|].
  repeat constructor; try apply Hwf; cbn; try reflexivity.
  now apply Hlist.
Qed.

Lemma sample_distinct : distinct_ids (VStr "root") Samples.sample_forest.
Proof.
  unfold distinct_ids. cbn.
  repeat constructor; cbn; intuition discriminate.
Qed.

Example flattener_sample_run :
  retrieve_all_blocks Samples.sample_str (table_client Samples.sample_table) 3
                      (VStr "root") =
  (Some (VList [Samples.block "c1" true; Samples.block "c2" false;
                Samples.block "g1" false; Samples.block "g2" false]),
   [listing (VStr "root"); listing (VStr "c1")]).
Proof. reflexivity. Qed.

Lemma flattener_visits_each_block_once_witness :
  exists fuel out log,
    retrieve_all_blocks Samples.sample_str (table_client Samples.sample_table)
                        fuel (VStr "root") = (Some (VList out), log) /\
    Permutation out (forest_blocks Samples.sample_forest) /\
    NoDup out /\ NoDup log.
Proof.
  destruct (flattener_visits_each_block_once
              Samples.sample_str (table_client Samples.sample_table)
              (VStr "root") Samples.sample_forest sample_served sample_distinct)
    as (out & log & Hrun & Hperm & Hout & _ & Hlog & _).
  exists (S (List.length log)), out, log.
  split; [apply Hrun; lia | auto].
Defined.

Lemma flattener_output_excludes_root_witness :
  exists fuel out log,
    retrieve_all_blocks Samples.sample_str (table_client Samples.sample_table)
                        fuel (VStr "root") = (Some (VList out), log) /\
    (forall b, In b out -> id_of b <> VStr "root") /\
    List.length out = 4.
Proof.
  destruct (flattener_output_excludes_root
              Samples.sample_str (table_client Samples.sample_table)
              (VStr "root") Samples.sample_forest sample_served sample_distinct)
    as (out & log & Hrun & Hin & Hlen).
  exists (S (List.length log)), out, log.
  split; [apply Hrun; lia|]. split; [|exact Hlen].
  intros b Hb. now apply Hin.
Defined.

(** C5.  An iteration that pops an identifier sends exactly one request for
    it, a children listing without a cursor, and no run ever sends anything
    else; a run that returns a list returns the first pages of the requests
    it sent, in the order sent, so a block served only on a later page of
    some node is not in the output. *)
Theorem flattener_fetches_first_pages_only :
  forall (str_exn : exn -> string) (notion : client) (fuel : nat) (root : value),
    let run := retrieve_all_blocks str_exn notion fuel root in
    (forall collected rest id log,
        snd (flatten_body notion (collected, rest ++ [id]) log) =
        log ++ [BlocksChildrenList id None]) /\
    only_first_pages (snd run) /\
    (forall out, fst run = Some (VList out) ->
                 out = first_pages notion [] (snd run)).
Proof.
  intros str_exn notion fuel root run. split; [|split].
  - intros collected rest id log. now rewrite flatten_body_pop.
  - subst run. unfold retrieve_all_blocks.
    pose proof (flatten_loop_log notion fuel ([], [root]) [] (Forall_nil _)) as H.
    destruct (while_loop (flatten_body notion) fuel ([], [root]) [])
      as [[r|] log]; exact H.
  - subst run. unfold retrieve_all_blocks. intros out.
    destruct (while_loop (flatten_body notion) fuel ([], [root]) [])
      as [[[collected|e]|] log] eqn:Hrun; cbn [fst snd try_except bind];
      intros H; [|discriminate|discriminate].
    inversion H; subst.
    apply (flatten_loop_output notion fuel ([], [root]) [] _ _ eq_refl Hrun).
Qed.

Lemma flattener_fetches_first_pages_only_witness :
  retrieve_all_blocks Samples.sample_str Samples.paged_client 5 (VStr "root") =
  (Some (VList [Samples.block "a" false]), [BlocksChildrenList (VStr "root") None]) /\
  first_pages Samples.paged_client [] [BlocksChildrenList (VStr "root") None] =
  [Samples.block "a" false] /\
  first_page Samples.paged_client []
             (BlocksChildrenList (VStr "root") (Some (VStr "p2"))) = [].
Proof.
  destruct (flattener_fetches_first_pages_only
              Samples.sample_str Samples.paged_client 5 (VStr "root"))
    as (_ & _ & Hout).
  split; [reflexivity|]. split; [|reflexivity].
  symmetry. apply Hout. reflexivity.
Defined.

(** C6.  When a children listing raises, it is the last request of the run:
    the traversal stops there and [retrieve_all_blocks] returns [str(e)], a
    plain string where a successful run returns the list; nothing is raised,
    and [get_all_text_on_page] hands that string to the extractor as if it
    were the blocks. *)
Theorem flattener_returns_failure_as_string :
  forall (str_exn : exn -> string) (notion : client) (fuel : nat) (root : value)
         (sent : list notion_call) (call : notion_call)
         (later : list notion_call) (e : exn),
    snd (retrieve_all_blocks str_exn notion fuel root) = sent ++ call :: later ->
    notion sent call = Raise e ->
    later = [] /\
    fst (retrieve_all_blocks str_exn notion fuel root) = Some (VStr (str_exn e)) /\
    get_all_text_on_page str_exn notion fuel root =
    Some (Extractor.extract_text_from_blocks (VStr (str_exn e))).
Proof.
  intros str_exn notion fuel root sent call later e Hlog Hraise.
  assert (Hempty : all_answered notion []).
  { intros l1 c l2 H. destruct l1; discriminate. }
  pose proof (flatten_loop_failure notion fuel ([], [root]) [] Hempty) as Hrun.
  cbn zeta in Hrun. unfold get_all_text_on_page.
  unfold retrieve_all_blocks in *.
  destruct (while_loop (flatten_body notion) fuel ([], [root]) [])
    as [r log] eqn:Hloop.
  cbn [fst snd] in Hrun.
  assert (Hlog' : log = sent ++ call :: later).
  { destruct r; exact Hlog. }
  destruct Hrun as [Hall | (l & c & e' & Hl & Hall & Hc & Hr)].
  - exfalso. destruct (Hall _ _ _ Hlog') as [v Hv]. congruence.
  - subst r. rewrite Hl in Hlog'. apply snoc_split in Hlog'.
    destruct Hlog' as [(-> & -> & ->) | (l2' & _ & ->)].
    + assert (e' = e) by congruence. subst e'.
      cbn [fst snd try_except bind]. auto.
    + exfalso. destruct (Hall sent call l2' eq_refl) as [v Hv]. congruence.
Qed.

(** The extractor reads a failure whose message is empty as a page without
    blocks, and raises on any other message. *)
Example failure_string_reaches_extractor :
  Extractor.extract_text_from_blocks (VStr "") =
  Extractor.extract_text_from_blocks (VList []) /\
  Extractor.extract_text_from_blocks (VStr "rate limited") =
  Raise (AttributeError (VStr "r") "get").
Proof. split; reflexivity. Qed.

Lemma flattener_returns_failure_as_string_witness :
  retrieve_all_blocks Samples.sample_str Samples.failing_client 5 (VStr "root") =
  (Some (VStr "rate limited"),
   [BlocksChildrenList (VStr "root") None; BlocksChildrenList (VStr "c1") None]) /\
  get_all_text_on_page Samples.sample_str Samples.failing_client 5 (VStr "root") =
  Some (Extractor.extract_text_from_blocks (VStr "rate limited")).
Proof.
  destruct (flattener_returns_failure_as_string
              Samples.sample_str Samples.failing_client 5 (VStr "root")
              [BlocksChildrenList (VStr "root") None]
              (BlocksChildrenList (VStr "c1") None) []
              (SdkError "rate limited") eq_refl eq_refl)
    as (_ & Hresult & Htext).
  split; [reflexivity | exact Htext].
Defined.

End FlattenerClaims.

(* ===================================================================== *)
(** ** Further properties of the text extractor                          *)
(* ===================================================================== *)

Module ExtractorMore.
Import Extractor ExtractorFacts.

Lemma extract_block_grows (block : value) (acc out : list value) :
  extract_block block acc = Ok out ->
  exists added, out = acc ++ added /\ List.length added <= 1.
Proof.
  unfold extract_block.
  destruct (py_get block (VStr "type") VNone) as [ty|e]; [|discriminate].
  cbn [bind].
  destruct (py_get block ty (VDict [])) as [data|e]; [|discriminate].
  cbn [bind].
  destruct (in_literals ty text_types).
  - destruct (py_get data (VStr "rich_text") (VList [])) as [te|e]; [|discriminate].
    cbn [bind]. destruct (py_iter te) as [els|e]; [|discriminate].
    cbn [bind]. destruct (comprehension _ els) as [ps|e]; [|discriminate].
    cbn [bind].
    destruct (in_literals ty heading_types);
      (destruct (py_join_empty ps) as [j|e]; [|discriminate]);
      cbn [bind]; intros H; inversion H; eexists;
      (split; [reflexivity | simpl; lia]).
  - destruct (in_literals ty ["child_page"]).
    + destruct (py_get data (VStr "title") (VStr "")) as [t|e]; [|discriminate].
      cbn [bind]. intros H; inversion H. eexists; split; [reflexivity | simpl; lia].
    + intros H; inversion H. exists []. rewrite app_nil_r. split; [reflexivity | simpl; lia].
Qed.

Lemma for_each_extract_length (blocks : list value) :
  forall acc out,
    for_each extract_block blocks acc = Ok out ->
    List.length out <= List.length acc + List.length blocks.
Proof.
  induction blocks as [|b bs IH]; intros acc out H.
  - inversion H; subst. simpl. lia.
  - cbn [for_each] in H.
    destruct (extract_block b acc) as [acc'|e] eqn:Hb; [|discriminate].
    cbn [bind] in H. apply IH in H.
    apply extract_block_grows in Hb. destruct Hb as (added & -> & Hlen).
    rewrite length_app in H. simpl. lia.
Qed.

(** X1.  The extractor returns at most one entry per block of a list: a
    run that succeeds never yields more strings than it was given blocks. *)
Theorem extract_yields_at_most_one_entry_per_block :
  forall (blocks out : list value),
    extract_text_from_blocks (VList blocks) = Ok out ->
    List.length out <= List.length blocks.
Proof.
  intros blocks out H. unfold extract_text_from_blocks in H. cbn [py_iter bind] in H.
  apply for_each_extract_length in H. simpl in H. exact H.
Qed.

Lemma extract_yields_at_most_one_entry_per_block_witness :
  extract_text_from_blocks (VList Samples.demo_blocks) =
  Ok [VStr "**Hello World**"; VStr "ab"; VStr ""; VStr "ab"] /\
  4 <= List.length Samples.demo_blocks.
Proof.
  split; [reflexivity|].
  apply (extract_yields_at_most_one_entry_per_block
           Samples.demo_blocks
           [VStr "**Hello World**"; VStr "ab"; VStr ""; VStr "ab"]).
  reflexivity.
Defined.

(** X2.  A block that is not a dict aborts the extraction: when the blocks
    before it extract, the whole call raises the attribute error of that
    block, whatever follows it, and no partial output is returned. *)
Theorem extract_aborts_on_a_block_that_is_no_dict :
  forall (good rest out : list value) (bad : value),
    extract_text_from_blocks (VList good) = Ok out ->
    (forall d, bad <> VDict d) ->
    extract_text_from_blocks (VList (good ++ bad :: rest)) =
    Raise (AttributeError bad "get").
Proof.
  intros good rest out bad Hgood Hbad.
  rewrite extract_text_from_blocks_app, Hgood. cbn [bind].
  unfold extract_text_from_blocks. cbn [py_iter bind for_each].
  unfold extract_block.
  destruct bad as [| | | | |d]; try reflexivity.
  exfalso. now apply (Hbad d).
Qed.

Lemma extract_aborts_on_a_block_that_is_no_dict_witness :
  extract_text_from_blocks
    (VList (Samples.demo_blocks ++ VStr "stray" :: Samples.demo_blocks)) =
  Raise (AttributeError (VStr "stray") "get").
Proof.
  apply (extract_aborts_on_a_block_that_is_no_dict
           Samples.demo_blocks Samples.demo_blocks
           [VStr "**Hello World**"; VStr "ab"; VStr ""; VStr "ab"]
           (VStr "stray")).
  - reflexivity.
  - intros d H. discriminate.
Defined.

(** X25.  On every input, well formed or not, extracting a concatenation
    is extracting the parts one after the other: the entries of the first
    part come first, an error in the first part is the error of the whole,
    and nothing a later block holds changes what an earlier one yields. *)
Theorem extract_distributes_over_concatenation :
  forall (xs ys : list value),
    extract_text_from_blocks (VList (xs ++ ys)) =
    (a <- extract_text_from_blocks (VList xs) ;;
     b <- extract_text_from_blocks (VList ys) ;;
     Ok (a ++ b)).
Proof. exact extract_text_from_blocks_app. Qed.

(** What the extractor does with a string in place of the block list: the
    empty string reads as no blocks, any other string raises on its first
    character. *)
Lemma extract_of_string (s : string) :
  extract_text_from_blocks (VStr s) =
  match s with
  | EmptyString => Ok []
  | String c _ => Raise (AttributeError (VStr (String c EmptyString)) "get")
  end.
Proof. destruct s as [|c s]; reflexivity. Qed.

End ExtractorMore.

(* ===================================================================== *)
(** ** Further properties of the block tree flattener                    *)
(* ===================================================================== *)

Module FlattenerMore.
Import Notion FlattenerFacts PageText.

Section Client.
Variable str_exn : exn -> string.
Variable notion : client.

(** A block whose flag is set and that carries no identifier stops the scan
    of its siblings with a key error. *)
Lemma for_each_scan_missing_id (before_ after_ : list value) (bad : value)
      (d : dict) (c s : list value) :
  Forall well_formed before_ ->
  bad = VDict d -> flag_of bad = true -> dict_get d "id" = None ->
  for_each scan_block (before_ ++ bad :: after_) (c, s) = Raise (KeyError "id").
Proof.
  intros Hwf -> Hflag Hid. rewrite for_each_app.
  rewrite (for_each_scan_well_formed _ Hwf). cbn [bind for_each].
  unfold scan_block. cbn [py_get bind]. cbn [flag_of] in Hflag. rewrite Hflag.
  cbn [py_getitem]. rewrite Hid. reflexivity.
Qed.

(** The log of the loop only grows at its end. *)
Lemma flatten_loop_extends (fuel : nat) :
  forall st log,
    exists ext, snd (while_loop (flatten_body notion) fuel st log) = log ++ ext.
Proof.
  induction fuel as [|fuel IH]; intros [c s] log.
  - exists []. cbn. now rewrite app_nil_r.
  - rewrite while_loop_step.
    destruct (snoc_cases s) as [-> | (rest & id & ->)].
    + rewrite flatten_body_empty. exists []. cbn. now rewrite app_nil_r.
    + rewrite flatten_body_pop.
      destruct (response <- notion log (listing id) ;;
                block_children <- py_get response (VStr "results") (VList []) ;;
                children <- py_iter block_children ;;
                st' <- for_each scan_block children (c, rest) ;;
                Ok (inl st')) as [[st'|out]|e].
      * destruct (IH st' (log ++ [listing id])) as [ext Hext].
        exists (listing id :: ext). rewrite Hext, <- app_assoc. reflexivity.
      * exists [listing id]. reflexivity.
      * exists [listing id]. reflexivity.
Qed.

(** With a provider that always schedules, a non-empty work list never
    empties. *)
Lemma flatten_loop_runs_on :
  always_schedules notion ->
  forall fuel c s log,
    s <> [] ->
    exists log',
      while_loop (flatten_body notion) fuel (c, s) log = (None, log') /\
      List.length log' = List.length log + fuel.
Proof.
  intros Halways. induction fuel as [|fuel IH]; intros c s log Hs.
  - exists log. split; [reflexivity | lia].
  - destruct (snoc_cases s) as [-> | (rest & id & ->)]; [contradiction|].
    destruct (Halways log id) as (response & page & children & Hr & Hp & Hi & Hwf & Hsch).
    destruct (IH (c ++ children) (rest ++ scheduled children) (log ++ [listing id]))
      as [log' [Hrun Hlen]].
    { intros H. apply app_eq_nil in H. destruct H as [_ H]. contradiction. }
    exists log'. rewrite while_loop_step, flatten_body_pop.
    unfold listing at 1. rewrite Hr. cbn [bind]. rewrite Hp. cbn [bind].
    rewrite Hi. cbn [bind]. rewrite (for_each_scan_well_formed _ Hwf). cbn [bind].
    rewrite Hrun. split; [reflexivity|]. rewrite Hlen, length_app. simpl. lia.
Qed.

(** The run against any provider: when a listing raised, it was the last
    request and the run returned the string of its exception. *)
Lemma retrieve_all_blocks_failure (fuel : nat) (root : value)
      (sent later : list notion_call) (call : notion_call) (e : exn) :
  snd (retrieve_all_blocks str_exn notion fuel root) = sent ++ call :: later ->
  notion sent call = Raise e ->
  retrieve_all_blocks str_exn notion fuel root =
  (Some (VStr (str_exn e)), sent ++ [call]).
Proof.
  intros Hlog Hraise.
  assert (Hempty : all_answered notion []).
  { intros l1 c l2 H. destruct l1; discriminate. }
  pose proof (flatten_loop_failure notion fuel ([], [root]) [] Hempty) as Hrun.
  cbn zeta in Hrun. unfold retrieve_all_blocks in *.
  destruct (while_loop (flatten_body notion) fuel ([], [root]) [])
    as [r log] eqn:Hloop.
  cbn [fst snd] in Hrun.
  assert (Hlog' : log = sent ++ call :: later).
  { destruct r; exact Hlog. }
  destruct Hrun as [Hall | (l & c & e' & Hl & Hall & Hc & Hr)].
  - exfalso. destruct (Hall _ _ _ Hlog') as [v Hv]. congruence.
  - subst r. rewrite Hl in Hlog'. pose proof Hlog' as Hsplit.
    apply snoc_split in Hsplit.
    destruct Hsplit as [(-> & -> & ->) | (l2' & _ & ->)].
    + assert (e' = e) by congruence. subst e'. subst log. reflexivity.
    + exfalso. destruct (Hall sent call l2' eq_refl) as [v Hv]. congruence.
Qed.

End Client.

(** X3.  A child whose "has children" flag is set and that carries no
    identifier makes the whole traversal return the string of the key error
    for "id": the siblings collected before it are not returned, and
    nothing is requested after the listing that held it. *)
Theorem flagged_block_without_id_aborts_traversal :
  forall (str_exn : exn -> string) (notion : client) (root response page : value)
         (before_ after_ : list value) (bad : value) (d : dict) (fuel : nat),
    notion [] (listing root) = Ok response ->
    py_get response (VStr "results") (VList []) = Ok page ->
    py_iter page = Ok (before_ ++ bad :: after_) ->
    Forall well_formed before_ ->
    bad = VDict d -> flag_of bad = true -> dict_get d "id" = None ->
    retrieve_all_blocks str_exn notion (S fuel) root =
    (Some (VStr (str_exn (KeyError "id"))), [listing root]).
Proof.
  intros str_exn notion root response page before_ after_ bad d fuel
         Hr Hp Hi Hwf Hbad Hflag Hid.
  unfold retrieve_all_blocks. rewrite while_loop_step.
  change [root] with ([] ++ [root]). rewrite flatten_body_pop.
  rewrite Hr. cbn [bind]. rewrite Hp. cbn [bind]. rewrite Hi. cbn [bind].
  rewrite (for_each_scan_missing_id before_ after_ bad d [] [] Hwf Hbad Hflag Hid).
  reflexivity.
Qed.

Lemma flagged_block_without_id_aborts_traversal_witness :
  retrieve_all_blocks Samples.sample_str MoreSamples.anonymous_client 7 (VStr "root") =
  (Some (VStr "error"), [listing (VStr "root")]).
Proof.
  apply (flagged_block_without_id_aborts_traversal
           Samples.sample_str MoreSamples.anonymous_client (VStr "root")
           (VDict [("results", VList [Samples.block "c1" false;
                                      MoreSamples.anonymous_child])])
           (VList [Samples.block "c1" false; MoreSamples.anonymous_child])
           [Samples.block "c1" false] [] MoreSamples.anonymous_child
           [("has_children", VBool true); ("type", VStr "paragraph")] 6);
    try reflexivity.
  repeat constructor. eexists. exists (VStr "c1"). split; reflexivity.
Defined.

(** X4.  The flattener keeps no record of what it has expanded and bounds
    neither depth nor count: against a provider whose every listing holds a
    block to expand (a block that lists itself, say), it is still in its
    loop after any number of iterations, one request sent in each. *)
Theorem flattener_never_returns_on_endless_listings :
  forall (str_exn : exn -> string) (notion : client) (root : value),
    always_schedules notion ->
    forall fuel, exists log,
      retrieve_all_blocks str_exn notion fuel root = (None, log) /\
      List.length log = fuel.
Proof.
  intros str_exn notion root Halways fuel.
  destruct (flatten_loop_runs_on notion Halways fuel [] [root] [])
    as [log [Hrun Hlen]]; [discriminate|].
  exists log. unfold retrieve_all_blocks. rewrite Hrun. auto.
Qed.

Lemma flattener_never_returns_on_endless_listings_witness :
  exists log,
    retrieve_all_blocks Samples.sample_str MoreSamples.cyclic_client 500 (VStr "root")
    = (None, log) /\ List.length log = 500.
Proof.
  apply (flattener_never_returns_on_endless_listings
           Samples.sample_str MoreSamples.cyclic_client (VStr "root")).
  intros log id. eexists. eexists. eexists.
  split; [reflexivity|]. split; [reflexivity|]. split; [reflexivity|].
  split; [|discriminate].
  repeat constructor. eexists. exists (VStr "loop"). split; reflexivity.
Defined.

(** X5.  Whatever the provider, a run that returns a list has listed the
    root first, and its output starts with the blocks of that first listing
    in the provider's order, followed by the first pages of the later
    requests. *)
Theorem flattener_output_starts_with_root_children :
  forall (str_exn : exn -> string) (notion : client) (fuel : nat)
         (root : value) (out : list value),
    fst (retrieve_all_blocks str_exn notion fuel root) = Some (VList out) ->
    exists later,
      snd (retrieve_all_blocks str_exn notion fuel root) = listing root :: later /\
      out = first_page notion [] (listing root) ++
            first_pages notion [listing root] later.
Proof.
  intros str_exn notion fuel root out Hout.
  assert (Hlog : exists later,
             snd (retrieve_all_blocks str_exn notion fuel root) = listing root :: later).
  { unfold retrieve_all_blocks in *. destruct fuel as [|fuel]; [discriminate|].
    rewrite while_loop_step in *. change [root] with ([] ++ [root]) in *.
    rewrite flatten_body_pop in *.
    destruct (response <- notion [] (listing root) ;;
              block_children <- py_get response (VStr "results") (VList []) ;;
              children <- py_iter block_children ;;
              st' <- for_each scan_block children ([], []) ;;
              Ok (inl st')) as [[st'|o]|e].
    - destruct (flatten_loop_extends notion fuel st' ([] ++ [listing root]))
        as [ext Hext].
      exists ext.
      destruct (while_loop (flatten_body notion) fuel st' ([] ++ [listing root]))
        as [[r|] l]; exact Hext.
    - exists []. reflexivity.
    - exists []. reflexivity. }
  destruct Hlog as [later Hlater]. exists later. split; [exact Hlater|].
  unfold retrieve_all_blocks in *.
  destruct (while_loop (flatten_body notion) fuel ([], [root]) [])
    as [[[collected|e]|] log] eqn:Hrun; cbn [fst snd try_except bind] in *;
    try discriminate.
  inversion Hout; subst.
  rewrite (flatten_loop_output notion fuel ([], [root]) [] _ _ eq_refl Hrun).
  reflexivity.
Qed.

Lemma flattener_output_starts_with_root_children_witness :
  exists later,
    snd (retrieve_all_blocks Samples.sample_str
                             (table_client Samples.sample_table) 3 (VStr "root"))
    = listing (VStr "root") :: later /\
    [Samples.block "c1" true; Samples.block "c2" false;
     Samples.block "g1" false; Samples.block "g2" false] =
    first_page (table_client Samples.sample_table) [] (listing (VStr "root")) ++
    first_pages (table_client Samples.sample_table) [listing (VStr "root")] later.
Proof.
  apply (flattener_output_starts_with_root_children
           Samples.sample_str (table_client Samples.sample_table) 3 (VStr "root")).
  reflexivity.
Defined.

End FlattenerMore.

(* ===================================================================== *)
(** ** The page text route                                               *)
(* ===================================================================== *)

Module PageTextFacts.
Import Notion Extractor ExtractorFacts FlattenerFacts PageText.

Lemma represented_blocks (blocks : list value) :
  Forall (fun b => exists cb, represents cb b) blocks ->
  exists cbs, Forall2 represents cbs blocks.
Proof.
  induction 1 as [|b bs [cb Hcb] _ [cbs IH]].
  - exists []. constructor.
  - exists (cb :: cbs). now constructor.
Qed.

Lemma route_with_page_id (str_exn : exn -> string) (notion : client)
      (fuel : nat) (args : list (string * string)) (pid : string) :
  args_get args "page_id" VNone = VStr pid -> pid <> "" ->
  get_text_from_notion_page str_exn notion fuel args =
  (match fst (retrieve_all_blocks str_exn notion fuel (VStr pid)) with
   | None => None
   | Some blocks =>
       Some (try_except
               (content <- extract_text_from_blocks blocks ;;
                Ok (Jsonify (VDict [("page_id", VStr pid);
                                    ("content", VList content)]) 200))
               (fun e => Jsonify (VDict [("error", VStr (str_exn e))]) 500))
   end,
   snd (retrieve_all_blocks str_exn notion fuel (VStr pid))).
Proof.
  intros Hid Hne. unfold get_text_from_notion_page, get_all_text_on_page.
  rewrite Hid. cbn [truthy]. apply String.eqb_neq in Hne. rewrite Hne. cbn [negb].
  destruct (fst (retrieve_all_blocks str_exn notion fuel (VStr pid))); reflexivity.
Qed.

(** X6.  When a children listing raises, the route does not report that
    failure: the flattener's error string goes to the extractor as if it
    were the block list, so an empty message is answered with status 200
    and no content, and any other message with status 500 carrying the
    attribute error of the message's first character. *)
Theorem page_text_route_loses_the_upstream_error :
  forall (str_exn : exn -> string) (notion : client) (fuel : nat)
         (args : list (string * string)) (pid : string)
         (sent : list notion_call) (call : notion_call)
         (later : list notion_call) (e : exn),
    args_get args "page_id" VNone = VStr pid -> pid <> "" ->
    snd (get_text_from_notion_page str_exn notion fuel args) = sent ++ call :: later ->
    notion sent call = Raise e ->
    get_text_from_notion_page str_exn notion fuel args =
    (Some (match str_exn e with
           | EmptyString =>
               Jsonify (VDict [("page_id", VStr pid); ("content", VList [])]) 200
           | String c _ =>
               Jsonify (VDict [("error",
                                VStr (str_exn (AttributeError
                                                 (VStr (String c EmptyString)) "get")))])
                       500
           end),
     sent ++ [call]).
Proof.
  intros str_exn notion fuel args pid sent call later e Hid Hne Hlog Hraise.
  rewrite (route_with_page_id _ _ _ _ _ Hid Hne) in *. cbn [snd] in Hlog.
  rewrite (FlattenerMore.retrieve_all_blocks_failure
             str_exn notion fuel (VStr pid) sent later call e Hlog Hraise).
  cbn [fst snd]. rewrite ExtractorMore.extract_of_string.
  destruct (str_exn e); reflexivity.
Qed.

Lemma page_text_route_loses_the_upstream_error_witness :
  get_text_from_notion_page Samples.sample_str Samples.failing_client 5
                            [("page_id", "root")] =
  (Some (Jsonify (VDict [("error", VStr "error")]) 500),
   [BlocksChildrenList (VStr "root") None; BlocksChildrenList (VStr "c1") None]).
Proof.
  apply (page_text_route_loses_the_upstream_error
           Samples.sample_str Samples.failing_client 5 [("page_id", "root")] "root"
           [BlocksChildrenList (VStr "root") None]
           (BlocksChildrenList (VStr "c1") None) []
           (SdkError "rate limited")).
  - reflexivity.
  - discriminate.
  - reflexivity.
  - reflexivity.
Defined.

(** X7.  For a page the provider serves as a tree whose blocks all
    represent content blocks, the route answers 200 with the page
    identifier and, as content, the texts of the collected blocks in
    collection order; the collected blocks are the blocks below the root,
    each once. *)
Theorem page_text_route_returns_the_text_of_every_block :
  forall (str_exn : exn -> string) (notion : client)
         (args : list (string * string)) (pid : string) (forest : list tree),
    args_get args "page_id" VNone = VStr pid -> pid <> "" ->
    serves notion (VStr pid) forest ->
    Forall (fun b => exists cb, represents cb b) (forest_blocks forest) ->
    exists collected cbs log,
      Permutation collected (forest_blocks forest) /\
      Forall2 represents cbs collected /\
      forall fuel, List.length log < fuel ->
        get_text_from_notion_page str_exn notion fuel args =
        (Some (Jsonify (VDict [("page_id", VStr pid);
                               ("content", VList (map VStr (spec_extract cbs)))])
                       200),
         log).
Proof.
  intros str_exn notion args pid forest Hid Hne Hserves Hrep.
  destruct (retrieve_all_blocks_on_page str_exn notion (VStr pid) forest Hserves)
    as (out & log & Hrun & Hperm & _ & _).
  assert (Hout : Forall (fun b => exists cb, represents cb b) out).
  { rewrite Forall_forall in *. intros b Hb. apply Hrep.
    apply (Permutation_in _ Hperm Hb). }
  destruct (represented_blocks _ Hout) as [cbs Hcbs].
  exists out, cbs, log. split; [exact Hperm|]. split; [exact Hcbs|].
  intros fuel Hfuel. rewrite (route_with_page_id _ _ _ _ _ Hid Hne).
  rewrite (Hrun fuel Hfuel). cbn [fst snd].
  unfold extract_text_from_blocks. cbn [py_iter bind].
  rewrite (for_each_represents cbs out [] Hcbs). reflexivity.
Qed.

Lemma sample_block_represented (id : string) (flag : bool) :
  exists cb, represents cb (Samples.block id flag).
Proof.
  exists {| kind := TextBearing "paragraph"; span_texts := [id]; title := None |}.
  eexists. split; [reflexivity|]. cbn.
  split; [reflexivity|]. split; [auto|]. split.
  - intros [H|[H|[H|[]]]]; discriminate.
  - eexists. eexists. split; [reflexivity|]. split; [reflexivity|].
    repeat constructor. eexists. split; reflexivity.
Qed.

Lemma page_text_route_returns_the_text_of_every_block_witness :
  exists collected cbs log,
    Permutation collected (forest_blocks Samples.sample_forest) /\
    get_text_from_notion_page Samples.sample_str (table_client Samples.sample_table)
                              (S (List.length log)) [("page_id", "root")] =
    (Some (Jsonify (VDict [("page_id", VStr "root");
                           ("content", VList (map VStr (spec_extract cbs)))])
                   200),
     log).
Proof.
  destruct (page_text_route_returns_the_text_of_every_block
              Samples.sample_str (table_client Samples.sample_table)
              [("page_id", "root")] "root" Samples.sample_forest)
    as (collected & cbs & log & Hperm & _ & Hrun).
  - reflexivity.
  - discriminate.
  - exact FlattenerClaims.sample_served.
  - cbn. repeat constructor; apply sample_block_represented.
  - exists collected, cbs, log. split; [exact Hperm|]. apply Hrun. lia.
Defined.

Example page_text_route_sample :
  get_text_from_notion_page Samples.sample_str (table_client Samples.sample_table)
                            3 [("page_id", "root")] =
  (Some (Jsonify (VDict [("page_id", VStr "root");
                         ("content", VList [VStr "c1"; VStr "c2"; VStr "g1"; VStr "g2"])])
                 200),
   [listing (VStr "root"); listing (VStr "c1")]).
Proof. reflexivity. Qed.

End PageTextFacts.

(* ===================================================================== *)
(** ** Further properties of the pagination loops                        *)
(* ===================================================================== *)

Module PaginationMore.
Import Calendar Notion Pagination PaginationFacts FlattenerFacts Logs.

Lemma two_at_end {A} (l l1 l2 : list A) (x c1 c2 : A) :
  l ++ [x] = l1 ++ c1 :: c2 :: l2 ->
  (l2 = [] /\ c2 = x /\ l = l1 ++ [c1]) \/
  (exists l2', l2 = l2' ++ [x] /\ l = l1 ++ c1 :: c2 :: l2').
Proof.
  intros H. apply snoc_split in H.
  destruct H as [(H & _) | (l2' & H & ->)]; [discriminate|].
  destruct l2' as [|y l2']; cbn [app] in H.
  - inversion H; subst. left. auto.
  - inversion H; subst. right. exists l2'. auto.
Qed.

Lemma answered_nil {Call} (provider : list Call -> Call -> result value) :
  answered provider [].
Proof. intros l1 c l2 H. destruct l1; discriminate. Qed.

Lemma answered_snoc {Call} (provider : list Call -> Call -> result value)
      (log : list Call) (call : Call) (r : value) :
  answered provider log -> provider log call = Ok r ->
  answered provider (log ++ [call]).
Proof.
  intros Hlog Hcall l1 c l2 Hsplit. apply snoc_split in Hsplit.
  destruct Hsplit as [(_ & -> & ->) | (l2' & _ & ->)]; [eauto|].
  eapply Hlog. reflexivity.
Qed.

(** A loop whose every iteration sends one request, raises what the
    provider raises and goes on only with the cursor of an answer that tests
    true: the shape shared by the two pagination loops. *)
Section Paginated.
Context {Call : Type}.
Variable provider : list Call -> Call -> result value.
Variable request_for : value -> Call.
Variable more_key cursor_key : string.
Variable body : list value * value -> list Call ->
                result (list value * value + list value) * list Call.

Hypothesis body_log :
  forall items cursor log,
    snd (body (items, cursor) log) = log ++ [request_for cursor].
Hypothesis body_raise :
  forall items cursor log e,
    provider log (request_for cursor) = Raise e ->
    fst (body (items, cursor) log) = Raise e.
Hypothesis body_continue :
  forall items cursor log items' cursor',
    fst (body (items, cursor) log) = Ok (inl (items', cursor')) ->
    exists page more,
      provider log (request_for cursor) = Ok page /\
      py_get page (VStr more_key) VNone = Ok more /\ truthy more = true /\
      py_get page (VStr cursor_key) VNone = Ok cursor'.

Lemma paginated_log (fuel : nat) :
  forall items cursor log,
    holds_cursor provider more_key cursor_key cursor log ->
    cursor_chain provider request_for more_key cursor_key log ->
    starts_without_cursor request_for log ->
    let final := snd (while_loop body fuel (items, cursor) log) in
    cursor_chain provider request_for more_key cursor_key final /\
    starts_without_cursor request_for final.
Proof.
  induction fuel as [|fuel IH]; intros items cursor log Hcur Hchain Hstart; cbn zeta.
  - auto.
  - rewrite while_loop_step.
    pose proof (body_log items cursor log) as Hlog.
    assert (Hchain' : cursor_chain provider request_for more_key cursor_key
                                   (log ++ [request_for cursor])).
    { intros l1 c1 c2 l2 Hsplit. apply two_at_end in Hsplit.
      destruct Hsplit as [(-> & -> & ->) | (l2' & -> & ->)].
      - destruct Hcur as [[Hnil _] | (l1' & c1' & page & more & Heq & Hp & Hm & Ht & Hc)].
        + destruct l1; discriminate.
        + apply app_inj_tail in Heq. destruct Heq as [-> ->].
          exists page, more, cursor. auto.
      - eapply Hchain. reflexivity. }
    assert (Hstart' : starts_without_cursor request_for (log ++ [request_for cursor])).
    { destruct Hstart as [-> | [later ->]].
      - destruct Hcur as [[_ ->] | (l1' & c1' & ? & ? & Heq & _)].
        + right. exists []. reflexivity.
        + destruct l1'; discriminate.
      - right. exists (later ++ [request_for cursor]). reflexivity. }
    destruct (body (items, cursor) log) as [[[[items' cursor']|out]|e] log'] eqn:Hbody;
      cbn [snd] in Hlog; subst log'; cbn [snd]; auto.
    apply IH; auto.
    right. destruct (body_continue items cursor log items' cursor')
      as (page & more & Hp & Hm & Ht & Hc).
    { rewrite Hbody. reflexivity. }
    exists log, (request_for cursor), page, more. auto.
Qed.

Lemma paginated_failure (fuel : nat) :
  forall items cursor log,
    answered provider log ->
    let run := while_loop body fuel (items, cursor) log in
    answered provider (snd run) \/
    exists l call e,
      snd run = l ++ [call] /\ answered provider l /\
      provider l call = Raise e /\ fst run = Some (Raise e).
Proof.
  induction fuel as [|fuel IH]; intros items cursor log Hlog; cbn zeta.
  - left. exact Hlog.
  - rewrite while_loop_step.
    pose proof (body_log items cursor log) as Hl.
    destruct (provider log (request_for cursor)) as [page|e] eqn:Hcall.
    + pose proof (answered_snoc _ _ _ _ Hlog Hcall) as Hlog'.
      destruct (body (items, cursor) log) as [[[[items' cursor']|out]|e] log'];
        cbn [snd] in Hl; subst log'; cbn [fst snd]; auto.
    + pose proof (body_raise items cursor log e Hcall) as Hr.
      destruct (body (items, cursor) log) as [r log']. cbn [fst snd] in *. subst.
      right. exists log, (request_for cursor), e. auto.
Qed.

End Paginated.

Lemma chain_fixes_requests {Call} (provider : list Call -> Call -> result value)
      (request_for : value -> Call) (more_key cursor_key : string) (log : list Call) :
  cursor_chain provider request_for more_key cursor_key log ->
  starts_without_cursor request_for log ->
  Forall (fun call => exists cursor, call = request_for cursor) log.
Proof.
  intros Hchain Hstart. apply Forall_forall. intros c Hin.
  apply in_split in Hin. destruct Hin as (l1 & l2 & Hlog).
  destruct (snoc_cases l1) as [-> | (l1' & c0 & ->)].
  - destruct Hstart as [-> | [later ->]]; [discriminate|].
    inversion Hlog; subst. now exists VNone.
  - rewrite <- app_assoc in Hlog. cbn [app] in Hlog.
    destruct (Hchain _ _ _ _ Hlog) as (page & more & cursor & _ & _ & _ & _ & ->).
    now exists cursor.
Qed.

Section CalendarLoop.
Variable svc : service.
Variables cid tmin tmax : value.

Lemma read_events_body_log (items : list value) (cursor : value)
      (log : list calendar_call) :
  snd (read_events_body svc cid tmin tmax (items, cursor) log) =
  log ++ [list_request cid tmin tmax cursor].
Proof. reflexivity. Qed.

Lemma read_events_body_raise (items : list value) (cursor : value)
      (log : list calendar_call) (e : exn) :
  svc log (list_request cid tmin tmax cursor) = Raise e ->
  fst (read_events_body svc cid tmin tmax (items, cursor) log) = Raise e.
Proof.
  intros H. unfold read_events_body, list_request in *. cbn [fst]. now rewrite H.
Qed.

Lemma read_events_body_continue (items : list value) (cursor : value)
      (log : list calendar_call) (items' : list value) (cursor' : value) :
  fst (read_events_body svc cid tmin tmax (items, cursor) log) =
  Ok (inl (items', cursor')) ->
  exists page more,
    svc log (list_request cid tmin tmax cursor) = Ok page /\
    py_get page (VStr "nextPageToken") VNone = Ok more /\ truthy more = true /\
    py_get page (VStr "nextPageToken") VNone = Ok cursor'.
Proof.
  unfold read_events_body, list_request. cbn [fst].
  destruct (svc log _) as [page|e] eqn:Hsvc; [|discriminate]. cbn [bind].
  destruct (py_get page (VStr "items") (VList [])) as [its|e]; [|discriminate].
  cbn [bind]. destruct (py_iter its) as [new|e]; [|discriminate]. cbn [bind].
  destruct (py_get page (VStr "nextPageToken") VNone) as [tok|e] eqn:Htok;
    [|discriminate].
  cbn [bind]. destruct (truthy tok) eqn:Ht; cbn [negb]; [|discriminate].
  intros H. inversion H; subst. exists page, cursor'. auto.
Qed.

End CalendarLoop.

Section QueryLoop.
Variable notion : client.
Variables dbid filter sorts size : value.

Lemma query_body_log (items : list value) (cursor : value) (log : list notion_call) :
  snd (query_body notion dbid filter sorts size (items, cursor) log) =
  log ++ [DatabasesQuery dbid filter sorts cursor size].
Proof. reflexivity. Qed.

Lemma query_body_raise (items : list value) (cursor : value)
      (log : list notion_call) (e : exn) :
  notion log (DatabasesQuery dbid filter sorts cursor size) = Raise e ->
  fst (query_body notion dbid filter sorts size (items, cursor) log) = Raise e.
Proof. intros H. unfold query_body. cbn [fst]. now rewrite H. Qed.

Lemma query_body_continue (items : list value) (cursor : value)
      (log : list notion_call) (items' : list value) (cursor' : value) :
  fst (query_body notion dbid filter sorts size (items, cursor) log) =
  Ok (inl (items', cursor')) ->
  exists page more,
    notion log (DatabasesQuery dbid filter sorts cursor size) = Ok page /\
    py_get page (VStr "has_more") VNone = Ok more /\ truthy more = true /\
    py_get page (VStr "next_cursor") VNone = Ok cursor'.
Proof.
  unfold query_body. cbn [fst].
  destruct (notion log _) as [page|e] eqn:Hn; [|discriminate]. cbn [bind].
  destruct (py_get page (VStr "results") (VList [])) as [its|e]; [|discriminate].
  cbn [bind]. destruct (py_iter its) as [new|e]; [|discriminate]. cbn [bind].
  destruct (py_get page (VStr "has_more") VNone) as [more|e] eqn:Hmore;
    [|discriminate].
  cbn [bind].
  destruct (py_get page (VStr "next_cursor") VNone) as [cur|e] eqn:Hcur;
    [|discriminate].
  cbn [bind]. destruct (truthy more) eqn:Ht; cbn [negb]; [|discriminate].
  intros H. inversion H; subst. exists page, more. auto.
Qed.

End QueryLoop.

(** X8.  Every run of [read_events] asks for its first page without a page
    token and for each later page with exactly the token the answer before
    it held; calendar, time window, ordering and page size are the same in
    every request. *)
Theorem read_events_follows_the_page_tokens :
  forall (str_exn : exn -> string) (svc : service) (fuel : nat)
         (now : string) (args : list (string * string)),
    let log := snd (read_events str_exn (Ok svc) fuel now args) in
    starts_without_cursor (list_request_of_args now args) log /\
    cursor_chain svc (list_request_of_args now args)
                 "nextPageToken" "nextPageToken" log /\
    Forall (fun call => exists page_token,
                call = EventsList (args_get args "calendar_id" (VStr "primary"))
                                  (args_get args "time_min" (VStr (now ++ "Z")))
                                  (args_get args "time_max" VNone)
                                  true "startTime" page_token 2500) log.
Proof.
  intros str_exn svc fuel now args. cbn zeta.
  set (cid := args_get args "calendar_id" (VStr "primary")).
  set (tmin := args_get args "time_min" (VStr (now ++ "Z"))).
  set (tmax := args_get args "time_max" VNone).
  destruct (paginated_log svc (list_request cid tmin tmax)
              "nextPageToken" "nextPageToken"
              (read_events_body svc cid tmin tmax)
              (read_events_body_log svc cid tmin tmax)
              (read_events_body_continue svc cid tmin tmax)
              fuel [] VNone [])
    as [Hchain Hstart].
  { left. auto. }
  { intros l1 c1 c2 l2 H. destruct l1; discriminate. }
  { left. reflexivity. }
  assert (Hlog : snd (read_events str_exn (Ok svc) fuel now args) =
                 snd (while_loop (read_events_body svc cid tmin tmax) fuel ([], VNone) [])).
  { unfold read_events. fold cid tmin tmax.
    destruct (while_loop (read_events_body svc cid tmin tmax) fuel ([], VNone) [])
      as [[[events|e]|] log]; reflexivity. }
  rewrite Hlog. split; [exact Hstart|]. split; [exact Hchain|].
  exact (chain_fixes_requests _ _ _ _ _ Hchain Hstart).
Qed.

(** X9.  When a listing request of [read_events] raises, it is the last
    request of the run and the answer is [abort(500)] with the string of the
    exception: the events of the pages collected before are not returned. *)
Theorem read_events_discards_pages_on_failure :
  forall (str_exn : exn -> string) (svc : service) (fuel : nat)
         (now : string) (args : list (string * string))
         (sent : list calendar_call) (call : calendar_call)
         (later : list calendar_call) (e : exn),
    snd (read_events str_exn (Ok svc) fuel now args) = sent ++ call :: later ->
    svc sent call = Raise e ->
    read_events str_exn (Ok svc) fuel now args =
    (Some (Abort 500 (str_exn e)), sent ++ [call]).
Proof.
  intros str_exn svc fuel now args sent call later e Hlog Hraise.
  unfold read_events in *.
  set (cid := args_get args "calendar_id" (VStr "primary")) in *.
  set (tmin := args_get args "time_min" (VStr (now ++ "Z"))) in *.
  set (tmax := args_get args "time_max" VNone) in *.
  pose proof (paginated_failure svc (list_request cid tmin tmax)
                (read_events_body svc cid tmin tmax)
                (read_events_body_log svc cid tmin tmax)
                (read_events_body_raise svc cid tmin tmax)
                fuel [] VNone [] (answered_nil svc)) as Hrun.
  cbn zeta in Hrun.
  destruct (while_loop (read_events_body svc cid tmin tmax) fuel ([], VNone) [])
    as [r log] eqn:Hloop.
  cbn [fst snd] in Hrun.
  assert (Hlog' : log = sent ++ call :: later).
  { destruct r as [[events|e0]|]; exact Hlog. }
  destruct Hrun as [Hall | (l & c & e' & Hl & Hall & Hc & Hr)].
  - exfalso. destruct (Hall _ _ _ Hlog') as [v Hv]. congruence.
  - subst r. rewrite Hl in Hlog'. pose proof Hlog' as Hsplit.
    apply snoc_split in Hsplit.
    destruct Hsplit as [(-> & -> & ->) | (l2' & -> & ->)].
    + assert (e' = e) by congruence. subst. reflexivity.
    + exfalso. destruct (Hall sent call l2' eq_refl) as [v Hv]. congruence.
Qed.

Lemma read_events_discards_pages_on_failure_witness :
  read_events Samples.sample_str (Ok PagingSamples.flaky_calendar) 9 "now" [] =
  (Some (Abort 500 "quota exceeded"),
   [list_request_of_args "now" [] VNone; list_request_of_args "now" [] (VStr "t1")]).
Proof.
  apply (read_events_discards_pages_on_failure
           Samples.sample_str PagingSamples.flaky_calendar 9 "now" []
           [list_request_of_args "now" [] VNone]
           (list_request_of_args "now" [] (VStr "t1")) []
           (SdkError "quota exceeded")); reflexivity.
Defined.

Lemma query_route_log (str_exn : exn -> string) (notion : client)
      (fuel : nat) (data : dict) :
  snd (query_notion_database str_exn notion fuel (VDict data)) =
  if truthy (dict_get_default data "database_id" VNone)
  then snd (while_loop (query_body notion
                          (dict_get_default data "database_id" VNone)
                          (dict_get_default data "filter" VNone)
                          (dict_get_default data "sorts" VNone)
                          (dict_get_default data "page_size" (VInt 100)))
                       fuel ([], VNone) [])
  else [].
Proof.
  unfold query_notion_database. cbn [py_get bind].
  destruct (truthy (dict_get_default data "database_id" VNone)); cbn [negb];
    [|reflexivity].
  destruct (while_loop _ fuel ([], VNone) []) as [[[results|e]|] log]; reflexivity.
Qed.

(** X10.  Every run of [query_notion_database] sends its first query
    without a start cursor and each later query with exactly the
    "next_cursor" of the answer before it, an answer whose "has_more" tested
    true; database, filter, sorts and page size (100 when the body gives
    none) are the same in every query, and a body without a database
    identifier sends none. *)
Theorem query_follows_the_cursors :
  forall (str_exn : exn -> string) (notion : client) (fuel : nat) (data : dict),
    let log := snd (query_notion_database str_exn notion fuel (VDict data)) in
    starts_without_cursor (query_of_body data) log /\
    cursor_chain notion (query_of_body data) "has_more" "next_cursor" log /\
    Forall (fun call => exists start_cursor,
                call = DatabasesQuery (dict_get_default data "database_id" VNone)
                                      (dict_get_default data "filter" VNone)
                                      (dict_get_default data "sorts" VNone)
                                      start_cursor
                                      (dict_get_default data "page_size" (VInt 100)))
           log /\
    (if truthy (dict_get_default data "database_id" VNone) then True else log = []).
Proof.
  intros str_exn notion fuel data. cbn zeta. rewrite query_route_log.
  destruct (truthy (dict_get_default data "database_id" VNone)).
  - destruct (paginated_log notion (query_of_body data) "has_more" "next_cursor"
                (query_body notion _ _ _ _)
                (query_body_log notion _ _ _ _)
                (query_body_continue notion _ _ _ _)
                fuel [] VNone [])
      as [Hchain Hstart].
    { left. auto. }
    { intros l1 c1 c2 l2 H. destruct l1; discriminate. }
    { left. reflexivity. }
    split; [exact Hstart|]. split; [exact Hchain|]. split; [|exact I].
    exact (chain_fixes_requests _ _ _ _ _ Hchain Hstart).
  - split; [left; reflexivity|]. split.
    + intros l1 c1 c2 l2 H. destruct l1; discriminate.
    + split; [constructor | reflexivity].
Qed.

(** X11.  When a query of [query_notion_database] raises, it is the last
    query of the run and the answer is status 500 with the string of the
    exception under "error": the results of the pages collected before are
    not returned. *)
Theorem query_discards_pages_on_failure :
  forall (str_exn : exn -> string) (notion : client) (fuel : nat) (data : dict)
         (sent : list notion_call) (call : notion_call)
         (later : list notion_call) (e : exn),
    snd (query_notion_database str_exn notion fuel (VDict data)) =
    sent ++ call :: later ->
    notion sent call = Raise e ->
    query_notion_database str_exn notion fuel (VDict data) =
    (Some (Jsonify (VDict [("error", VStr (str_exn e))]) 500), sent ++ [call]).
Proof.
  intros str_exn notion fuel data sent call later e Hlog Hraise.
  rewrite query_route_log in Hlog.
  unfold query_notion_database. cbn [py_get bind].
  destruct (truthy (dict_get_default data "database_id" VNone)); cbn [negb];
    [|destruct sent; discriminate].
  pose proof (paginated_failure notion (query_of_body data)
                (query_body notion _ _ _ _)
                (query_body_log notion _ _ _ _)
                (query_body_raise notion _ _ _ _)
                fuel [] VNone [] (answered_nil notion)) as Hrun.
  cbn zeta in Hrun.
  destruct (while_loop _ fuel ([], VNone) []) as [r log] eqn:Hloop.
  cbn [fst snd] in Hrun, Hlog. subst log.
  destruct Hrun as [Hall | (l & c & e' & Hl & Hall & Hc & Hr)].
  - exfalso. destruct (Hall _ _ _ eq_refl) as [v Hv]. congruence.
  - subst r. pose proof Hl as Hsplit. symmetry in Hsplit.
    apply snoc_split in Hsplit.
    destruct Hsplit as [(-> & -> & ->) | (l2' & -> & ->)].
    + assert (e' = e) by congruence. subst. reflexivity.
    + exfalso. destruct (Hall sent call l2' eq_refl) as [v Hv]. congruence.
Qed.

Lemma query_discards_pages_on_failure_witness :
  query_notion_database Samples.sample_str PagingSamples.flaky_notion 9
                        (VDict [("database_id", VStr "db")]) =
  (Some (Jsonify (VDict [("error", VStr "quota exceeded")]) 500),
   [DatabasesQuery (VStr "db") VNone VNone VNone (VInt 100);
    DatabasesQuery (VStr "db") VNone VNone (VStr "c1") (VInt 100)]).
Proof.
  apply (query_discards_pages_on_failure
           Samples.sample_str PagingSamples.flaky_notion 9 [("database_id", VStr "db")]
           [DatabasesQuery (VStr "db") VNone VNone VNone (VInt 100)]
           (DatabasesQuery (VStr "db") VNone VNone (VStr "c1") (VInt 100)) []
           (SdkError "quota exceeded")); reflexivity.
Defined.

End PaginationMore.

(* ===================================================================== *)
(** ** Further properties of the calendar handlers                       *)
(* ===================================================================== *)

Module CalendarMore.
Import Calendar CalendarFacts.

Lemma chars_length (s : string) : List.length (chars s) = String.length s.
Proof. induction s as [|c s IH]; simpl; [reflexivity | now rewrite IH]. Qed.

(** [create_event] on a body whose required fields test true and whose
    attendees can be iterated. *)
Lemma create_event_accepted (str_exn : exn -> string) (svc : service)
      (data : dict) (attendee_list : list value) :
  forallb truthy [dict_get_default data "summary" VNone;
                  dict_get_default data "start_time" VNone;
                  dict_get_default data "end_time" VNone] = true ->
  py_iter (dict_get_default data "attendees" (VList [])) = Ok attendee_list ->
  snd (create_event str_exn (Ok svc) (VDict data)) =
  [EventsInsert
     (dict_get_default data "calendar_id" (VStr "primary"))
     (VDict [("summary", dict_get_default data "summary" VNone);
             ("description", dict_get_default data "description" VNone);
             ("start", VDict [("dateTime", dict_get_default data "start_time" VNone)]);
             ("end", VDict [("dateTime", dict_get_default data "end_time" VNone)]);
             ("attendees",
              VList (map (fun attendee => VDict [("email", attendee)])
                         attendee_list))])].
Proof.
  intros Hall Hit. unfold create_event. cbn [py_get bind].
  rewrite Hall. cbn [negb]. rewrite Hit. reflexivity.
Qed.

(** X12.  How [create_event] reads the attendees of a body whose required
    fields are given: no "attendees" key invites nobody; a string is taken
    character by character, one attendee for each; a value that cannot be
    iterated (an explicit null, a number, a boolean) is not caught by any
    handler, so the request fails without an insert being sent. *)
Theorem create_event_attendees :
  forall (str_exn : exn -> string) (svc : service) (data : dict),
    forallb truthy [dict_get_default data "summary" VNone;
                    dict_get_default data "start_time" VNone;
                    dict_get_default data "end_time" VNone] = true ->
    let invited (l : list value) :=
      exists calendar_id body,
        snd (create_event str_exn (Ok svc) (VDict data)) =
        [EventsInsert calendar_id (VDict body)] /\
        dict_get body "attendees" =
        Some (VList (map (fun attendee => VDict [("email", attendee)]) l)) in
    (dict_get data "attendees" = None -> invited []) /\
    (forall s, dict_get data "attendees" = Some (VStr s) ->
               invited (chars s) /\ List.length (chars s) = String.length s) /\
    (forall v e, dict_get data "attendees" = Some v -> py_iter v = Raise e ->
                 create_event str_exn (Ok svc) (VDict data) = (Unhandled e, [])).
Proof.
  intros str_exn svc data Hall invited. split; [|split].
  - intros Habsent. eexists. eexists. split.
    + apply (create_event_accepted str_exn svc data [] Hall).
      unfold dict_get_default. now rewrite Habsent.
    + reflexivity.
  - intros s Hs. split; [|apply chars_length]. eexists. eexists. split.
    + apply (create_event_accepted str_exn svc data (chars s) Hall).
      unfold dict_get_default. now rewrite Hs.
    + reflexivity.
  - intros v e Hv He. unfold create_event. cbn [py_get bind].
    rewrite Hall. cbn [negb]. unfold dict_get_default at 1. rewrite Hv, He.
    reflexivity.
Qed.

Lemma create_event_attendees_witness :
  create_event Samples.sample_str (Ok Samples.sample_calendar)
               (VDict [("summary", VStr "Standup"); ("start_time", VStr "t0");
                       ("end_time", VStr "t1"); ("attendees", VNone)]) =
  (Unhandled (NotIterable VNone), []).
Proof.
  destruct (create_event_attendees
              Samples.sample_str Samples.sample_calendar
              [("summary", VStr "Standup"); ("start_time", VStr "t0");
               ("end_time", VStr "t1"); ("attendees", VNone)] eq_refl)
    as (_ & _ & Hnull).
  apply (Hnull VNone (NotIterable VNone)); reflexivity.
Defined.

(** X13.  An edit that gives none of the five fields sends the fetched
    record back exactly as it was fetched, whatever the provider answered
    the fetch with. *)
Theorem edit_event_without_fields_writes_back_the_record :
  forall (str_exn : exn -> string) (svc : service) (data : dict) (fetched : value),
    let requested k := dict_get_default data k VNone in
    let calendar_id := dict_get_default data "calendar_id" (VStr "primary") in
    truthy (requested "event_id") = true ->
    requested "summary" = VNone -> requested "description" = VNone ->
    requested "start_time" = VNone -> requested "end_time" = VNone ->
    requested "attendees" = VNone ->
    svc [] (EventsGet calendar_id (requested "event_id")) = Ok fetched ->
    snd (edit_event str_exn (Ok svc) (VDict data)) =
    [EventsGet calendar_id (requested "event_id");
     EventsUpdate calendar_id (requested "event_id") fetched].
Proof.
  intros str_exn svc data fetched requested calendar_id Hid Hs Hd Hst He Ha Hget.
  unfold requested in *. unfold edit_event. cbn [py_get bind].
  fold calendar_id. rewrite Hid. cbn [negb]. rewrite Hget.
  unfold overwrite_fields. cbn [py_get bind].
  rewrite Hs, Hd, Hst, He, Ha. cbn [is_none negb bind].
  destruct (svc _ (EventsUpdate _ _ _)); reflexivity.
Qed.

Lemma edit_event_without_fields_writes_back_the_record_witness :
  snd (edit_event Samples.sample_str (Ok Samples.sample_calendar)
                  (VDict [("event_id", VStr "ev1")])) =
  [EventsGet (VStr "primary") (VStr "ev1");
   EventsUpdate (VStr "primary") (VStr "ev1") (VDict Samples.stored_event)].
Proof.
  apply (edit_event_without_fields_writes_back_the_record
           Samples.sample_str Samples.sample_calendar
           [("event_id", VStr "ev1")] (VDict Samples.stored_event));
    reflexivity.
Defined.

(** X14.  [edit_event] never updates an event it has not fetched: its
    requests are none, the fetch alone, or the fetch followed by one update
    of the same event in the same calendar, and then the fetch was answered
    and the update carries what the overwrites made of the answer. *)
Theorem edit_event_updates_only_what_it_fetched :
  forall (str_exn : exn -> string) (get_calendar_service : result service)
         (data : value),
    let log := snd (edit_event str_exn get_calendar_service data) in
    log = [] \/
    exists calendar_id event_id,
      log = [EventsGet calendar_id event_id] \/
      exists svc fetched body,
        get_calendar_service = Ok svc /\
        svc [] (EventsGet calendar_id event_id) = Ok fetched /\
        overwrite_fields fetched data = Ok body /\
        log = [EventsGet calendar_id event_id;
               EventsUpdate calendar_id event_id body].
Proof.
  intros str_exn gcs data. cbn zeta. unfold edit_event.
  destruct gcs as [svc|e]; [|left; reflexivity].
  destruct (calendar_id <- py_get data (VStr "calendar_id") (VStr "primary") ;;
            event_id <- py_get data (VStr "event_id") VNone ;;
            Ok (calendar_id, event_id)) as [[cid eid]|e]; [|left; reflexivity].
  destruct (truthy eid); cbn [negb]; [|left; reflexivity].
  right. exists cid, eid.
  destruct (svc [] (EventsGet cid eid)) as [fetched|e] eqn:Hget; [|left; reflexivity].
  destruct (overwrite_fields fetched data) as [body|e] eqn:Hbody; [|left; reflexivity].
  right. exists svc, fetched, body. auto.
Qed.

End CalendarMore.

(* ===================================================================== *)
(** ** The workspace handlers without a loop                             *)
(* ===================================================================== *)

Module WorkspaceFacts.
Import Workspace WorkspaceSpec.

Lemma and_then_done {A B} (c : outcome A) (k : A -> outcome B) (b : B) :
  and_then c k = Done b -> exists a, c = Done a /\ k a = Done b.
Proof. destruct c as [a|e]; cbn; intros H; [eauto | discriminate]. Qed.

Lemma lift_done {A} (r : result A) (a : A) : lift r = Done a -> r = Ok a.
Proof. destruct r; cbn; intros H; inversion H; reflexivity. Qed.

Lemma collect_done {A B} (f : A -> outcome B) (xs : list A) (ys : list B) :
  collect f xs = Done ys -> Forall2 (fun x y => f x = Done y) xs ys.
Proof.
  revert ys. induction xs as [|x xs IH]; intros ys H; cbn in H.
  - inversion H. constructor.
  - apply and_then_done in H. destruct H as (y & Hy & H).
    apply and_then_done in H. destruct H as (ys' & Hys & H).
    inversion H; subst. constructor; [exact Hy | now apply IH].
Qed.

Lemma collect_first_failure {A B} (f : A -> outcome B)
      (before_ after_ : list A) (x : A) (e : exception) :
  Forall (fun b => exists y, f b = Done y) before_ ->
  f x = Fail e ->
  collect f (before_ ++ x :: after_) = Fail e.
Proof.
  induction 1 as [|b bs [y Hy] _ IH]; intros Hx; cbn.
  - now rewrite Hx.
  - rewrite Hy. cbn. rewrite (IH Hx). reflexivity.
Qed.

Section Handlers.
Variable str_exception : exception -> string.
Variable notion : workspace.

(** What a successful [database_info] has read. *)
Lemma database_info_done (db info : value) :
  database_info db = Done info -> database_entry db info.
Proof.
  unfold database_info, database_entry. intros H.
  apply and_then_done in H. destruct H as (id & Hid & H).
  apply lift_done in Hid.
  destruct db as [| | | | |d]; try discriminate.
  cbn [py_getitem] in Hid. destruct (dict_get d "id") as [id'|] eqn:Hd; [|discriminate].
  inversion Hid; subst id'.
  cbn [py_get lift and_then] in H.
  apply and_then_done in H. destruct H as (title & Ht & H).
  inversion H; subst info. exists d, id, title.
  split; [reflexivity|]. split; [exact Hd|]. split; [reflexivity|].
  destruct (truthy (dict_get_default d "title" VNone)).
  - apply and_then_done in Ht. destruct Ht as (spans & Hs & Ht).
    apply lift_done in Hs. cbn [py_getitem] in Hs.
    destruct (dict_get d "title") as [spans'|]; [|discriminate].
    inversion Hs; subst spans'.
    apply and_then_done in Ht. destruct Ht as (first & Hf & Ht).
    apply lift_done in Ht.
    destruct first as [| | | | |span]; try discriminate.
    cbn [py_getitem] in Ht.
    destruct (dict_get span "plain_text") as [t|] eqn:Hp; [|discriminate].
    inversion Ht; subst t. exists spans, (VDict span), span. auto.
  - now inversion Ht.
Qed.

(** The title of a page is the default or the plain text at the end of
    the chain, and a failure is never an index or key error. *)
Lemma page_title_cases (page : value) :
  match page_title page with
  | Done title => title = VStr "Unnamed Page" \/ titled page title
  | Fail e => index_or_key_error e = false
  end.
Proof.
  unfold page_title.
  destruct page as [| | | | |d]; try reflexivity.
  cbn [py_get lift and_then].
  remember (dict_get_default d "properties" (VDict [])) as held eqn:Hheld.
  destruct (py_contains held "title") as [[|]|e] eqn:Hc; cbn [lift and_then];
    [|now left|destruct held; cbn in Hc; inversion Hc; reflexivity].
  clear Hheld Hc held. cbn [py_getitem].
  destruct (dict_get d "properties") as [a|] eqn:Ha; cbn [lift and_then];
    [|now left].
  destruct a as [| | | | |props]; try reflexivity.
  cbn [py_getitem].
  destruct (dict_get props "title") as [b|] eqn:Hb; cbn [lift and_then];
    [|now left].
  destruct b as [| | | | |tp]; try reflexivity.
  cbn [py_getitem].
  destruct (dict_get tp "title") as [c|] eqn:Ht; cbn [lift and_then];
    [|now left].
  destruct (py_first c) as [first|e] eqn:Hf; cbn [and_then].
  - destruct first as [| | | | |span]; try reflexivity.
    cbn [py_getitem].
    destruct (dict_get span "plain_text") as [t|] eqn:Hp; cbn [lift];
      [|now left].
    right. exists d, props, tp, c, span. auto 10.
  - destruct c as [| | | [|ch s] |[|x l]|cd]; cbn in Hf; inversion Hf; subst;
      cbn; try reflexivity; now left.
Qed.

Lemma page_info_done (page info : value) :
  page_info page = Done info -> page_entry page info.
Proof.
  unfold page_info, page_entry. intros H.
  apply and_then_done in H. destruct H as (title & Ht & H).
  pose proof (page_title_cases page) as Hcases. rewrite Ht in Hcases.
  apply and_then_done in H. destruct H as (id & Hid & H).
  apply lift_done in Hid.
  destruct page as [| | | | |d]; try discriminate.
  cbn [py_getitem] in Hid. destruct (dict_get d "id") as [id'|] eqn:Hd; [|discriminate].
  inversion Hid; subst id'.
  cbn [py_get lift and_then] in H. inversion H; subst info.
  exists d, id, title. auto.
Qed.

End Handlers.

(** X15.  When [list_notion_databases] answers 200, the provider's search
    was answered and the body holds one entry per database found, in the
    same order: the database's identifier and, as title, the plain text of
    the first span of its title, or "Unnamed Database" when the title tests
    false (absent, null or empty). *)
Theorem list_notion_databases_entries :
  forall (str_exception : exception -> string) (notion : workspace)
         (infos : list value),
    fst (list_notion_databases str_exception notion) = Jsonify (VList infos) 200 ->
    exists databases,
      found notion search_databases databases /\
      Forall2 database_entry databases infos.
Proof.
  intros str_exception notion infos H.
  unfold list_notion_databases in H. cbn [fst] in H.
  fold search_databases in H.
  destruct (lift (notion [] search_databases)) as [response|e] eqn:Hr;
    [|discriminate].
  cbn [and_then] in H.
  destruct (lift (py_get response (VStr "results") (VList []))) as [results|e] eqn:Hres;
    [|discriminate].
  cbn [and_then] in H.
  destruct (lift (py_iter results)) as [databases|e] eqn:Hit; [|discriminate].
  cbn [and_then] in H.
  destruct (collect database_info databases) as [found_infos|e] eqn:Hc;
    [|discriminate].
  cbn [and_then] in H. inversion H; subst found_infos.
  exists databases. split.
  - exists response, results.
    split; [now apply lift_done|]. split; now apply lift_done.
  - apply collect_done in Hc.
    eapply Forall2_impl; [|exact Hc].
    intros db info. apply database_info_done.
Qed.

Lemma list_notion_databases_entries_witness :
  exists databases,
    found WorkspaceSamples.sample_workspace search_databases databases /\
    Forall2 database_entry databases
            [VDict [("id", VStr "db1"); ("title", VStr "Tasks")];
             VDict [("id", VStr "db2"); ("title", VStr "Unnamed Database")]].
Proof.
  apply (list_notion_databases_entries
           WorkspaceSamples.sample_str_exception WorkspaceSamples.sample_workspace).
  reflexivity.
Defined.

(** X16.  The title lookup of [list_notion_databases] is not guarded: the
    first database whose entry cannot be built fails the whole listing with
    status 500 and the string of its exception, and the entries of the
    databases before it are not returned. *)
Theorem list_notion_databases_fails_as_a_whole :
  forall (str_exception : exception -> string) (notion : workspace)
         (before_ after_ : list value) (db : value) (e : exception),
    found notion search_databases (before_ ++ db :: after_) ->
    Forall (fun b => exists info, database_info b = Done info) before_ ->
    database_info db = Fail e ->
    list_notion_databases str_exception notion =
    (Jsonify (VDict [("error", VStr (str_exception e))]) 500, [search_databases]).
Proof.
  intros str_exception notion before_ after_ db e
         (response & results & Hr & Hres & Hit) Hbefore Hdb.
  unfold list_notion_databases. fold search_databases.
  rewrite Hr. cbn [lift and_then]. rewrite Hres. cbn [lift and_then].
  rewrite Hit. cbn [lift and_then].
  rewrite (collect_first_failure _ _ _ _ _ Hbefore Hdb). reflexivity.
Qed.

Lemma list_notion_databases_fails_as_a_whole_witness :
  list_notion_databases WorkspaceSamples.sample_str_exception
                        WorkspaceSamples.broken_workspace =
  (Jsonify (VDict [("error", VStr "error")]) 500, [search_databases]).
Proof.
  apply (list_notion_databases_fails_as_a_whole
           WorkspaceSamples.sample_str_exception WorkspaceSamples.broken_workspace
           [WorkspaceSamples.titled_database] [WorkspaceSamples.untitled_database]
           WorkspaceSamples.broken_database (Base (KeyError "plain_text"))).
  - eexists. eexists. split; [reflexivity|]. split; reflexivity.
  - repeat constructor. eexists. reflexivity.
  - reflexivity.
Defined.

(** X17.  The title of a listed page is the plain text of the first span
    under [properties.title.title], or "Unnamed Page"; the lookup never
    fails with an index or key error, so a title property without spans or
    without plain text keeps the default instead of failing the listing. *)
Theorem page_title_is_best_effort :
  forall (page : value),
    match page_title page with
    | Done title => title = VStr "Unnamed Page" \/ titled page title
    | Fail e => index_or_key_error e = false
    end.
Proof. exact page_title_cases. Qed.

(** X18.  When [list_notion_pages] answers 200, the provider's search was
    answered and the body holds one entry per page found, in the same
    order, each with the keys id, title, created_time, last_edited_time and
    url in this order, the last three null when the page has none. *)
Theorem list_notion_pages_entries :
  forall (str_exception : exception -> string) (notion : workspace)
         (infos : list value),
    fst (list_notion_pages str_exception notion) = Jsonify (VList infos) 200 ->
    exists pages,
      found notion search_pages pages /\
      Forall2 page_entry pages infos.
Proof.
  intros str_exception notion infos H.
  unfold list_notion_pages in H. cbn [fst] in H.
  fold search_pages in H.
  destruct (lift (notion [] search_pages)) as [response|e] eqn:Hr; [|discriminate].
  cbn [and_then] in H.
  destruct (lift (py_get response (VStr "results") (VList []))) as [results|e] eqn:Hres;
    [|discriminate].
  cbn [and_then] in H.
  destruct (lift (py_iter results)) as [pages|e] eqn:Hit; [|discriminate].
  cbn [and_then] in H.
  destruct (collect page_info pages) as [found_infos|e] eqn:Hc; [|discriminate].
  cbn [and_then] in H. inversion H; subst found_infos.
  exists pages. split.
  - exists response, results.
    split; [now apply lift_done|]. split; now apply lift_done.
  - apply collect_done in Hc.
    eapply Forall2_impl; [|exact Hc].
    intros page info. apply page_info_done.
Qed.

Lemma list_notion_pages_entries_witness :
  exists pages,
    found WorkspaceSamples.sample_workspace search_pages pages /\
    Forall2 page_entry pages
            [VDict [("id", VStr "p1"); ("title", VStr "Notes");
                    ("created_time", VNone); ("last_edited_time", VNone);
                    ("url", VStr "https://example.org/p1")];
             VDict [("id", VStr "p2"); ("title", VStr "Unnamed Page");
                    ("created_time", VNone); ("last_edited_time", VNone);
                    ("url", VNone)]].
Proof.
  apply (list_notion_pages_entries
           WorkspaceSamples.sample_str_exception WorkspaceSamples.sample_workspace).
  reflexivity.
Defined.

(** X19.  [get_notion_database_schema] never answers 500: the helper
    turns a failed retrieval into its error string, which the route then
    returns with status 200 like a schema; without a database identifier
    the answer is 400 and nothing is requested. *)
Theorem schema_route_answers_200_on_failure :
  forall (str_exception : exception -> string) (notion : workspace)
         (args : list (string * string)),
    let answer := get_notion_database_schema str_exception notion args in
    let database_id := args_get args "database_id" VNone in
    (status_of (fst answer) = 200 \/ status_of (fst answer) = 400)%Z /\
    (if truthy database_id
     then snd answer = [DatabasesRetrieve database_id] /\
          match notion [] (DatabasesRetrieve database_id) with
          | Ok schema => fst answer = Jsonify schema 200
          | Raise e => fst answer = Jsonify (VStr (str_exception (Base e))) 200
          end
     else answer =
          (Jsonify (VDict [("error", VStr "Database ID is required")]) 400, [])).
Proof.
  intros str_exception notion args. cbn zeta.
  unfold get_notion_database_schema, get_database_schema.
  destruct (truthy (args_get args "database_id" VNone)); cbn [negb].
  - split; [left; reflexivity|]. split; [reflexivity|].
    destruct (notion [] _); reflexivity.
  - split; [right; reflexivity | reflexivity].
Qed.

(** X20.  [get_notion_database_pages] cannot succeed: the helper it calls
    is not defined, so with a database identifier it answers 500 with the
    string of the name error, without one 400, and it never sends a
    request. *)
Theorem database_pages_route_never_succeeds :
  forall (str_exception : exception -> string) (notion : workspace)
         (args : list (string * string)),
    let answer := get_notion_database_pages str_exception args in
    snd answer = [] /\
    (if truthy (args_get args "database_id" VNone)
     then fst answer =
          Jsonify (VDict [("error",
                           VStr (str_exception (NameError "query_database")))]) 500
     else fst answer =
          Jsonify (VDict [("error", VStr "Database ID is required")]) 400).
Proof.
  intros str_exception notion args. cbn zeta. unfold get_notion_database_pages.
  destruct (truthy (args_get args "database_id" VNone)); split; reflexivity.
Qed.

(** X21.  [update_notion_database_entry] sends one update, with the page
    identifier and the properties of the body, exactly when both test true;
    an empty properties object is rejected with 400 like a missing one, and
    then nothing is sent. *)
Theorem update_entry_requires_non_empty_properties :
  forall (str_exception : exception -> string) (notion : workspace) (data : dict),
    let page_id := dict_get_default data "page_id" VNone in
    let properties := dict_get_default data "updated_properties" VNone in
    let answer := update_notion_database_entry str_exception notion (VDict data) in
    if truthy page_id && truthy properties
    then snd answer = [PagesUpdate page_id properties] /\
         match notion [] (PagesUpdate page_id properties) with
         | Ok result => fst answer = Jsonify result 200
         | Raise e =>
             fst answer =
             Jsonify (VDict [("error", VStr (str_exception (Base e)))]) 500
         end
    else answer =
         (Jsonify (VDict [("error",
                           VStr "Page ID and updated properties are required")]) 400,
          []).
Proof.
  intros str_exception notion data. cbn zeta.
  unfold update_notion_database_entry. cbn [py_get bind].
  destruct (truthy (dict_get_default data "page_id" VNone));
    destruct (truthy (dict_get_default data "updated_properties" VNone));
    cbn [negb orb andb]; try reflexivity.
  split; [reflexivity|]. destruct (notion [] _); reflexivity.
Qed.

(** X22.  [create_notion_entry] passes the parent database and the
    properties on as keyword arguments and adds "children" exactly when the
    content of the body tests true: an absent, null or empty content sends
    no "children" argument at all. *)
Theorem create_entry_sends_children_only_when_given :
  forall (str_exception : exception -> string) (notion : workspace) (data : dict),
    let database_id := dict_get_default data "database_id" VNone in
    let properties := dict_get_default data "properties" VNone in
    let content := dict_get_default data "content" VNone in
    truthy database_id = true -> truthy properties = true ->
    snd (create_notion_entry str_exception notion (VDict data)) =
    [PagesCreate ([("parent", VDict [("database_id", database_id)]);
                   ("properties", properties)] ++
                  (if truthy content then [("children", content)] else []))].
Proof.
  intros str_exception notion data database_id properties content Hid Hprops.
  unfold create_notion_entry. cbn [py_get bind].
  fold database_id properties content. rewrite Hid, Hprops. cbn [negb orb].
  destruct (truthy content); reflexivity.
Qed.

Lemma create_entry_sends_children_only_when_given_witness :
  snd (create_notion_entry WorkspaceSamples.sample_str_exception
                           WorkspaceSamples.sample_workspace
                           (VDict [("database_id", VStr "db1");
                                   ("properties", VDict [("Name", VStr "x")]);
                                   ("content", VList [])])) =
  [PagesCreate [("parent", VDict [("database_id", VStr "db1")]);
                ("properties", VDict [("Name", VStr "x")])]].
Proof.
  apply (create_entry_sends_children_only_when_given
           WorkspaceSamples.sample_str_exception WorkspaceSamples.sample_workspace
           [("database_id", VStr "db1"); ("properties", VDict [("Name", VStr "x")]);
            ("content", VList [])]); reflexivity.
Defined.

End WorkspaceFacts.

(* ===================================================================== *)
(** ** Calendar credentials                                              *)
(* ===================================================================== *)

Module AuthFacts.
Import Auth.

(** Runs through every path of [get_calendar_service]. *)
Ltac auth_paths env :=
  unfold get_calendar_service, with_stored, interactive_flow, build_service;
  destruct (token_file_exists env);
  [destruct (from_authorized_user_file env) as [stored|?] eqn:Hread;
   [destruct (valid stored) eqn:Hvalid; cbn [negb];
    [|destruct (expired stored && truthy (refresh_token stored));
      [destruct (refresh env stored) as [refreshed|?] eqn:Hrefresh|]]|]|];
  try (destruct (from_client_secrets_file env) as [[]|?];
       [destruct (run_local_server env) as [fresh|?] eqn:Hrun;
        [destruct (write_token_file env fresh) as [[]|?]|]|]);
  cbn [fst snd app].

(** X23.  [get_calendar_service] writes the token file only on the
    interactive path, and then the credentials the local server flow
    returned: credentials it has refreshed are used for the service and
    never written back, so a run that refreshes leaves the stored token
    as it was. *)
Theorem refreshed_credentials_are_never_written :
  forall (env : environment) (written : credentials),
    In (TokenFileWritten written) (snd (get_calendar_service env)) ->
    run_local_server env = Ok written /\
    In LocalServerRun (snd (get_calendar_service env)) /\
    forall c, ~ In (Refreshed c) (snd (get_calendar_service env)).
Proof.
  intros env written. auth_paths env; cbn [In]; intros H;
    repeat (destruct H as [H|H]; try discriminate H); try contradiction;
    inversion H; subst;
    (split; [reflexivity|]; split; [auto 10|]);
    intros c Hc; repeat (destruct Hc as [Hc|Hc]; try discriminate Hc);
    contradiction.
Qed.

Lemma refreshed_credentials_are_never_written_witness :
  run_local_server first_run_environment = Ok renewed /\
  snd (get_calendar_service stale_environment) =
  [TokenFileChecked; TokenFileRead; Refreshed stale; ServiceBuilt renewed].
Proof.
  split; [|reflexivity].
  apply (refreshed_credentials_are_never_written first_run_environment renewed).
  cbn. auto 10.
Defined.



End AuthFacts.
